(** * LoanGuard: requirement extraction, normalisation and compliance aggregation

    A shallow embedding of [src/models.py], of the extraction pipeline of
    [src/extractor.py], of [Loan.calculate_compliance_score] of
    [src/database.py] and of the requirement handlers of [src/api.py], with
    the properties the specification states about them and further ones.

    Python values are modelled by the inductive type [pyval]; a Python [str] is
    a [string] of characters with code points below 256; a Python [float] is an IEEE-754
    binary64 number, [spec_float] at precision 53; a Python [dict] decoded from
    JSON is an association list read through [dict_get]; a raised exception is
    the [Raise] branch of [result]. *)

From Stdlib Require Import ZArith List String Ascii Bool Lia DecimalString.
From Stdlib Require Import Floats.SpecFloat.
From Stdlib Require Import Sorting.Sorted.
Import ListNotations.

Local Open Scope string_scope.
Local Open Scope Z_scope.

(** ** Python values *)

Module Py.

(** binary64 arithmetic, as CPython's [float] *)
Definition prec : Z := 53.
Definition emax : Z := 1024.

Definition float_of_int (n : Z) : spec_float := binary_normalize prec emax n 0 false.
Definition fmul : spec_float -> spec_float -> spec_float := SFmul prec emax.
Definition fadd : spec_float -> spec_float -> spec_float := SFadd prec emax.
Definition fdiv : spec_float -> spec_float -> spec_float := SFdiv prec emax.

(** the float literal [num * 2^e2], rounded as the parser does *)
Definition float_lit (num e2 : Z) : spec_float := binary_normalize prec emax num e2 false.

Inductive exn : Type :=
| AttributeError
| TypeError
| KeyError
| OverflowError
| ZeroDivisionError
| RuntimeError (msg : string)
| ValueError (msg : string)
| JSONDecodeError
| HTTPError.

Inductive result (A : Type) : Type :=
| Ok (a : A)
| Raise (e : exn).
Arguments Ok {A} a.
Arguments Raise {A} e.

Definition bind {A B : Type} (r : result A) (k : A -> result B) : result B :=
  match r with
  | Ok a => k a
  | Raise e => Raise e
  end.

Definition rmap {A B : Type} (f : A -> B) (r : result A) : result B :=
  bind r (fun a => Ok (f a)).

(** [int(x)] for a float [x]: truncation towards zero *)
Definition int_of_float (x : spec_float) : result Z :=
  match x with
  | S754_zero _ => Ok 0
  | S754_infinity _ => Raise OverflowError
  | S754_nan => Raise (ValueError "cannot convert float NaN to integer")
  | S754_finite s m e =>
      let mag := match e with
                 | Z0 => Zpos m
                 | Zpos p => Zpos m * 2 ^ Zpos p
                 | Zneg p => Zpos m / 2 ^ Zpos p
                 end in
      Ok (if s then - mag else mag)
  end.

(** a decoded JSON value, or any other primitive Python value *)
#[local] Unset Elimination Schemes.
Inductive pyval : Type :=
| PNone
| PBool (b : bool)
| PInt (n : Z)
| PFloat (x : spec_float)
| PStr (s : string)
| PList (l : list pyval)
| PDict (d : list (string * pyval)).
#[local] Set Elimination Schemes.

(** truth value of an object, as tested by [if], [or] and [not] *)
Definition truthy (v : pyval) : bool :=
  match v with
  | PNone => false
  | PBool b => b
  | PInt n => negb (n =? 0)
  | PFloat (S754_zero _) => false
  | PFloat _ => true
  | PStr s => negb (s =? "")%string
  | PList l => match l with [] => false | _ => true end
  | PDict d => match d with [] => false | _ => true end
  end.

(** [a or b] *)
Definition por (a b : pyval) : pyval := if truthy a then a else b.

(** the binding of key [k] in a dict *)
Fixpoint dict_get (d : list (string * pyval)) (k : string) : option pyval :=
  match d with
  | [] => None
  | (k', v) :: d' => if (k' =? k)%string then Some v else dict_get d' k
  end.

(** [d[k] = v] *)
Fixpoint dict_set (d : list (string * pyval)) (k : string) (v : pyval)
  : list (string * pyval) :=
  match d with
  | [] => [(k, v)]
  | (k', v') :: d' =>
      if (k' =? k)%string then (k', v) :: d' else (k', v') :: dict_set d' k v
  end.

(** [obj.get(k, dflt)]: only a dict has the method *)
Definition get (obj : pyval) (k : string) (dflt : pyval) : result pyval :=
  match obj with
  | PDict d => Ok (match dict_get d k with Some v => v | None => dflt end)
  | _ => Raise AttributeError
  end.

(** [obj[k]] for a string key on a value decoded from JSON *)
Definition getitem (obj : pyval) (k : string) : result pyval :=
  match obj with
  | PDict d => match dict_get d k with Some v => Ok v | None => Raise KeyError end
  | _ => Raise TypeError
  end.

(** [c.lower()] on one character (code points below 256) *)
Definition lower_char (c : ascii) : ascii :=
  let n := nat_of_ascii c in
  if ((Nat.leb 65 n && Nat.leb n 90)
      || (Nat.leb 192 n && Nat.leb n 222 && negb (Nat.eqb n 215)))%bool
  then ascii_of_nat (n + 32) else c.

(** the characters [\s] matches (code points below 256) *)
Definition is_space (c : ascii) : bool :=
  let n := nat_of_ascii c in
  ((Nat.leb 9 n && Nat.leb n 13) || (Nat.leb 28 n && Nat.leb n 32)
   || Nat.eqb n 133 || Nat.eqb n 160)%bool.

Fixpoint map_string (f : ascii -> ascii) (s : string) : string :=
  match s with
  | EmptyString => EmptyString
  | String c s' => String (f c) (map_string f s')
  end.

(** [s.lower()] *)
Definition str_lower (s : string) : string := map_string lower_char s.

(** [s.replace(a, b)] for single characters [a] and [b] *)
Definition str_replace (a b : ascii) (s : string) : string :=
  map_string (fun c => if Ascii.eqb c a then b else c) s.

(** [obj.lower()]: only a str has the method *)
Definition lower (obj : pyval) : result string :=
  match obj with
  | PStr s => Ok (str_lower s)
  | _ => Raise AttributeError
  end.

(** [len(s)] *)
Definition len (s : string) : Z := Z.of_nat (String.length s).

(** a slice bound [i] on a sequence of length [n]: negative bounds count from
    the end, and every bound is clamped to [0..n] *)
Definition slice_bound (n i : Z) : Z :=
  if i <? 0 then Z.max 0 (i + n) else Z.min i n.

(** [s[start:stop]]; [None] is an omitted bound *)
Definition str_slice (s : string) (start stop : option Z) : string :=
  let n := len s in
  let a := match start with Some i => slice_bound n i | None => 0 end in
  let b := match stop with Some j => slice_bound n j | None => n end in
  substring (Z.to_nat a) (Z.to_nat (b - a)) s.

(** [obj[:n]]: a str or a list can be sliced; slicing a dict or a scalar
    raises *)
Definition slice_to (obj : pyval) (n : Z) : result pyval :=
  match obj with
  | PStr s => Ok (PStr (str_slice s None (Some n)))
  | PList l => Ok (PList (firstn (Z.to_nat (slice_bound (Z.of_nat (List.length l)) n)) l))
  | _ => Raise TypeError
  end.

(** [str(n)] for a natural number *)
Definition str_of_nat (n : nat) : string := NilZero.string_of_uint (Nat.to_uint n).

(** [f"{n:03d}"]: decimal, padded with zeros on the left to width 3 *)
Definition format_03d (n : nat) : string :=
  let s := str_of_nat n in
  match String.length s with
  | 0%nat => "000" ++ s
  | 1%nat => "00" ++ s
  | 2%nat => "0" ++ s
  | _ => s
  end.

(** iteration over a value: a list yields its items, a dict its keys, a str
    its characters; nothing else is iterable *)
Definition iter (obj : pyval) : result (list pyval) :=
  match obj with
  | PList l => Ok l
  | PDict d => Ok (map (fun kv => PStr (fst kv)) d)
  | PStr s => Ok (map (fun c => PStr (String c EmptyString)) (list_ascii_of_string s))
  | _ => Raise TypeError
  end.

End Py.

Notation "x <- c1 ;; c2" := (Py.bind c1 (fun x => c2))
  (at level 61, c1 at next level, right associativity).

Import Py.


(** ** The domain model, [src/models.py] *)

Module Models.

Inductive RequirementCategory : Type :=
| FINANCIAL_REPORTING
| COVENANT_COMPLIANCE
| INSURANCE
| RESERVE_FUNDING
| PROPERTY_MANAGEMENT
| LEASING
| CAPITAL_IMPROVEMENTS
| TAX_ESCROW
| ENVIRONMENTAL
| LEGAL_ENTITY
| OTHER.

Inductive Frequency : Type :=
| MONTHLY
| QUARTERLY
| SEMI_ANNUAL
| ANNUAL
| ONE_TIME
| AS_NEEDED
| UPON_REQUEST.

Inductive ComplianceStatus : Type :=
| COMPLIANT
| NON_COMPLIANT
| AT_RISK
| PENDING
| UNKNOWN
| NOT_YET_DUE.

Inductive Severity : Type :=
| CRITICAL
| HIGH
| MEDIUM
| LOW.

(** an enum class: its members in definition order, each with its [value] *)
Class PyEnum (E : Type) : Type := {
  members : list E;
  value : E -> string;
  enum_eqb : E -> E -> bool
}.

(** [E(s)]: the member whose value is [s]; [None] stands for the [ValueError]
    the enum constructor raises *)
Definition of_value {E : Type} `{PyEnum E} (s : string) : option E :=
  find (fun m => (value m =? s)%string) members.

Definition category_eqb (a b : RequirementCategory) : bool :=
  match a, b with
  | FINANCIAL_REPORTING, FINANCIAL_REPORTING
  | COVENANT_COMPLIANCE, COVENANT_COMPLIANCE
  | INSURANCE, INSURANCE
  | RESERVE_FUNDING, RESERVE_FUNDING
  | PROPERTY_MANAGEMENT, PROPERTY_MANAGEMENT
  | LEASING, LEASING
  | CAPITAL_IMPROVEMENTS, CAPITAL_IMPROVEMENTS
  | TAX_ESCROW, TAX_ESCROW
  | ENVIRONMENTAL, ENVIRONMENTAL
  | LEGAL_ENTITY, LEGAL_ENTITY
  | OTHER, OTHER => true
  | _, _ => false
  end.

#[global] Instance RequirementCategory_enum : PyEnum RequirementCategory := {
  members := [FINANCIAL_REPORTING; COVENANT_COMPLIANCE; INSURANCE; RESERVE_FUNDING;
              PROPERTY_MANAGEMENT; LEASING; CAPITAL_IMPROVEMENTS; TAX_ESCROW;
              ENVIRONMENTAL; LEGAL_ENTITY; OTHER];
  value c := match c with
             | FINANCIAL_REPORTING => "financial_reporting"
             | COVENANT_COMPLIANCE => "covenant_compliance"
             | INSURANCE => "insurance"
             | RESERVE_FUNDING => "reserve_funding"
             | PROPERTY_MANAGEMENT => "property_management"
             | LEASING => "leasing"
             | CAPITAL_IMPROVEMENTS => "capital_improvements"
             | TAX_ESCROW => "tax_escrow"
             | ENVIRONMENTAL => "environmental"
             | LEGAL_ENTITY => "legal_entity"
             | OTHER => "other"
             end;
  enum_eqb := category_eqb
}.

Definition frequency_eqb (a b : Frequency) : bool :=
  match a, b with
  | MONTHLY, MONTHLY | QUARTERLY, QUARTERLY | SEMI_ANNUAL, SEMI_ANNUAL
  | ANNUAL, ANNUAL | ONE_TIME, ONE_TIME | AS_NEEDED, AS_NEEDED
  | UPON_REQUEST, UPON_REQUEST => true
  | _, _ => false
  end.

#[global] Instance Frequency_enum : PyEnum Frequency := {
  members := [MONTHLY; QUARTERLY; SEMI_ANNUAL; ANNUAL; ONE_TIME; AS_NEEDED; UPON_REQUEST];
  value f := match f with
             | MONTHLY => "monthly"
             | QUARTERLY => "quarterly"
             | SEMI_ANNUAL => "semi_annual"
             | ANNUAL => "annual"
             | ONE_TIME => "one_time"
             | AS_NEEDED => "as_needed"
             | UPON_REQUEST => "upon_request"
             end;
  enum_eqb := frequency_eqb
}.

Definition status_eqb (a b : ComplianceStatus) : bool :=
  match a, b with
  | COMPLIANT, COMPLIANT | NON_COMPLIANT, NON_COMPLIANT | AT_RISK, AT_RISK
  | PENDING, PENDING | UNKNOWN, UNKNOWN | NOT_YET_DUE, NOT_YET_DUE => true
  | _, _ => false
  end.

#[global] Instance ComplianceStatus_enum : PyEnum ComplianceStatus := {
  members := [COMPLIANT; NON_COMPLIANT; AT_RISK; PENDING; UNKNOWN; NOT_YET_DUE];
  value s := match s with
             | COMPLIANT => "compliant"
             | NON_COMPLIANT => "non_compliant"
             | AT_RISK => "at_risk"
             | PENDING => "pending"
             | UNKNOWN => "unknown"
             | NOT_YET_DUE => "not_yet_due"
             end;
  enum_eqb := status_eqb
}.

Definition severity_eqb (a b : Severity) : bool :=
  match a, b with
  | CRITICAL, CRITICAL | HIGH, HIGH | MEDIUM, MEDIUM | LOW, LOW => true
  | _, _ => false
  end.

#[global] Instance Severity_enum : PyEnum Severity := {
  members := [CRITICAL; HIGH; MEDIUM; LOW];
  value s := match s with
             | CRITICAL => "critical"
             | HIGH => "high"
             | MEDIUM => "medium"
             | LOW => "low"
             end;
  enum_eqb := severity_eqb
}.

Record Deadline : Type := mkDeadline {
  dl_description : pyval;
  days_after_period_end : pyval;
  specific_date : pyval;
  day_of_month : pyval;
  frequency : Frequency
}.

Record Threshold : Type := mkThreshold {
  metric : pyval;
  operator : pyval;
  th_value : pyval;
  secondary_value : pyval;
  unit : pyval
}.

Record LoanRequirement : Type := mkLoanRequirement {
  id : string;
  title : pyval;
  category : RequirementCategory;
  description : pyval;
  plain_language_summary : pyval;
  original_text : pyval;
  document_reference : pyval;
  deadline : option Deadline;
  threshold : option Threshold;
  severity : Severity;
  cure_period_days : pyval;
  status : ComplianceStatus;
  last_checked : pyval;
  notes : pyval
}.

Record ComplianceEvent : Type := mkComplianceEvent {
  requirement_id : string;
  event_date : string;
  event_type : string;
  ev_description : string;
  submitted_by : option string;
  documents : list pyval
}.

Record LoanProfile : Type := mkLoanProfile {
  loan_id : string;
  loan_name : string;
  property_name : pyval;
  borrower_name : pyval;
  lender_name : pyval;
  original_loan_amount : pyval;
  current_balance : pyval;
  origination_date : pyval;
  maturity_date : pyval;
  requirements : list LoanRequirement;
  events : list ComplianceEvent;
  source_documents : list pyval;
  extraction_date : string
}.

(** the dataclass constructors, with the defaults of the omitted fields *)
Definition Deadline_new (description days_after_period_end day_of_month : pyval)
  (frequency : Frequency) : Deadline :=
  mkDeadline description days_after_period_end PNone day_of_month frequency.

Definition Threshold_new (metric operator value secondary_value unit : pyval) : Threshold :=
  mkThreshold metric operator value secondary_value unit.

Definition LoanRequirement_new (id : string) (title : pyval)
  (category : RequirementCategory)
  (description plain_language_summary original_text document_reference : pyval)
  (deadline : option Deadline) (threshold : option Threshold)
  (severity : Severity) (cure_period_days : pyval) : LoanRequirement :=
  mkLoanRequirement id title category description plain_language_summary
    original_text document_reference deadline threshold severity
    cure_period_days UNKNOWN PNone (PStr "").

(** [now] is what [datetime.now().isoformat()] returns at construction *)
Definition LoanProfile_new (now : string) (loan_id loan_name : string)
  (property_name borrower_name lender_name original_loan_amount
   origination_date maturity_date : pyval) : LoanProfile :=
  mkLoanProfile loan_id loan_name property_name borrower_name lender_name
    original_loan_amount PNone origination_date maturity_date [] [] [] now.

(** [profile.requirements.append(req)] *)
Definition append_requirement (p : LoanProfile) (r : LoanRequirement) : LoanProfile :=
  mkLoanProfile (loan_id p) (loan_name p) (property_name p) (borrower_name p)
    (lender_name p) (original_loan_amount p) (current_balance p)
    (origination_date p) (maturity_date p) (requirements p ++ [r])%list (events p)
    (source_documents p) (extraction_date p).

(** [profile.requirements = rs] *)
Definition set_requirements (p : LoanProfile) (rs : list LoanRequirement) : LoanProfile :=
  mkLoanProfile (loan_id p) (loan_name p) (property_name p) (borrower_name p)
    (lender_name p) (original_loan_amount p) (current_balance p)
    (origination_date p) (maturity_date p) rs (events p)
    (source_documents p) (extraction_date p).

(** [len([r for r in rs if f(r)])] *)
Definition count_if {A : Type} (f : A -> bool) (rs : list A) : Z :=
  Z.of_nat (List.length (filter f rs)).

Definition Deadline_to_dict (d : Deadline) : pyval :=
  PDict [("description", dl_description d);
         ("days_after_period_end", days_after_period_end d);
         ("specific_date", specific_date d);
         ("day_of_month", day_of_month d);
         ("frequency", PStr (value (frequency d)))].

Definition Threshold_to_dict (t : Threshold) : pyval :=
  PDict [("metric", metric t);
         ("operator", operator t);
         ("value", th_value t);
         ("secondary_value", secondary_value t);
         ("unit", unit t)].

(** [x.to_dict() if x else None]; a dataclass instance is always true *)
Definition to_dict_or_None {A : Type} (f : A -> pyval) (x : option A) : pyval :=
  match x with
  | Some a => f a
  | None => PNone
  end.

Definition LoanRequirement_to_dict (r : LoanRequirement) : pyval :=
  PDict [("id", PStr (id r));
         ("title", title r);
         ("category", PStr (value (category r)));
         ("description", description r);
         ("plain_language_summary", plain_language_summary r);
         ("original_text", original_text r);
         ("document_reference", document_reference r);
         ("deadline", to_dict_or_None Deadline_to_dict (deadline r));
         ("threshold", to_dict_or_None Threshold_to_dict (threshold r));
         ("severity", PStr (value (severity r)));
         ("cure_period_days", cure_period_days r);
         ("status", PStr (value (status r)));
         ("last_checked", last_checked r);
         ("notes", notes r)].

Definition opt_str (o : option string) : pyval :=
  match o with
  | Some s => PStr s
  | None => PNone
  end.

Definition ComplianceEvent_to_dict (e : ComplianceEvent) : pyval :=
  PDict [("requirement_id", PStr (requirement_id e));
         ("event_date", PStr (event_date e));
         ("event_type", PStr (event_type e));
         ("description", PStr (ev_description e));
         ("submitted_by", opt_str (submitted_by e));
         ("documents", PList (documents e))].

Definition to_dict (p : LoanProfile) : pyval :=
  PDict [("loan_id", PStr (loan_id p));
         ("loan_name", PStr (loan_name p));
         ("property_name", property_name p);
         ("borrower_name", borrower_name p);
         ("lender_name", lender_name p);
         ("original_loan_amount", original_loan_amount p);
         ("current_balance", current_balance p);
         ("origination_date", origination_date p);
         ("maturity_date", maturity_date p);
         ("requirements", PList (map LoanRequirement_to_dict (requirements p)));
         ("events", PList (map ComplianceEvent_to_dict (events p)));
         ("source_documents", PList (source_documents p));
         ("extraction_date", PStr (extraction_date p))].

Definition get_requirements_by_category (p : LoanProfile) (c : RequirementCategory)
  : list LoanRequirement :=
  filter (fun r => enum_eqb (category r) c) (requirements p).

Definition has_deadline (r : LoanRequirement) : bool :=
  match deadline r with
  | Some _ => true
  | None => false
  end.

Definition get_upcoming_deadlines (p : LoanProfile) (within_days : Z)
  : list LoanRequirement :=
  filter has_deadline (requirements p).

Definition get_non_compliant (p : LoanProfile) : list LoanRequirement :=
  filter (fun r => enum_eqb (status r) NON_COMPLIANT) (requirements p).

Definition get_at_risk (p : LoanProfile) : list LoanRequirement :=
  filter (fun r => enum_eqb (status r) AT_RISK) (requirements p).

(** the loop [for m in E: counts[m.value] = len([r for r in rs if proj(r) == m])] *)
Definition counts_by {E : Type} `{PyEnum E} (proj : LoanRequirement -> E)
  (rs : list LoanRequirement) : list (string * pyval) :=
  fold_left
    (fun counts m =>
       dict_set counts (value m) (PInt (count_if (fun r => enum_eqb (proj r) m) rs)))
    members [].

(** [counts.get(k, 0)] on a dict built by [counts_by] *)
Definition count_get (counts : list (string * pyval)) (k : string) : pyval :=
  match dict_get counts k with
  | Some v => v
  | None => PInt 0
  end.

Definition compliance_summary (p : LoanProfile) : list (string * pyval) :=
  let status_counts := counts_by status (requirements p) in
  let category_counts := counts_by category (requirements p) in
  [("total_requirements", PInt (Z.of_nat (List.length (requirements p))));
   ("by_status", PDict status_counts);
   ("by_category", PDict category_counts);
   ("critical_items",
     PInt (count_if (fun r => enum_eqb (severity r) CRITICAL) (requirements p)));
   ("non_compliant_count", count_get status_counts (value NON_COMPLIANT));
   ("at_risk_count", count_get status_counts (value AT_RISK))].

End Models.

(** ** Regular expressions, as [re.search] runs them

    The two patterns of [_parse_response] are sequences of literal characters
    and of starred character classes; [match_here] is the backtracking matcher,
    which tries the alternatives of a star in priority order (longest first
    for a greedy star, shortest first for a lazy one). *)

Module Re.

Inductive cclass : Type :=
| Any      (* [.] under [re.DOTALL] *)
| Space.   (* [\s] *)

Inductive atom : Type :=
| Chr (c : ascii)
| Star (greedy : bool) (k : cclass).

Definition in_class (k : cclass) (c : ascii) : bool :=
  match k with
  | Any => true
  | Space => is_space c
  end.

(** [x*] followed by the rest of the pattern [cont]: the text the star
    consumed and what [cont] captured *)
Fixpoint star_greedy (k : cclass) (cont : string -> option (list string)) (s : string)
  : option (string * list string) :=
  let stop := option_map (pair EmptyString) (cont s) in
  match s with
  | String c s' =>
      if in_class k c then
        match star_greedy k cont s' with
        | Some (w, caps) => Some (String c w, caps)
        | None => stop
        end
      else stop
  | EmptyString => stop
  end.

(** [x*?] followed by the rest of the pattern *)
Fixpoint star_lazy (k : cclass) (cont : string -> option (list string)) (s : string)
  : option (string * list string) :=
  match cont s with
  | Some caps => Some (EmptyString, caps)
  | None =>
      match s with
      | String c s' =>
          if in_class k c then
            match star_lazy k cont s' with
            | Some (w, caps) => Some (String c w, caps)
            | None => None
            end
          else None
      | EmptyString => None
      end
  end.

(** match pattern [p] at the start of [s]: the text each atom consumed *)
Fixpoint match_here (p : list atom) (s : string) {struct p} : option (list string) :=
  match p with
  | [] => Some []
  | Chr c :: p' =>
      match s with
      | String c' s' =>
          if Ascii.eqb c c'
          then option_map (cons (String c' EmptyString)) (match_here p' s')
          else None
      | EmptyString => None
      end
  | Star greedy k :: p' =>
      match (if greedy then star_greedy else star_lazy) k (match_here p') s with
      | Some (w, caps) => Some (w :: caps)
      | None => None
      end
  end.

(** leftmost match: the text skipped before it and the captures *)
Fixpoint search_from (p : list atom) (s : string) : option (string * list string) :=
  match match_here p s with
  | Some caps => Some (EmptyString, caps)
  | None =>
      match s with
      | String c s' =>
          match search_from p s' with
          | Some (skipped, caps) => Some (String c skipped, caps)
          | None => None
          end
      | EmptyString => None
      end
  end.

(** a pattern with one capturing group: [before (group1) after] *)
Record regex : Type := mkRegex {
  before : list atom;
  group1 : list atom;
  after : list atom
}.

Definition atoms (r : regex) : list atom := before r ++ group1 r ++ after r.

Definition concat_str (l : list string) : string := fold_right append EmptyString l.

(** a match object: [m.group(0)] and [m.group(1)] *)
Record Match : Type := mkMatch {
  group_0 : string;
  group_1 : string
}.

(** [re.search(r, s, re.DOTALL)] *)
Definition search (r : regex) (s : string) : option Match :=
  match search_from (atoms r) s with
  | Some (_, caps) =>
      let inner := firstn (List.length (group1 r)) (skipn (List.length (before r)) caps) in
      Some (mkMatch (concat_str caps) (concat_str inner))
  | None => None
  end.

Definition lit (s : string) : list atom := map Chr (list_ascii_of_string s).

End Re.

(** ** The extraction pipeline, [src/extractor.py] *)

Module Extractor.
Import Models.

Definition nl : string := String "010"%char EmptyString.

Definition truncation_marker : string :=
  nl ++ nl ++ "[...document truncated...]" ++ nl ++ nl.

Definition max_chars : Z := 150000.

(** lines 117-122 of [extract_requirements]: the text put into the prompt *)
Definition truncate_document (document_text : string) : string :=
  if len document_text >? max_chars then
    let half := max_chars / 2 in
    str_slice document_text None (Some half)
      ++ truncation_marker
      ++ str_slice document_text (Some (- half)) None
  else document_text.

(** [r'```json\s*(.*?)\s*```'] *)
Definition json_fence_re : Re.regex :=
  Re.mkRegex (Re.lit "```json" ++ [Re.Star true Re.Space])%list
             [Re.Star false Re.Any]
             (Re.Star true Re.Space :: Re.lit "```").

(** [r'\{.*\}'] *)
Definition json_brace_re : Re.regex :=
  Re.mkRegex (Re.lit "{" ++ [Re.Star true Re.Any] ++ Re.lit "}")%list [] [].

Definition not_found_message : string := "Could not find JSON in Claude's response".

(** the candidate payload [_parse_response] hands to the decoder *)
Definition locate_payload (response_text : string) : result string :=
  match Re.search json_fence_re response_text with
  | Some json_match => Ok (Re.group_1 json_match)
  | None =>
      match Re.search json_brace_re response_text with
      | Some json_match => Ok (Re.group_0 json_match)
      | None => Raise (ValueError not_found_message)
      end
  end.

(** [try: E(s) except ValueError: dflt] *)
Definition coerce_enum {E : Type} `{PyEnum E} (dflt : E) (s : string) : E :=
  match of_value s with
  | Some m => m
  | None => dflt
  end.

Definition build_deadline (data : pyval) : result (option Deadline) :=
  dv <- get data "deadline" PNone ;;
  if truthy dv then
    dl <- getitem data "deadline" ;;
    f0 <- get dl "frequency" (PStr "as_needed") ;;
    fl <- lower f0 ;;
    let freq_str := str_replace " " "_" fl in
    let frequency := coerce_enum AS_NEEDED freq_str in
    description <- get dl "description" (PStr "") ;;
    days_after_period_end <- get dl "days_after_period_end" PNone ;;
    day_of_month <- get dl "day_of_month" PNone ;;
    Ok (Some (Deadline_new description days_after_period_end day_of_month frequency))
  else Ok None.

Definition build_threshold (data : pyval) : result (option Threshold) :=
  tv <- get data "threshold" PNone ;;
  if truthy tv then
    th <- getitem data "threshold" ;;
    metric <- get th "metric" (PStr "") ;;
    operator <- get th "operator" (PStr ">=") ;;
    value <- get th "value" (PInt 0) ;;
    secondary_value <- get th "secondary_value" PNone ;;
    unit <- get th "unit" PNone ;;
    Ok (Some (Threshold_new metric operator value secondary_value unit))
  else Ok None.

Definition _build_requirement (data : pyval) (index : nat) : result LoanRequirement :=
  (* Parse category *)
  c0 <- get data "category" (PStr "other") ;;
  cl <- lower c0 ;;
  let category_str := str_replace " " "_" cl in
  let category := coerce_enum OTHER category_str in
  (* Parse deadline *)
  deadline <- build_deadline data ;;
  (* Parse threshold *)
  threshold <- build_threshold data ;;
  (* Parse severity *)
  s0 <- get data "severity" (PStr "medium") ;;
  severity_str <- lower s0 ;;
  let severity := coerce_enum MEDIUM severity_str in
  title <- get data "title" (PStr ("Requirement " ++ str_of_nat index)) ;;
  description <- get data "description" (PStr "") ;;
  plain_language_summary <- get data "plain_language_summary" (PStr "") ;;
  ot <- get data "original_text" (PStr "") ;;
  original_text <- slice_to ot 500 ;;
  document_reference <- get data "document_reference" (PStr "") ;;
  cure_period_days <- get data "cure_period_days" PNone ;;
  Ok (mkLoanRequirement ("REQ-" ++ format_03d index) title category description
        plain_language_summary original_text document_reference deadline
        threshold severity cure_period_days UNKNOWN PNone (PStr "")).

(** the loop [for i, req_data in enumerate(...)], from counter [i] on *)
Fixpoint build_loop (items : list pyval) (i : nat) (profile : LoanProfile)
  : result LoanProfile :=
  match items with
  | [] => Ok profile
  | req_data :: rest =>
      req <- _build_requirement req_data (i + 1) ;;
      build_loop rest (S i) (append_requirement profile req)
  end.

Section Pipeline.

(** what the module reads from its environment *)
Variable HTTPX_AVAILABLE : bool.
Variable environ : string -> option string.
(** [datetime.now().isoformat()] *)
Variable now : string.
(** [json.loads]; [None] when the text is not valid JSON *)
Variable json_decode : string -> option pyval.
(** the text of [EXTRACTION_PROMPT] before and after its placeholder *)
Variable prompt_head prompt_tail : string.
(** the remote service: the text of its reply to a prompt, or the error of
    the exchange *)
Variable service : string -> result string.

Definition json_loads (s : string) : result pyval :=
  match json_decode s with
  | Some v => Ok v
  | None => Raise JSONDecodeError
  end.

Definition _parse_response (response_text : string) : result pyval :=
  json_str <- locate_payload response_text ;;
  json_loads json_str.

Definition _build_loan_profile (parsed : pyval) (loan_id : string) : result LoanProfile :=
  loan_info <- get parsed "loan_info" (PDict []) ;;
  property_name <- get loan_info "property_name" PNone ;;
  borrower_name <- get loan_info "borrower_name" PNone ;;
  lender_name <- get loan_info "lender_name" PNone ;;
  loan_amount <- get loan_info "loan_amount" PNone ;;
  origination_date <- get loan_info "origination_date" PNone ;;
  maturity_date <- get loan_info "maturity_date" PNone ;;
  let profile :=
    LoanProfile_new now loan_id ("Loan " ++ loan_id)
      (por property_name (PStr "Unknown Property"))
      (por borrower_name (PStr "Unknown Borrower"))
      (por lender_name (PStr "Unknown Lender"))
      (por loan_amount (PInt 0))
      origination_date maturity_date in
  reqs <- get parsed "requirements" (PList []) ;;
  items <- iter reqs ;;
  build_loop items 0 profile.

(** the extraction client; the requests posted so far are the state *)
Record RequirementExtractor : Type := mkRequirementExtractor {
  api_key : string;
  api_url : string;
  model : string
}.

Definition network : Type := list string.

Definition M (A : Type) : Type := network -> result A * network.

Definition ret {A : Type} (r : result A) : M A := fun w => (r, w).

Definition mbind {A B : Type} (m : M A) (k : A -> M B) : M B :=
  fun w => match m w with
           | (Ok a, w') => k a w'
           | (Raise e, w') => (Raise e, w')
           end.

Definition api_key_missing_message : string :=
  "ANTHROPIC_API_KEY environment variable or api_key parameter required".

Definition httpx_missing_message : string :=
  "httpx library required for API calls. Install with: pip install httpx".

Definition nonempty (o : option string) : bool :=
  match o with
  | Some s => negb (s =? "")%string
  | None => false
  end.

Definition __init__ (api_key : option string) : M RequirementExtractor :=
  if negb HTTPX_AVAILABLE then ret (Raise (RuntimeError httpx_missing_message))
  else
    let self_api_key :=
      if nonempty api_key then api_key else environ "ANTHROPIC_API_KEY" in
    match self_api_key with
    | Some k =>
        if (k =? "")%string then ret (Raise (ValueError api_key_missing_message))
        else ret (Ok (mkRequirementExtractor k "https://api.anthropic.com/v1/messages"
                        "claude-sonnet-4-20250514"))
    | None => ret (Raise (ValueError api_key_missing_message))
    end.

(** one request is posted, whatever the outcome of the exchange *)
Definition _call_claude (self : RequirementExtractor) (prompt : string) : M string :=
  fun w => (service prompt, (w ++ [prompt])%list).

Definition extract_requirements (self : RequirementExtractor)
  (document_text loan_id : string) : M LoanProfile :=
  let document_text := truncate_document document_text in
  let prompt := prompt_head ++ document_text ++ prompt_tail in
  mbind (_call_claude self prompt) (fun response =>
  mbind (ret (_parse_response response)) (fun parsed =>
  ret (_build_loan_profile parsed loan_id))).

End Pipeline.

(** the requirements of [MockExtractor.extract_requirements] *)
Definition sample_requirements : list LoanRequirement :=
  [
    LoanRequirement_new
      "REQ-001"
      (PStr "Quarterly Financial Statements")
      FINANCIAL_REPORTING
      (PStr "Borrower must deliver quarterly unaudited financial statements")
      (PStr "Send your quarterly financial statements to the lender within 45 days after each quarter ends")
      (PStr "Borrower shall deliver to Lender within forty-five (45) days after the end of each fiscal quarter...")
      (PStr "Section 5.1.1")
      (Some (Deadline_new (PStr "45 days after quarter end") (PInt 45) (PNone) QUARTERLY))
      None
      HIGH
      (PNone);
    LoanRequirement_new
      "REQ-002"
      (PStr "Annual Audited Financials")
      FINANCIAL_REPORTING
      (PStr "Borrower must deliver annual audited financial statements")
      (PStr "Have a CPA audit your financials and send the report within 120 days after year end")
      (PStr "Borrower shall deliver to Lender within one hundred twenty (120) days after the end of each fiscal year, audited financial statements...")
      (PStr "Section 5.1.2")
      (Some (Deadline_new (PStr "120 days after fiscal year end") (PInt 120) (PNone) ANNUAL))
      None
      CRITICAL
      (PNone);
    LoanRequirement_new
      "REQ-003"
      (PStr "DSCR Covenant")
      COVENANT_COMPLIANCE
      (PStr "Maintain minimum Debt Service Coverage Ratio")
      (PStr "Your property's net operating income divided by your loan payments must be at least 1.25x")
      (PStr "Borrower shall maintain a Debt Service Coverage Ratio of not less than 1.25:1.00...")
      (PStr "Section 6.2")
      (Some (Deadline_new (PStr "Tested quarterly") (PNone) (PNone) QUARTERLY))
      (Some (Threshold_new (PStr "DSCR") (PStr ">=") (PFloat (float_lit 5 (-2))) PNone (PStr "x")))
      CRITICAL
      (PInt 30);
    LoanRequirement_new
      "REQ-004"
      (PStr "Property Insurance")
      INSURANCE
      (PStr "Maintain property insurance with specified coverage")
      (PStr "Keep your property insured for full replacement cost. Send proof to lender before each renewal.")
      (PStr "Borrower shall maintain property insurance in an amount not less than the full replacement cost...")
      (PStr "Section 4.1")
      (Some (Deadline_new (PStr "30 days before policy expiration") (PNone) (PNone) ANNUAL))
      None
      CRITICAL
      (PNone);
    LoanRequirement_new
      "REQ-005"
      (PStr "Replacement Reserve Deposits")
      RESERVE_FUNDING
      (PStr "Monthly deposits to replacement reserve")
      (PStr "Deposit $2,500 monthly into your replacement reserve account")
      (PStr "Borrower shall deposit with Lender on each Payment Date the sum of $2,500...")
      (PStr "Section 7.3")
      (Some (Deadline_new (PStr "Monthly with mortgage payment") (PNone) (PInt 1) MONTHLY))
      (Some (Threshold_new (PStr "Monthly Deposit") (PStr ">=") (PInt 2500) PNone (PStr "$")))
      MEDIUM
      (PNone);
    LoanRequirement_new
      "REQ-006"
      (PStr "Monthly Rent Roll")
      FINANCIAL_REPORTING
      (PStr "Submit monthly rent roll")
      (PStr "Send a current rent roll showing all tenants, lease terms, and rental rates by the 15th of each month")
      (PStr "Borrower shall deliver to Lender by the fifteenth (15th) day of each calendar month a current rent roll...")
      (PStr "Section 5.1.4")
      (Some (Deadline_new (PStr "By the 15th of each month") (PNone) (PInt 15) MONTHLY))
      None
      MEDIUM
      (PNone);
    LoanRequirement_new
      "REQ-007"
      (PStr "Major Lease Approval")
      LEASING
      (PStr "Lender approval required for major leases")
      (PStr "Get lender approval before signing any lease over 10,000 SF or with a tenant getting more than 3 months free rent")
      (PStr "Borrower shall not enter into any lease for more than 10,000 square feet or containing concessions in excess of three (3) months free rent without Lender's prior written consent...")
      (PStr "Section 8.2")
      (Some (Deadline_new (PStr "Prior to lease execution") (PNone) (PNone) AS_NEEDED))
      None
      HIGH
      (PNone);
    LoanRequirement_new
      "REQ-008"
      (PStr "Annual Operating Budget")
      FINANCIAL_REPORTING
      (PStr "Submit annual operating budget")
      (PStr "Submit next year's operating budget for lender approval by November 15th each year")
      (PStr "Not later than November 15 of each year, Borrower shall submit to Lender for approval the proposed annual operating budget...")
      (PStr "Section 5.1.5")
      (Some (Deadline_new (PStr "November 15 annually") (PNone) (PNone) ANNUAL))
      None
      MEDIUM
      (PNone)
  ].

Definition Mock_extract_requirements (now : string) (document_text loan_id : string)
  : LoanProfile :=
  let profile :=
    LoanProfile_new now loan_id ("Sample Loan " ++ loan_id)
      (PStr "123 Main Street Office Building")
      (PStr "Sample Borrower LLC")
      (PStr "Sample Bank, N.A.")
      (PInt 10000000)
      (PStr "2024-01-15")
      (PStr "2029-01-15") in
  set_requirements profile sample_requirements.

End Extractor.

(** ** The stored loan, [src/database.py] *)

Module Database.

(** a row of [requirements]; [status] is a nullable string column *)
Record Requirement : Type := mkRequirement {
  requirement_id : string;
  status : option string
}.

Record Loan : Type := mkLoan {
  loan_id : string;
  requirements : list Requirement
}.

(** [r.status == s] *)
Definition status_is (s : string) (r : Requirement) : bool :=
  match status r with
  | Some s' => (s' =? s)%string
  | None => false
  end.

Definition calculate_compliance_score (self : Loan) : result Z :=
  match requirements self with
  | [] => Ok 100
  | _ =>
      let total := Z.of_nat (List.length (requirements self)) in
      let compliant :=
        Models.count_if (status_is (Models.value Models.COMPLIANT)) (requirements self) in
      let at_risk :=
        Models.count_if (status_is (Models.value Models.AT_RISK)) (requirements self) in
      (* Compliant = full points, at_risk = half points, others = 0 *)
      let score :=
        fmul (fdiv (fadd (float_of_int compliant)
                         (fmul (float_of_int at_risk) (float_lit 1 (-1))))
                   (float_of_int total))
             (float_of_int 100) in
      int_of_float score
  end.

(** the score of the specification, in exact arithmetic:
    [(compliant + at_risk / 2) / total * 100], truncated *)
Definition exact_score (compliant at_risk total : Z) : Z :=
  if total =? 0 then 100 else ((2 * compliant + at_risk) * 100) / (2 * total).

Definition exact_score_of (self : Loan) : Z :=
  exact_score
    (Models.count_if (status_is (Models.value Models.COMPLIANT)) (requirements self))
    (Models.count_if (status_is (Models.value Models.AT_RISK)) (requirements self))
    (Z.of_nat (List.length (requirements self))).

(** the score computation of [calculate_compliance_score] on the three
    counts *)
Definition float_score (compliant at_risk total : Z) : result Z :=
  int_of_float
    (fmul (fdiv (fadd (float_of_int compliant)
                      (fmul (float_of_int at_risk) (float_lit 1 (-1))))
                (float_of_int total))
          (float_of_int 100)).

(** [float_score] gives the exact score for every split of 1 to [bound]
    requirements into compliant, at risk and other *)
Definition agree_up_to (bound : nat) : bool :=
  forallb (fun n =>
    forallb (fun c =>
      forallb (fun a =>
        match float_score (Z.of_nat c) (Z.of_nat a) (Z.of_nat n) with
        | Ok z => z =? exact_score (Z.of_nat c) (Z.of_nat a) (Z.of_nat n)
        | Raise _ => false
        end) (seq 0 (S n - c))) (seq 0 (S n))) (seq 1 bound).

(** a loan whose rows have the given statuses, in order *)
Definition loan_with (statuses : list string) : Loan :=
  mkLoan "LOAN-001"
    (map (fun s => mkRequirement "REQ" (Some s)) statuses).

End Database.

(** ** Reconstruction from the primitive mapping form *)

Module Reconstruct.
Import Models.

Definition obind {A B : Type} (o : option A) (k : A -> option B) : option B :=
  match o with
  | Some a => k a
  | None => None
  end.

Definition as_str (v : pyval) : option string :=
  match v with
  | PStr s => Some s
  | _ => None
  end.

Definition as_list (v : pyval) : option (list pyval) :=
  match v with
  | PList l => Some l
  | _ => None
  end.

Definition as_enum {E : Type} `{PyEnum E} (v : pyval) : option E :=
  obind (as_str v) of_value.

Definition field (v : pyval) (k : string) : option pyval :=
  match v with
  | PDict d => dict_get d k
  | _ => None
  end.

Fixpoint traverse {A : Type} (f : pyval -> option A) (l : list pyval) : option (list A) :=
  match l with
  | [] => Some []
  | v :: l' =>
      obind (f v) (fun a => obind (traverse f l') (fun l'' => Some (a :: l'')))
  end.

(** [None] in the mapping is an absent nested entity *)
Definition nullable {A : Type} (f : pyval -> option A) (v : pyval) : option (option A) :=
  match v with
  | PNone => Some None
  | _ => option_map Some (f v)
  end.

(** Modelled from the spec: the reconstruction of a [Deadline] from its
    mapping form, the inverse reading of [Deadline.to_dict]; [models.py] has
    no such function. *)
Definition Deadline_from_dict (v : pyval) : option Deadline :=
  obind (field v "description") (fun description =>
  obind (field v "days_after_period_end") (fun days_after_period_end =>
  obind (field v "specific_date") (fun specific_date =>
  obind (field v "day_of_month") (fun day_of_month =>
  obind (obind (field v "frequency") as_enum) (fun frequency =>
  Some (mkDeadline description days_after_period_end specific_date day_of_month
          frequency)))))).

(** Modelled from the spec: the reconstruction of a [Threshold] from its
    mapping form; [models.py] has no such function. *)
Definition Threshold_from_dict (v : pyval) : option Threshold :=
  obind (field v "metric") (fun metric =>
  obind (field v "operator") (fun operator =>
  obind (field v "value") (fun value =>
  obind (field v "secondary_value") (fun secondary_value =>
  obind (field v "unit") (fun unit =>
  Some (mkThreshold metric operator value secondary_value unit)))))).

(** Modelled from the spec: the reconstruction of a [LoanRequirement] from its
    mapping form (enums from their string value, nested entities from nested
    objects or null); [models.py] has no such function. *)
Definition LoanRequirement_from_dict (v : pyval) : option LoanRequirement :=
  obind (obind (field v "id") as_str) (fun id =>
  obind (field v "title") (fun title =>
  obind (obind (field v "category") as_enum) (fun category =>
  obind (field v "description") (fun description =>
  obind (field v "plain_language_summary") (fun plain_language_summary =>
  obind (field v "original_text") (fun original_text =>
  obind (field v "document_reference") (fun document_reference =>
  obind (obind (field v "deadline") (nullable Deadline_from_dict)) (fun deadline =>
  obind (obind (field v "threshold") (nullable Threshold_from_dict)) (fun threshold =>
  obind (obind (field v "severity") as_enum) (fun severity =>
  obind (field v "cure_period_days") (fun cure_period_days =>
  obind (obind (field v "status") as_enum) (fun status =>
  obind (field v "last_checked") (fun last_checked =>
  obind (field v "notes") (fun notes =>
  Some (mkLoanRequirement id title category description plain_language_summary
          original_text document_reference deadline threshold severity
          cure_period_days status last_checked notes))))))))))))))).

(** Modelled from the spec: the reconstruction of a [ComplianceEvent] from its
    mapping form; [models.py] has no such function. *)
Definition ComplianceEvent_from_dict (v : pyval) : option ComplianceEvent :=
  obind (obind (field v "requirement_id") as_str) (fun requirement_id =>
  obind (obind (field v "event_date") as_str) (fun event_date =>
  obind (obind (field v "event_type") as_str) (fun event_type =>
  obind (obind (field v "description") as_str) (fun description =>
  obind (obind (field v "submitted_by") (nullable as_str)) (fun submitted_by =>
  obind (obind (field v "documents") as_list) (fun documents =>
  Some (mkComplianceEvent requirement_id event_date event_type description
          submitted_by documents))))))).

(** Modelled from the spec: the reconstruction of a [LoanProfile] from its
    primitive mapping form, field by field; [models.py] serializes with
    [to_dict] and has no function that reads the mapping back. *)
Definition from_dict (v : pyval) : option LoanProfile :=
  obind (obind (field v "loan_id") as_str) (fun loan_id =>
  obind (obind (field v "loan_name") as_str) (fun loan_name =>
  obind (field v "property_name") (fun property_name =>
  obind (field v "borrower_name") (fun borrower_name =>
  obind (field v "lender_name") (fun lender_name =>
  obind (field v "original_loan_amount") (fun original_loan_amount =>
  obind (field v "current_balance") (fun current_balance =>
  obind (field v "origination_date") (fun origination_date =>
  obind (field v "maturity_date") (fun maturity_date =>
  obind (obind (obind (field v "requirements") as_list)
               (traverse LoanRequirement_from_dict)) (fun requirements =>
  obind (obind (obind (field v "events") as_list)
               (traverse ComplianceEvent_from_dict)) (fun events =>
  obind (obind (field v "source_documents") as_list) (fun source_documents =>
  obind (obind (field v "extraction_date") as_str) (fun extraction_date =>
  Some (mkLoanProfile loan_id loan_name property_name borrower_name lender_name
          original_loan_amount current_balance origination_date maturity_date
          requirements events source_documents extraction_date)))))))))))))).

End Reconstruct.

(** ** Vocabulary of the statements and sample inputs *)

Module Samples.
Import Models.

(** [kept f l l']: [l'] is the subsequence of the items of [l] that satisfy
    [f], in the order of [l] *)
Inductive kept {A : Type} (f : A -> bool) : list A -> list A -> Prop :=
| kept_nil : kept f [] []
| kept_take x l l' : f x = true -> kept f l l' -> kept f (x :: l) (x :: l')
| kept_drop x l l' : f x = false -> kept f l l' -> kept f (x :: l) l'.

(** a profile with the given requirements *)
Definition profile_of (rs : list LoanRequirement) : LoanProfile :=
  set_requirements
    (LoanProfile_new "2024-01-01T00:00:00" "LOAN-001" "Loan LOAN-001"
       (PStr "Unknown Property") (PStr "Unknown Borrower") (PStr "Unknown Lender")
       (PInt 0) PNone PNone)
    rs.

(** a requirement of the given severity *)
Definition requirement_of_severity (sev : Severity) : LoanRequirement :=
  LoanRequirement_new "REQ-001" (PStr "Requirement 1") OTHER (PStr "") (PStr "")
    (PStr "") (PStr "") None None sev PNone.

(** [r] with its category replaced *)
Definition with_category (c : RequirementCategory) (r : LoanRequirement) : LoanRequirement :=
  mkLoanRequirement (id r) (title r) c (description r) (plain_language_summary r)
    (original_text r) (document_reference r) (deadline r) (threshold r)
    (severity r) (cure_period_days r) (status r) (last_checked r) (notes r).

(** [r] with its severity replaced *)
Definition with_severity (v : Severity) (r : LoanRequirement) : LoanRequirement :=
  mkLoanRequirement (id r) (title r) (category r) (description r)
    (plain_language_summary r) (original_text r) (document_reference r)
    (deadline r) (threshold r) v (cure_period_days r) (status r)
    (last_checked r) (notes r).

(** the requirement builder returns on this entry *)
Definition accepted (entry : pyval) : bool :=
  match Extractor._build_requirement entry 0 with
  | Ok _ => true
  | Raise _ => false
  end.

(** a requirement entry as the service is asked to produce it *)
Definition sample_entry (category severity : string) : list (string * pyval) :=
  [("title", PStr "DSCR Covenant");
   ("category", PStr category);
   ("description", PStr "Maintain minimum Debt Service Coverage Ratio");
   ("plain_language_summary", PStr "Keep the ratio above the minimum");
   ("original_text", PStr "Borrower shall maintain a Debt Service Coverage Ratio...");
   ("document_reference", PStr "Section 6.2");
   ("deadline", PDict [("description", PStr "Tested quarterly");
                       ("frequency", PStr "Quarterly");
                       ("days_after_period_end", PNone);
                       ("day_of_month", PNone)]);
   ("threshold", PDict [("metric", PStr "DSCR");
                        ("operator", PStr ">=");
                        ("value", PFloat (float_lit 5 (-2)));
                        ("secondary_value", PNone);
                        ("unit", PStr "x")]);
   ("severity", PStr severity);
   ("cure_period_days", PInt 30)].

(** a decoded payload with two requirement entries *)
Definition sample_payload : list (string * pyval) :=
  [("loan_info", PDict [("borrower_name", PStr "Sample Borrower LLC");
                        ("lender_name", PNone);
                        ("property_name", PStr "123 Main Street");
                        ("loan_amount", PInt 10000000);
                        ("origination_date", PNone);
                        ("maturity_date", PStr "2029-01-15")]);
   ("requirements", PList [PDict (sample_entry "covenant compliance" "critical");
                           PDict (sample_entry "ratio test" "severe")])].

(** a text of [n] characters *)
Fixpoint text_of_length (n : nat) : string :=
  match n with
  | O => EmptyString
  | S n' => String "a" (text_of_length n')
  end.

(** a document one character over the budget *)
Definition long_document : string := text_of_length (Z.to_nat 150001).




(** [n] requirements out of 25: 14 compliant, 1 at risk, 10 non compliant *)
Definition statuses_14_1_10 : list string :=
  (repeat "compliant" 14 ++ ["at_risk"] ++ repeat "non_compliant" 10)%list.

End Samples.

(** ** The in-memory API, [src/api.py] *)

Module Api.
Import Models.

(** how a handler ends: a response body, an [HTTPException], or another
    exception escaping the handler *)
Inductive outcome (A : Type) : Type :=
| Return (a : A)
| HTTPException (status_code : Z) (detail : string)
| Escapes (e : exn).
Arguments Return {A} a.
Arguments HTTPException {A} status_code detail.
Arguments Escapes {A} e.

(** [loan_profiles], the module-level dict from loan id to profile *)
Definition store : Type := list (string * LoanProfile).

Fixpoint store_get (profiles : store) (loan_id : string) : option LoanProfile :=
  match profiles with
  | [] => None
  | (k, p) :: rest => if (k =? loan_id)%string then Some p else store_get rest loan_id
  end.

(** [loan_profiles[loan_id] = profile] *)
Fixpoint store_set (profiles : store) (loan_id : string) (profile : LoanProfile) : store :=
  match profiles with
  | [] => [(loan_id, profile)]
  | (k, p) :: rest =>
      if (k =? loan_id)%string then (k, profile) :: rest
      else (k, p) :: store_set rest loan_id profile
  end.

Definition loan_not_found (loan_id : string) : string :=
  "Loan " ++ loan_id ++ " not found".

Definition requirement_not_found (requirement_id : string) : string :=
  "Requirement " ++ requirement_id ++ " not found".

(** [repr] of a list of strings without quotes or escapes *)
Definition repr_list (l : list string) : string :=
  "[" ++ String.concat ", " (map (fun v => "'" ++ v ++ "'") l) ++ "]".

Definition invalid_status_detail : string :=
  "Invalid status. Must be one of: "
  ++ repr_list (map value (members (E := ComplianceStatus))).

(** the assignments of [update_requirement_status] to the requirement found *)
Definition apply_update (now : string) (new_status : ComplianceStatus)
  (notes : option string) (req : LoanRequirement) : LoanRequirement :=
  mkLoanRequirement (id req) (title req) (category req) (description req)
    (plain_language_summary req) (original_text req) (document_reference req)
    (deadline req) (threshold req) (severity req) (cure_period_days req)
    new_status (PStr now)
    (match notes with
     | Some n => if (n =? "")%string then Models.notes req else PStr n
     | None => Models.notes req
     end).

(** how the loop over [profile.requirements] ends *)
Inductive loop_end : Type :=
| Updated (req : LoanRequirement) (requirements : list LoanRequirement)
| InvalidStatus
| NoSuchRequirement.

(** the loop [for req in profile.requirements] of [update_requirement_status];
    the requirement found is updated in place *)
Fixpoint update_loop (now requirement_id update_status : string)
  (update_notes : option string) (rs : list LoanRequirement) : loop_end :=
  match rs with
  | [] => NoSuchRequirement
  | req :: rest =>
      if (id req =? requirement_id)%string then
        match of_value (E := ComplianceStatus) update_status with
        | Some new_status =>
            let req' := apply_update now new_status update_notes req in
            Updated req' (req' :: rest)
        | None => InvalidStatus
        end
      else
        match update_loop now requirement_id update_status update_notes rest with
        | Updated req' rest' => Updated req' (req :: rest')
        | InvalidStatus => InvalidStatus
        | NoSuchRequirement => NoSuchRequirement
        end
  end.

(** [now] is [datetime.now().isoformat()] at the update *)
Definition update_requirement_status (now : string) (profiles : store)
  (loan_id requirement_id : string) (update_status : string)
  (update_notes : option string) : outcome pyval * store :=
  match store_get profiles loan_id with
  | None => (HTTPException 404 (loan_not_found loan_id), profiles)
  | Some profile =>
      match update_loop now requirement_id update_status update_notes
              (requirements profile) with
      | Updated req rs =>
          (Return (PDict [("message", PStr "Status updated");
                          ("requirement", LoanRequirement_to_dict req)]),
           store_set profiles loan_id (set_requirements profile rs))
      | InvalidStatus => (HTTPException 400 invalid_status_detail, profiles)
      | NoSuchRequirement =>
          (HTTPException 404 (requirement_not_found requirement_id), profiles)
      end
  end.

Definition get_requirement_detail (profiles : store) (loan_id requirement_id : string)
  : outcome pyval :=
  match store_get profiles loan_id with
  | None => HTTPException 404 (loan_not_found loan_id)
  | Some profile =>
      match find (fun req => (id req =? requirement_id)%string) (requirements profile) with
      | Some req => Return (LoanRequirement_to_dict req)
      | None => HTTPException 404 (requirement_not_found requirement_id)
      end
  end.

Definition create_demo_loan (now : string) (profiles : store) : pyval * store :=
  let profile := Extractor.Mock_extract_requirements now "" "DEMO-001" in
  (PDict [("loan_id", PStr "DEMO-001");
          ("message", PStr "Demo loan created with sample requirements");
          ("total_requirements", PInt (Z.of_nat (List.length (requirements profile))))],
   store_set profiles "DEMO-001" profile).

(** [needle in s] for two strings *)
Fixpoint str_contains (needle s : string) : bool :=
  String.prefix needle s
  || match s with
     | EmptyString => false
     | String _ s' => str_contains needle s'
     end.

(** an entry of the ["requirements"] list of [get_requirements] *)
Definition requirement_row (r : LoanRequirement) : pyval :=
  PDict [("id", PStr (id r));
         ("title", title r);
         ("category", PStr (value (Models.category r)));
         ("plain_language_summary", plain_language_summary r);
         ("deadline", to_dict_or_None Deadline_to_dict (deadline r));
         ("threshold", to_dict_or_None Threshold_to_dict (threshold r));
         ("severity", PStr (value (Models.severity r)));
         ("status", PStr (value (Models.status r)));
         ("document_reference", document_reference r)].

(** the condition of the search comprehension; [or] evaluates its right
    operand only when the left one is false *)
Definition matches_search (search_lower : string) (r : LoanRequirement) : result bool :=
  t <- lower (title r) ;;
  (if str_contains search_lower t then Ok true
   else
     d <- lower (description r) ;;
     (if str_contains search_lower d then Ok true
      else
        p <- lower (plain_language_summary r) ;;
        Ok (str_contains search_lower p))).

(** [[r for r in requirements if ...]] of the search filter *)
Fixpoint search_filter (search_lower : string) (rs : list LoanRequirement)
  : result (list LoanRequirement) :=
  match rs with
  | [] => Ok []
  | r :: rest =>
      keep <- matches_search search_lower r ;;
      rest' <- search_filter search_lower rest ;;
      Ok (if keep : bool then r :: rest' else rest')
  end.

Definition get_requirements (profiles : store) (loan_id : string)
  (category severity status search : option string) : outcome pyval :=
  match store_get profiles loan_id with
  | None => HTTPException 404 (loan_not_found loan_id)
  | Some profile =>
      let requirements := Models.requirements profile in
      let requirements :=
        match category with
        | Some c =>
            if (c =? "")%string then requirements
            else
              match of_value (E := RequirementCategory) c with
              | Some cat_enum =>
                  filter (fun r => enum_eqb (Models.category r) cat_enum) requirements
              | None => requirements
              end
        | None => requirements
        end in
      let requirements :=
        match severity with
        | Some s =>
            if (s =? "")%string then requirements
            else filter (fun r => (value (Models.severity r) =? s)%string) requirements
        | None => requirements
        end in
      let requirements :=
        match status with
        | Some s =>
            if (s =? "")%string then requirements
            else filter (fun r => (value (Models.status r) =? s)%string) requirements
        | None => requirements
        end in
      let searched :=
        match search with
        | Some s =>
            if (s =? "")%string then Ok requirements
            else search_filter (str_lower s) requirements
        | None => Ok requirements
        end in
      match searched with
      | Raise e => Escapes e
      | Ok requirements =>
          Return (PDict [("loan_id", PStr loan_id);
                         ("total_matched", PInt (Z.of_nat (List.length requirements)));
                         ("requirements", PList (map requirement_row requirements))])
      end
  end.

(** an entry of the ["deadlines"] list of [get_deadlines] *)
Definition deadline_row (req : LoanRequirement) (d : Deadline) : pyval :=
  PDict [("requirement_id", PStr (id req));
         ("title", title req);
         ("category", PStr (value (category req)));
         ("deadline", Deadline_to_dict d);
         ("severity", PStr (value (severity req)));
         ("plain_language", plain_language_summary req)].

(** the loop [for req in profile.requirements] of [get_deadlines] *)
Fixpoint deadline_rows (frequency : option string) (rs : list LoanRequirement)
  : list pyval :=
  match rs with
  | [] => []
  | req :: rest =>
      match deadline req with
      | Some d =>
          let skip :=
            match frequency with
            | Some f => negb (f =? "")%string
                        && negb (value (Models.frequency d) =? f)%string
            | None => false
            end in
          if skip then deadline_rows frequency rest
          else deadline_row req d :: deadline_rows frequency rest
      | None => deadline_rows frequency rest
      end
  end.

Definition frequency_order : list string :=
  ["monthly"; "quarterly"; "semi_annual"; "annual"; "one_time"; "as_needed";
   "upon_request"].

(** [l.index(x)]; [None] when [x] is not in [l] *)
Fixpoint index (x : string) (l : list string) : option nat :=
  match l with
  | [] => None
  | y :: l' => if (y =? x)%string then Some 0%nat else option_map S (index x l')
  end.

(** the [key] of the sort: the position of [x["deadline"]["frequency"]] in
    [frequency_order], 99 when it is not there *)
Definition sort_key (x : pyval) : result Z :=
  d <- getitem x "deadline" ;;
  f <- getitem d "frequency" ;;
  Ok (match f with
      | PStr s => match index s frequency_order with
                  | Some i => Z.of_nat i
                  | None => 99
                  end
      | _ => 99
      end).

(** the keys of the elements, computed once each and in order *)
Fixpoint keyed {A : Type} (key : A -> result Z) (l : list A) : result (list (Z * A)) :=
  match l with
  | [] => Ok []
  | x :: l' =>
      k <- key x ;;
      rest <- keyed key l' ;;
      Ok ((k, x) :: rest)
  end.

(** insertion before the first element with a key that is not smaller *)
Fixpoint insert {A : Type} (x : Z * A) (l : list (Z * A)) : list (Z * A) :=
  match l with
  | [] => [x]
  | y :: l' => if fst x <=? fst y then x :: y :: l' else y :: insert x l'
  end.

(** the stable sort by increasing key *)
Definition sort_by_key {A : Type} (l : list (Z * A)) : list (Z * A) :=
  fold_right insert [] l.

(** [l.sort(key=key)] *)
Definition list_sort {A : Type} (key : A -> result Z) (l : list A) : result (list A) :=
  ks <- keyed key l ;;
  Ok (map snd (sort_by_key ks)).

Definition get_deadlines (profiles : store) (loan_id : string)
  (frequency : option string) : outcome pyval :=
  match store_get profiles loan_id with
  | None => HTTPException 404 (loan_not_found loan_id)
  | Some profile =>
      let deadlines := deadline_rows frequency (requirements profile) in
      match list_sort sort_key deadlines with
      | Raise e => Escapes e
      | Ok deadlines =>
          Return (PDict [("loan_id", PStr loan_id);
                         ("total_with_deadlines", PInt (Z.of_nat (List.length deadlines)));
                         ("deadlines", PList deadlines)])
      end
  end.

End Api.

(** ** Vocabulary of the further properties *)

Module Vocabulary.
Import Models.

(** the sum of a list of integers *)
Definition sum_Z (l : list Z) : Z := fold_right Z.add 0 l.

(** the integer a summary entry holds *)
Definition as_int (v : option pyval) : option Z :=
  match v with
  | Some (PInt n) => Some n
  | _ => None
  end.

(** the value of an object is a [str] *)
Definition is_str (v : pyval) : bool :=
  match v with
  | PStr _ => true
  | _ => false
  end.

(** the value of an object is a [dict] *)
Definition is_dict (v : pyval) : bool :=
  match v with
  | PDict _ => true
  | _ => false
  end.

(** [d.get(k, dflt)] on the bindings of a dict *)
Definition lookup_or (d : list (string * pyval)) (k : string) (dflt : pyval) : pyval :=
  match dict_get d k with
  | Some v => v
  | None => dflt
  end.

(** the number of items of a sliced value; [None] for what cannot be sliced *)
Definition sliced_length (v : pyval) : option Z :=
  match v with
  | PStr s => Some (len s)
  | PList l => Some (Z.of_nat (List.length l))
  | _ => None
  end.

(** the character [c] occurs nowhere in [s] *)
Definition no_char (c : ascii) (s : string) : Prop :=
  forall a b, s <> a ++ String c b.

(** the text [t] occurs nowhere in [s] *)
Definition no_occurrence (t s : string) : Prop :=
  forall a b, s <> a ++ t ++ b.

(** every character of [w] is in the class [k] *)
Fixpoint all_in (k : Re.cclass) (w : string) : bool :=
  match w with
  | EmptyString => true
  | String c w' => Re.in_class k c && all_in k w'
  end.

(** the first and the last character of [s], if any, are not white space *)
Definition stripped (s : string) : Prop :=
  (forall c s', s = String c s' -> is_space c = false)
  /\ (forall s' c, s = s' ++ String c EmptyString -> is_space c = false).

(** [s1] is what [s] begins with *)
Definition is_prefix (s1 s : string) : Prop := exists s2, s = s1 ++ s2.

(** the requirements that have a deadline, each with its deadline *)
Fixpoint dated (rs : list LoanRequirement) : list (LoanRequirement * Deadline) :=
  match rs with
  | [] => []
  | r :: rest =>
      match deadline r with
      | Some d => (r, d) :: dated rest
      | None => dated rest
      end
  end.

(** the position of a frequency in the declaration of [Frequency] *)
Definition rank (f : Frequency) : Z :=
  match f with
  | MONTHLY => 0
  | QUARTERLY => 1
  | SEMI_ANNUAL => 2
  | ANNUAL => 3
  | ONE_TIME => 4
  | AS_NEEDED => 5
  | UPON_REQUEST => 6
  end.

(** a frequency passes the filter of a query: no filter, an empty one, or
    the value of the frequency *)
Definition wanted (filter : option string) (f : Frequency) : bool :=
  match filter with
  | Some s => (s =? "")%string || (value f =? s)%string
  | None => true
  end.

(** the pairs of [l] whose deadline has frequency [f], in the order of [l] *)
Definition with_frequency (f : Frequency) (l : list (LoanRequirement * Deadline))
  : list (LoanRequirement * Deadline) :=
  filter (fun rd => enum_eqb (frequency (snd rd)) f) l.

(** a filter of a query is in force: present and not empty *)
Definition in_force (filter : option string) (s : string) : Prop :=
  filter = Some s /\ s <> "".

(** one of the three searched fields of [r] is a string whose lower-case form
    contains [needle] *)
Definition found_in (needle : string) (r : LoanRequirement) : Prop :=
  exists t,
    (title r = PStr t \/ description r = PStr t \/ plain_language_summary r = PStr t)
    /\ Api.str_contains needle (str_lower t) = true.

(** a value passes a filter of a query: no filter, an empty one, or the
    value itself *)
Definition passes (filter : option string) (v : string) : bool :=
  match filter with
  | Some s => (s =? "")%string || (v =? s)%string
  | None => true
  end.

(** a category passes the category filter of a query: no filter, an empty
    one, one that is no category value, or the value of the category *)
Definition passes_category (filter : option string) (c : RequirementCategory) : bool :=
  match filter with
  | Some s =>
      (s =? "")%string
      || match of_value (E := RequirementCategory) s with
         | Some m => enum_eqb c m
         | None => true
         end
  | None => true
  end.

(** the body of [get_requirements] for the requirements [rs] *)
Definition matched (loan_id : string) (rs : list LoanRequirement) : pyval :=
  PDict [("loan_id", PStr loan_id);
         ("total_matched", PInt (Z.of_nat (List.length rs)));
         ("requirements", PList (map Api.requirement_row rs))].

(** a value can be sliced: a str or a list *)
Definition is_sliceable (v : pyval) : bool :=
  match v with
  | PStr _ | PList _ => true
  | _ => false
  end.

(** the [deadline] of an entry is absent or false in Python's sense, or an
    object whose [frequency] is absent or a string *)
Definition deadline_ok (d : list (string * pyval)) : bool :=
  let dv := lookup_or d "deadline" PNone in
  if truthy dv then
    match dv with
    | PDict dl => is_str (lookup_or dl "frequency" (PStr "as_needed"))
    | _ => false
    end
  else true.

(** the [threshold] of an entry is absent or false in Python's sense, or an
    object *)
Definition threshold_ok (d : list (string * pyval)) : bool :=
  let tv := lookup_or d "threshold" PNone in
  if truthy tv then is_dict tv else true.

(** a requirement entry whose fields have the types the builder relies on:
    an object whose [category] and [severity] are absent or strings, whose
    [original_text] is absent or can be sliced, and whose [deadline] and
    [threshold] are as above *)
Definition well_typed (entry : pyval) : bool :=
  match entry with
  | PDict d =>
      is_str (lookup_or d "category" (PStr "other"))
      && deadline_ok d
      && threshold_ok d
      && is_str (lookup_or d "severity" (PStr "medium"))
      && is_sliceable (lookup_or d "original_text" (PStr ""))
  | _ => false
  end.

(** the requirement with the given category, severity, sliced text, deadline
    and threshold, and the other fields read from the entry [d] at position
    [index] *)
Definition built_from (d : list (string * pyval)) (index : nat)
  (c : RequirementCategory) (v : Severity) (ot : pyval)
  (dl : option Deadline) (th : option Threshold) : LoanRequirement :=
  mkLoanRequirement ("REQ-" ++ format_03d index)
    (lookup_or d "title" (PStr ("Requirement " ++ str_of_nat index)))
    c
    (lookup_or d "description" (PStr ""))
    (lookup_or d "plain_language_summary" (PStr ""))
    ot
    (lookup_or d "document_reference" (PStr ""))
    dl th v
    (lookup_or d "cure_period_days" PNone)
    UNKNOWN PNone (PStr "").

End Vocabulary.

(** * Properties *)

Import Models Extractor.

(** ** The Python primitives on sample values *)

Example format_03d_1 : format_03d 1 = "001".
Proof. reflexivity. Qed.

Example format_03d_12 : format_03d 12 = "012".
Proof. reflexivity. Qed.

Example format_03d_1000 : format_03d 1000 = "1000".
Proof. reflexivity. Qed.

Example lower_replace_category :
  str_replace " " "_" (str_lower "Tax Escrow") = "tax_escrow".
Proof. reflexivity. Qed.

Example slice_last_two : str_slice "abcdef" (Some (-2)) None = "ef".
Proof. reflexivity. Qed.

Example slice_last_beyond_start : str_slice "ab" (Some (-5)) None = "ab".
Proof. reflexivity. Qed.

Example slice_first_two : str_slice "abcdef" None (Some 2) = "ab".
Proof. reflexivity. Qed.

Example slice_from_minus_zero : str_slice "abc" (Some (- 0)) None = "abc".
Proof. reflexivity. Qed.

Example fence_group_is_stripped :
  locate_payload ("Result: ```json" ++ nl ++ "  {a}  " ++ nl ++ "``` done")
  = Ok "{a}".
Proof. reflexivity. Qed.

Example brace_span_is_greedy :
  locate_payload "x { a } b } y" = Ok "{ a } b }".
Proof. reflexivity. Qed.

Example null_category_raises :
  _build_requirement (PDict [("title", PStr "t"); ("category", PNone)]) 1
  = Raise AttributeError.
Proof. reflexivity. Qed.

(** ** Aggregation *)

Section Aggregation.
Import Samples.

Lemma filter_kept {A : Type} (f : A -> bool) (l : list A) : kept f l (filter f l).
Proof.
  induction l as [|x l IH]; simpl.
  - constructor.
  - destruct (f x) eqn:E; [apply kept_take | apply kept_drop]; assumption.
Qed.

Lemma kept_unique {A : Type} (f : A -> bool) (l l1 l2 : list A) :
  kept f l l1 -> kept f l l2 -> l1 = l2.
Proof.
  intros H1; revert l2.
  induction H1; intros l2 H2; inversion H2; subst; try congruence.
  - f_equal. auto.
  - auto.
Qed.

(** C10: [get_upcoming_deadlines] returns exactly the requirements that have a
    deadline, in their original order, and the result is the same for every
    value of [within_days]. *)
Theorem get_upcoming_deadlines_ignores_within_days :
  forall (p : LoanProfile) (within_days : Z),
    kept (fun r => match deadline r with Some _ => true | None => false end)
         (requirements p) (get_upcoming_deadlines p within_days)
    /\ forall within_days' : Z,
         get_upcoming_deadlines p within_days' = get_upcoming_deadlines p within_days.
Proof.
  intros p within_days. split.
  - unfold get_upcoming_deadlines. apply (filter_kept has_deadline).
  - intros within_days'. reflexivity.
Qed.

Lemma counts_by_status (rs : list LoanRequirement) (s : ComplianceStatus) :
  dict_get (counts_by status rs) (value s)
  = Some (PInt (count_if (fun r => enum_eqb (status r) s) rs)).
Proof. destruct s; reflexivity. Qed.

Lemma counts_by_category (rs : list LoanRequirement) (c : RequirementCategory) :
  dict_get (counts_by category rs) (value c)
  = Some (PInt (count_if (fun r => enum_eqb (category r) c) rs)).
Proof. destruct c; reflexivity. Qed.

(** C5, as stated, fails: the summary holds no count per [Severity] member.
    Two profiles that differ only in the severity of their one requirement
    (HIGH, LOW) have the same summary, so no reading of the summary gives the
    number of requirements of each severity. *)
Lemma compliance_summary_has_no_severity_breakdown :
  ~ exists count_of : list (string * pyval) -> Severity -> Z,
      forall (p : LoanProfile) (s : Severity),
        count_of (compliance_summary p) s
        = count_if (fun r => enum_eqb (severity r) s) (requirements p).
Proof.
  intros [count_of H].
  pose proof (H (profile_of [requirement_of_severity HIGH]) HIGH) as Hhigh.
  pose proof (H (profile_of [requirement_of_severity LOW]) HIGH) as Hlow.
  change (compliance_summary (profile_of [requirement_of_severity LOW]))
    with (compliance_summary (profile_of [requirement_of_severity HIGH])) in Hlow.
  rewrite Hhigh in Hlow. vm_compute in Hlow. discriminate Hlow.
Qed.

(** C5, amended: the summary holds the total, one count for each member of
    [ComplianceStatus] and of [RequirementCategory] (a zero count is present,
    not omitted), and of the severities the count of CRITICAL only; with no
    requirements the total, the critical count and every per-status and
    per-category count are 0. *)
Theorem compliance_summary_counts :
  forall p : LoanProfile,
    let summary := compliance_summary p in
    let rs := requirements p in
    dict_get summary "total_requirements" = Some (PInt (Z.of_nat (List.length rs)))
    /\ dict_get summary "critical_items"
       = Some (PInt (count_if (fun r => enum_eqb (severity r) CRITICAL) rs))
    /\ (exists by_status,
          dict_get summary "by_status" = Some (PDict by_status)
          /\ map fst by_status = map value (members (E := ComplianceStatus))
          /\ forall s : ComplianceStatus,
               dict_get by_status (value s)
               = Some (PInt (count_if (fun r => enum_eqb (status r) s) rs)))
    /\ (exists by_category,
          dict_get summary "by_category" = Some (PDict by_category)
          /\ map fst by_category = map value (members (E := RequirementCategory))
          /\ forall c : RequirementCategory,
               dict_get by_category (value c)
               = Some (PInt (count_if (fun r => enum_eqb (category r) c) rs)))
    /\ let empty := compliance_summary (set_requirements p []) in
       dict_get empty "total_requirements" = Some (PInt 0)
       /\ dict_get empty "critical_items" = Some (PInt 0)
       /\ (forall s : ComplianceStatus,
             exists by_status,
               dict_get empty "by_status" = Some (PDict by_status)
               /\ dict_get by_status (value s) = Some (PInt 0))
       /\ (forall c : RequirementCategory,
             exists by_category,
               dict_get empty "by_category" = Some (PDict by_category)
               /\ dict_get by_category (value c) = Some (PInt 0)).
Proof.
  intros p summary rs. subst summary rs.
  split; [reflexivity|]. split; [reflexivity|].
  split.
  { exists (counts_by status (requirements p)).
    split; [reflexivity|]. split; [reflexivity|]. apply counts_by_status. }
  split.
  { exists (counts_by category (requirements p)).
    split; [reflexivity|]. split; [reflexivity|]. apply counts_by_category. }
  cbv zeta. split; [reflexivity|]. split; [reflexivity|]. split.
  - intros s. eexists. split; [reflexivity|]. destruct s; reflexivity.
  - intros c. eexists. split; [reflexivity|]. destruct c; reflexivity.
Qed.

End Aggregation.

(** ** The loan score *)

Section Score.
Import Samples.

Lemma score_no_requirements (id : string) :
  Database.calculate_compliance_score (Database.mkLoan id []) = Ok 100.
Proof. reflexivity. Qed.

Lemma score_mixed_statuses :
  Database.calculate_compliance_score
    (Database.loan_with ["compliant"; "compliant"; "at_risk"; "non_compliant"])
  = Ok 62.
Proof. vm_compute. reflexivity. Qed.

(** C4: on 25 requirements of which 14 are compliant and 1 is at risk, the
    score of the formula is (14 + 0.5) / 25 * 100 = 58, and
    [calculate_compliance_score] returns 57: the binary64 quotient 14.5 / 25
    is below 0.58 and the product with 100 is below 58 before [int] truncates
    it. *)
Theorem score_14_compliant_1_at_risk_of_25 :
  Database.calculate_compliance_score (Database.loan_with statuses_14_1_10) = Ok 57
  /\ Database.exact_score_of (Database.loan_with statuses_14_1_10) = 58
  /\ Database.exact_score 14 1 25 = 58.
Proof. vm_compute. repeat split; reflexivity. Qed.

Lemma score_is_float_score (self : Database.Loan) :
  Database.requirements self <> [] ->
  Database.calculate_compliance_score self
  = Database.float_score
      (count_if (Database.status_is "compliant") (Database.requirements self))
      (count_if (Database.status_is "at_risk") (Database.requirements self))
      (Z.of_nat (List.length (Database.requirements self))).
Proof.
  unfold Database.calculate_compliance_score.
  destruct (Database.requirements self); [congruence | reflexivity].
Qed.

Lemma compliant_and_at_risk_disjoint (rs : list Database.Requirement) :
  (List.length (filter (Database.status_is "compliant") rs)
   + List.length (filter (Database.status_is "at_risk") rs)
   <= List.length rs)%nat.
Proof.
  induction rs as [|r rs IH]; [simpl; lia|].
  cbn [filter].
  destruct (Database.status_is "compliant" r) eqn:Ec;
    destruct (Database.status_is "at_risk" r) eqn:Ea;
    cbn [List.length]; try lia.
  unfold Database.status_is in Ec, Ea.
  destruct (Database.status r) as [s|]; [|discriminate Ec].
  apply String.eqb_eq in Ec. apply String.eqb_eq in Ea. congruence.
Qed.

(** up to 24 requirements the binary64 computation and the exact formula
    agree; 25 is the first size at which they part *)
Lemma score_exact_below_25 (self : Database.Loan) :
  (List.length (Database.requirements self) < 25)%nat ->
  Database.calculate_compliance_score self = Ok (Database.exact_score_of self).
Proof.
  intros Hlen.
  destruct (Database.requirements self) as [|r rs] eqn:Hrs.
  - unfold Database.calculate_compliance_score, Database.exact_score_of.
    rewrite Hrs. reflexivity.
  - rewrite score_is_float_score by congruence.
    unfold Database.exact_score_of, count_if.
    pose proof (compliant_and_at_risk_disjoint (Database.requirements self)) as Hsum.
    rewrite Hrs in *.
    set (n := List.length (r :: rs)) in *.
    set (c := List.length (filter (Database.status_is "compliant") (r :: rs))) in *.
    set (a := List.length (filter (Database.status_is "at_risk") (r :: rs))) in *.
    assert (1 <= n)%nat as Hpos by (subst n; simpl; lia).
    assert (Database.agree_up_to 24 = true) as Hall by (vm_compute; reflexivity).
    unfold Database.agree_up_to in Hall.
    rewrite forallb_forall in Hall.
    specialize (Hall n ltac:(apply in_seq; lia)).
    rewrite forallb_forall in Hall.
    specialize (Hall c ltac:(apply in_seq; lia)).
    rewrite forallb_forall in Hall.
    specialize (Hall a ltac:(apply in_seq; lia)).
    change (Models.value Models.COMPLIANT) with "compliant".
    change (Models.value Models.AT_RISK) with "at_risk".
    fold c a.
    destruct (Database.float_score (Z.of_nat c) (Z.of_nat a) (Z.of_nat n)) as [z|];
      [|discriminate Hall].
    apply Z.eqb_eq in Hall. rewrite Hall. reflexivity.
Qed.

End Score.

(** ** Serialization *)

Section RoundTrip.
Import Reconstruct.

#[local] Arguments of_value : simpl never.
#[local] Arguments value : simpl never.

Lemma of_value_category (c : RequirementCategory) : of_value (value c) = Some c.
Proof. destruct c; reflexivity. Qed.

Lemma of_value_frequency (f : Frequency) : of_value (value f) = Some f.
Proof. destruct f; reflexivity. Qed.

Lemma of_value_status (s : ComplianceStatus) : of_value (value s) = Some s.
Proof. destruct s; reflexivity. Qed.

Lemma of_value_severity (s : Severity) : of_value (value s) = Some s.
Proof. destruct s; reflexivity. Qed.

Lemma traverse_map {A : Type} (to : A -> pyval) (from : pyval -> option A) (l : list A) :
  (forall a, from (to a) = Some a) -> traverse from (map to l) = Some l.
Proof.
  intros H. induction l as [|a l IH]; simpl.
  - reflexivity.
  - rewrite H, IH. reflexivity.
Qed.

Lemma Deadline_round_trip (d : Deadline) : Deadline_from_dict (Deadline_to_dict d) = Some d.
Proof.
  destruct d. unfold Deadline_from_dict, Deadline_to_dict, as_enum. cbn.
  rewrite of_value_frequency. reflexivity.
Qed.

Lemma Threshold_round_trip (t : Threshold) :
  Threshold_from_dict (Threshold_to_dict t) = Some t.
Proof. destruct t. reflexivity. Qed.

Lemma nullable_round_trip {A : Type} (to : A -> pyval) (from : pyval -> option A)
  (x : option A) :
  (forall a, to a <> PNone) -> (forall a, from (to a) = Some a) ->
  nullable from (to_dict_or_None to x) = Some x.
Proof.
  intros Hne H. destruct x as [a|]; simpl; [|reflexivity].
  unfold nullable. specialize (Hne a). specialize (H a).
  destruct (to a); try (rewrite H; reflexivity). congruence.
Qed.

Lemma LoanRequirement_round_trip (r : LoanRequirement) :
  LoanRequirement_from_dict (LoanRequirement_to_dict r) = Some r.
Proof.
  destruct r. unfold LoanRequirement_from_dict, LoanRequirement_to_dict, as_enum. cbn.
  rewrite of_value_category, of_value_severity, of_value_status. cbn.
  rewrite (nullable_round_trip Deadline_to_dict Deadline_from_dict);
    [| discriminate | apply Deadline_round_trip ]. cbn.
  rewrite (nullable_round_trip Threshold_to_dict Threshold_from_dict);
    [| discriminate | apply Threshold_round_trip ]. reflexivity.
Qed.

Lemma ComplianceEvent_round_trip (e : ComplianceEvent) :
  ComplianceEvent_from_dict (ComplianceEvent_to_dict e) = Some e.
Proof. destruct e as [a b c d [s|] l]; reflexivity. Qed.

Lemma from_dict_to_dict (p : LoanProfile) : from_dict (to_dict p) = Some p.
Proof.
  destruct p. unfold from_dict, to_dict. cbn.
  rewrite (traverse_map _ _ _ LoanRequirement_round_trip). cbn.
  rewrite (traverse_map _ _ _ ComplianceEvent_round_trip). reflexivity.
Qed.

Corollary to_dict_injective (p q : LoanProfile) : to_dict p = to_dict q -> p = q.
Proof.
  intros H. apply (f_equal from_dict) in H.
  rewrite 2 from_dict_to_dict in H. congruence.
Qed.

(** C7: reconstructing a profile from the mapping [to_dict] produced gives the
    original profile back, equal in every field. *)
Theorem to_dict_round_trip :
  forall p : LoanProfile, from_dict (to_dict p) = Some p.
Proof. exact from_dict_to_dict. Qed.

End RoundTrip.

(** ** The deterministic reference extractor *)

Section Mock.

(** C8: whatever the document text and the loan identifier,
    [MockExtractor.extract_requirements] returns a profile with exactly 8
    requirements, with ids REQ-001 to REQ-008 in this order, and the property
    name "123 Main Street Office Building"; the document text has no effect on
    the profile. *)
Theorem mock_extractor_fixed_profile :
  forall (now document_text loan_id : string),
    let profile := Mock_extract_requirements now document_text loan_id in
    List.length (requirements profile) = 8%nat
    /\ map id (requirements profile)
       = ["REQ-001"; "REQ-002"; "REQ-003"; "REQ-004";
          "REQ-005"; "REQ-006"; "REQ-007"; "REQ-008"]
    /\ property_name profile = PStr "123 Main Street Office Building"
    /\ forall document_text' : string,
         Mock_extract_requirements now document_text' loan_id = profile.
Proof.
  intros now document_text loan_id profile. subst profile.
  repeat split.
Qed.

End Mock.

(** ** The extraction client *)

Section Client.

(** C9: with no credential (the [api_key] argument absent or empty and
    [ANTHROPIC_API_KEY] absent from the environment or empty), constructing the
    client raises: no client is returned, mock or other, and no request has
    been posted. The error is the [ValueError] naming the missing key, or the
    [RuntimeError] naming the missing HTTP library when that is absent too. *)
Theorem init_without_credential_raises :
  forall (HTTPX_AVAILABLE : bool) (environ : string -> option string)
         (api_key : option string) (posted : network),
    nonempty api_key = false ->
    nonempty (environ "ANTHROPIC_API_KEY") = false ->
    __init__ HTTPX_AVAILABLE environ api_key posted
    = (Raise (if HTTPX_AVAILABLE
              then ValueError api_key_missing_message
              else RuntimeError httpx_missing_message),
       posted).
Proof.
  intros httpx environ api_key posted Hkey Henv.
  unfold __init__, ret. destruct httpx; simpl; [|reflexivity].
  rewrite Hkey. unfold nonempty in Henv.
  destruct (environ "ANTHROPIC_API_KEY") as [k|]; [|reflexivity].
  destruct (k =? "")%string; [reflexivity | discriminate Henv].
Qed.

Lemma init_without_credential_raises_witness :
  __init__ true (fun _ => None) (Some "") []
  = (Raise (ValueError api_key_missing_message), []).
Proof.
  apply (init_without_credential_raises true (fun _ => None) (Some "") []);
    reflexivity.
Defined.

End Client.

(** ** The requirement builder *)

Section Builder.
Import Vocabulary Samples.

Lemma dict_get_set_same (d : list (string * pyval)) (k : string) (v : pyval) :
  dict_get (dict_set d k v) k = Some v.
Proof.
  induction d as [|[k' v'] d IH]; simpl.
  - rewrite String.eqb_refl. reflexivity.
  - destruct (k' =? k)%string eqn:E; simpl; rewrite E; [reflexivity | exact IH].
Qed.

Lemma dict_get_set_other (d : list (string * pyval)) (k k' : string) (v : pyval) :
  k <> k' -> dict_get (dict_set d k v) k' = dict_get d k'.
Proof.
  intros Hne. induction d as [|[k0 v0] d IH]; simpl.
  - apply String.eqb_neq in Hne. rewrite Hne. reflexivity.
  - destruct (k0 =? k)%string eqn:E; simpl.
    + apply String.eqb_eq in E. subst k0.
      apply String.eqb_neq in Hne. rewrite Hne. reflexivity.
    + rewrite IH. reflexivity.
Qed.

Lemma get_set_same (d : list (string * pyval)) (k : string) (v dflt : pyval) :
  get (PDict (dict_set d k v)) k dflt = Ok v.
Proof. unfold get. rewrite dict_get_set_same. reflexivity. Qed.

Lemma get_set_other (d : list (string * pyval)) (k k' : string) (v dflt : pyval) :
  k <> k' -> get (PDict (dict_set d k v)) k' dflt = get (PDict d) k' dflt.
Proof. intros H. unfold get. rewrite dict_get_set_other by exact H. reflexivity. Qed.

Lemma getitem_set_other (d : list (string * pyval)) (k k' : string) (v : pyval) :
  k <> k' -> getitem (PDict (dict_set d k v)) k' = getitem (PDict d) k'.
Proof. intros H. unfold getitem. rewrite dict_get_set_other by exact H. reflexivity. Qed.

Lemma build_deadline_set_other (d : list (string * pyval)) (k : string) (v : pyval) :
  k <> "deadline" ->
  build_deadline (PDict (dict_set d k v)) = build_deadline (PDict d).
Proof.
  intros H. unfold build_deadline.
  rewrite get_set_other, getitem_set_other by exact H. reflexivity.
Qed.

Lemma build_threshold_set_other (d : list (string * pyval)) (k : string) (v : pyval) :
  k <> "threshold" ->
  build_threshold (PDict (dict_set d k v)) = build_threshold (PDict d).
Proof.
  intros H. unfold build_threshold.
  rewrite get_set_other, getitem_set_other by exact H. reflexivity.
Qed.

Lemma get_found (d : list (string * pyval)) (k : string) (v dflt : pyval) :
  dict_get d k = Some v -> get (PDict d) k dflt = Ok v.
Proof. intros H. unfold get. rewrite H. reflexivity. Qed.

(** peel one [bind] off both sides of an equation between two runs *)
Ltac step_bind :=
  match goal with
  | |- context [bind ?r _] =>
      match r with
      | context [bind _ _] => fail 1
      | _ => destruct r; simpl bind; unfold rmap; simpl bind; [|reflexivity]
      end
  end.

(** whether [build_deadline] returns is decided by the types in the entry *)
Lemma build_deadline_typed (d : list (string * pyval)) :
  if deadline_ok d then exists dl, build_deadline (PDict d) = Ok dl
  else exists e, build_deadline (PDict d) = Raise e.
Proof.
  unfold deadline_ok, build_deadline, get, getitem, lookup_or.
  destruct (dict_get d "deadline") as [dv|]; simpl; [|eexists; reflexivity].
  destruct (truthy dv) eqn:Ht; [|eexists; reflexivity].
  destruct dv as [| | | | | |dl]; simpl; try (eexists; reflexivity).
  unfold lower.
  destruct (match dict_get dl "frequency" with
            | Some v => v
            | None => PStr "as_needed"
            end); simpl; eexists; reflexivity.
Qed.

(** whether [build_threshold] returns is decided by the types in the entry *)
Lemma build_threshold_typed (d : list (string * pyval)) :
  if threshold_ok d then exists th, build_threshold (PDict d) = Ok th
  else exists e, build_threshold (PDict d) = Raise e.
Proof.
  unfold threshold_ok, build_threshold, get, getitem, lookup_or.
  destruct (dict_get d "threshold") as [tv|]; simpl; [|eexists; reflexivity].
  destruct (truthy tv) eqn:Ht; [|eexists; reflexivity].
  destruct tv as [| | | | | |th]; simpl; eexists; reflexivity.
Qed.

(** the builder on an object, with the reads of the entry made explicit *)
Lemma build_requirement_dict (d : list (string * pyval)) (index : nat) :
  _build_requirement (PDict d) index
  = (cl <- lower (lookup_or d "category" (PStr "other")) ;;
     dl <- build_deadline (PDict d) ;;
     th <- build_threshold (PDict d) ;;
     sl <- lower (lookup_or d "severity" (PStr "medium")) ;;
     ot <- slice_to (lookup_or d "original_text" (PStr "")) 500 ;;
     Ok (built_from d index (coerce_enum OTHER (str_replace " " "_" cl))
           (coerce_enum MEDIUM sl) ot dl th)).
Proof. reflexivity. Qed.

(** on an entry with the types the builder relies on, the builder returns
    the requirement read field by field from the entry *)
Lemma build_requirement_well_typed (d : list (string * pyval)) (index : nat) :
  well_typed (PDict d) = true ->
  exists c0 s0 ot dl th,
    lookup_or d "category" (PStr "other") = PStr c0
    /\ lookup_or d "severity" (PStr "medium") = PStr s0
    /\ slice_to (lookup_or d "original_text" (PStr "")) 500 = Ok ot
    /\ build_deadline (PDict d) = Ok dl
    /\ build_threshold (PDict d) = Ok th
    /\ _build_requirement (PDict d) index
       = Ok (built_from d index (coerce_enum OTHER (str_replace " " "_" (str_lower c0)))
               (coerce_enum MEDIUM (str_lower s0)) ot dl th).
Proof.
  intros H. cbn [well_typed] in H. rewrite !andb_true_iff in H.
  destruct H as [[[[Hc Hd] Ht] Hs] Ho].
  pose proof (build_deadline_typed d) as Bd. rewrite Hd in Bd. destruct Bd as [dl Bd].
  pose proof (build_threshold_typed d) as Bt. rewrite Ht in Bt. destruct Bt as [th Bt].
  rewrite build_requirement_dict.
  destruct (lookup_or d "category" (PStr "other")) as [| | | |c0| |];
    try discriminate Hc.
  destruct (lookup_or d "severity" (PStr "medium")) as [| | | |s0| |];
    try discriminate Hs.
  assert (exists ot, slice_to (lookup_or d "original_text" (PStr "")) 500 = Ok ot)
    as [ot Bo].
  { destruct (lookup_or d "original_text" (PStr "")); try discriminate Ho;
      eexists; reflexivity. }
  exists c0, s0, ot, dl, th.
  rewrite Bd, Bt, Bo. repeat split; reflexivity.
Qed.

(** on any other entry the builder raises *)
Lemma build_requirement_ill_typed (entry : pyval) (index : nat) :
  well_typed entry = false -> exists e, _build_requirement entry index = Raise e.
Proof.
  intros H. destruct entry as [| | | | | |d]; try (eexists; reflexivity).
  cbn [well_typed] in H. rewrite build_requirement_dict.
  pose proof (build_deadline_typed d) as Bd.
  pose proof (build_threshold_typed d) as Bt.
  destruct (lookup_or d "category" (PStr "other")) as [| | | |c0| |];
    try (eexists; reflexivity).
  destruct (deadline_ok d); [destruct Bd as [dl Bd]|destruct Bd as [e Bd]];
    rewrite Bd; [|eexists; reflexivity].
  destruct (threshold_ok d); [destruct Bt as [th Bt]|destruct Bt as [e Bt]];
    rewrite Bt; [|eexists; reflexivity].
  destruct (lookup_or d "severity" (PStr "medium")) as [| | | |s0| |];
    try (eexists; reflexivity).
  destruct (lookup_or d "original_text" (PStr "")); try discriminate H;
    eexists; reflexivity.
Qed.

Lemma lookup_or_found (d : list (string * pyval)) (k : string) (v dflt : pyval) :
  dict_get d k = Some v -> lookup_or d k dflt = v.
Proof. intros H. unfold lookup_or. rewrite H. reflexivity. Qed.

(** C1, amended: when the [category] of a requirement entry is a string
    that, lowered and with its spaces turned into underscores, is the value
    of no [RequirementCategory] member, the builder uses OTHER and its outcome
    is otherwise the one for the same entry with a valid category. When the
    other fields of the entry have the types the builder relies on, it
    returns, and the requirement has category OTHER and every other field as
    read from the entry. Likewise for a [severity] string that, lowered, is
    the value of no [Severity] member: MEDIUM is used and nothing else
    changes. *)
Theorem unknown_category_or_severity_defaults :
  forall (entry : list (string * pyval)) (index : nat) (s : string),
    (dict_get entry "category" = Some (PStr s) ->
     of_value (E := RequirementCategory) (str_replace " " "_" (str_lower s)) = None ->
     (forall (s' : string) (c' : RequirementCategory),
        of_value (str_replace " " "_" (str_lower s')) = Some c' ->
        _build_requirement (PDict entry) index
        = rmap (with_category OTHER)
            (_build_requirement (PDict (dict_set entry "category" (PStr s'))) index))
     /\ (well_typed (PDict entry) = true ->
         exists s0 ot dl th,
           lookup_or entry "severity" (PStr "medium") = PStr s0
           /\ slice_to (lookup_or entry "original_text" (PStr "")) 500 = Ok ot
           /\ build_deadline (PDict entry) = Ok dl
           /\ build_threshold (PDict entry) = Ok th
           /\ _build_requirement (PDict entry) index
              = Ok (built_from entry index OTHER (coerce_enum MEDIUM (str_lower s0))
                      ot dl th)))
    /\
    (dict_get entry "severity" = Some (PStr s) ->
     of_value (E := Severity) (str_lower s) = None ->
     (forall (s' : string) (v' : Severity),
        of_value (str_lower s') = Some v' ->
        _build_requirement (PDict entry) index
        = rmap (with_severity MEDIUM)
            (_build_requirement (PDict (dict_set entry "severity" (PStr s'))) index))
     /\ (well_typed (PDict entry) = true ->
         exists c0 ot dl th,
           lookup_or entry "category" (PStr "other") = PStr c0
           /\ slice_to (lookup_or entry "original_text" (PStr "")) 500 = Ok ot
           /\ build_deadline (PDict entry) = Ok dl
           /\ build_threshold (PDict entry) = Ok th
           /\ _build_requirement (PDict entry) index
              = Ok (built_from entry index
                      (coerce_enum OTHER (str_replace " " "_" (str_lower c0)))
                      MEDIUM ot dl th))).
Proof.
  intros entry index s. split.
  - intros Hcat Hbad. split.
    + intros s' c' Hgood. unfold _build_requirement.
      rewrite get_set_same.
      rewrite build_deadline_set_other, build_threshold_set_other by discriminate.
      rewrite !get_set_other by discriminate.
      rewrite (get_found _ _ _ _ Hcat). simpl bind.
      unfold coerce_enum. rewrite Hbad, Hgood.
      repeat step_bind. reflexivity.
    + intros Hwt.
      destruct (build_requirement_well_typed entry index Hwt)
        as (c0 & s0 & ot & dl & th & Hc & Hs & Ho & Hd & Ht & Hb).
      rewrite (lookup_or_found _ _ _ _ Hcat) in Hc. injection Hc as <-.
      exists s0, ot, dl, th. repeat (split; [assumption|]).
      rewrite Hb. unfold coerce_enum at 1. rewrite Hbad. reflexivity.
  - intros Hsev Hbad. split.
    + intros s' v' Hgood. unfold _build_requirement.
      rewrite get_set_same.
      rewrite build_deadline_set_other, build_threshold_set_other by discriminate.
      rewrite !get_set_other by discriminate.
      rewrite (get_found _ _ _ _ Hsev).
      unfold coerce_enum. simpl lower.
      repeat step_bind.
      simpl bind. rewrite Hbad, Hgood.
      repeat step_bind. reflexivity.
    + intros Hwt.
      destruct (build_requirement_well_typed entry index Hwt)
        as (c0 & s0 & ot & dl & th & Hc & Hs & Ho & Hd & Ht & Hb).
      rewrite (lookup_or_found _ _ _ _ Hsev) in Hs. injection Hs as <-.
      exists c0, ot, dl, th. repeat (split; [assumption|]).
      rewrite Hb. unfold coerce_enum at 2. rewrite Hbad. reflexivity.
Qed.

Lemma unknown_category_or_severity_defaults_witness :
  (exists r,
     _build_requirement (PDict (sample_entry "ratio test" "severe")) 2 = Ok r
     /\ category r = OTHER /\ severity r = MEDIUM
     /\ id r = "REQ-002" /\ title r = PStr "DSCR Covenant")
  /\ _build_requirement (PDict (sample_entry "ratio test" "severe")) 2
     = rmap (with_category OTHER)
         (_build_requirement
            (PDict (dict_set (sample_entry "ratio test" "severe") "category"
                      (PStr "Covenant Compliance"))) 2)
  /\ _build_requirement (PDict (sample_entry "ratio test" "severe")) 2
     = rmap (with_severity MEDIUM)
         (_build_requirement
            (PDict (dict_set (sample_entry "ratio test" "severe") "severity"
                      (PStr "CRITICAL"))) 2).
Proof.
  destruct (unknown_category_or_severity_defaults
              (sample_entry "ratio test" "severe") 2 "ratio test")
    as [Hcat _].
  destruct (Hcat eq_refl eq_refl) as (Hc1 & Hc2).
  destruct (unknown_category_or_severity_defaults
              (sample_entry "ratio test" "severe") 2 "severe")
    as [_ Hsev].
  destruct (Hsev eq_refl eq_refl) as (Hs1 & _).
  split; [|split].
  - destruct (Hc2 eq_refl) as (s0 & ot & dl & th & Hs0 & _ & _ & _ & Hb).
    eexists. split; [exact Hb|].
    vm_compute in Hs0. injection Hs0 as <-.
    repeat split; reflexivity.
  - apply (Hc1 "Covenant Compliance" COVENANT_COMPLIANCE). reflexivity.
  - apply (Hs1 "CRITICAL" CRITICAL). reflexivity.
Defined.

(** C1, as stated, fails: on an entry whose category is a string that is no
    category value and whose [original_text] is null, the builder raises
    TypeError when it slices the text. *)
Lemma unknown_category_with_null_text_raises :
  dict_get [("category", PStr "ratio test"); ("original_text", PNone)] "category"
  = Some (PStr "ratio test")
  /\ of_value (E := RequirementCategory) (str_replace " " "_" (str_lower "ratio test"))
     = None
  /\ _build_requirement
       (PDict [("category", PStr "ratio test"); ("original_text", PNone)]) 1
     = Raise TypeError.
Proof. repeat split; reflexivity. Qed.

Lemma build_requirement_id (entry : pyval) (index : nat) (r : LoanRequirement) :
  _build_requirement entry index = Ok r -> id r = "REQ-" ++ format_03d index.
Proof.
  unfold _build_requirement.
  repeat match goal with
         | |- context [bind ?x _] =>
             match x with
             | context [bind _ _] => fail 1
             | _ => destruct x; simpl bind; [|discriminate]
             end
         end.
  intros H. injection H as <-. reflexivity.
Qed.

(** the index is used for the id and for the default title only: whether the
    builder returns does not depend on it *)
Lemma accepted_at_any_index (entry : pyval) (index : nat) :
  accepted entry = true -> exists r, _build_requirement entry index = Ok r.
Proof.
  unfold accepted, _build_requirement.
  destruct entry; try discriminate.
  unfold get at 1 5 6 7 8 9 10 11 12 13 14 15. simpl bind.
  repeat match goal with
         | |- context [bind ?x _] =>
             match x with
             | context [bind _ _] => fail 1
             | _ => destruct x; simpl bind; [|discriminate]
             end
         end.
  intros _. eexists. reflexivity.
Qed.

Lemma build_loop_requirements (items : list pyval) :
  forall (i : nat) (profile p : LoanProfile),
    build_loop items i profile = Ok p ->
    exists rs,
      requirements p = (requirements profile ++ rs)%list
      /\ List.length rs = List.length items
      /\ forall j entry, nth_error items j = Some entry ->
           exists r, nth_error rs j = Some r
                     /\ _build_requirement entry (i + j + 1) = Ok r.
Proof.
  induction items as [|entry items IH]; intros i profile p H; simpl in H.
  - injection H as <-. exists []. rewrite app_nil_r. repeat split.
    intros [|j] e Hj; discriminate Hj.
  - destruct (_build_requirement entry (i + 1)) as [r|] eqn:Hr; [|discriminate H].
    simpl in H. apply IH in H. destruct H as (rs & Hreqs & Hlen & Hnth).
    exists (r :: rs). simpl in Hreqs. rewrite <- app_assoc in Hreqs.
    split; [exact Hreqs|]. split; [simpl; lia|].
    intros [|j] e Hj; simpl in Hj.
    + injection Hj as <-. exists r. split; [reflexivity|].
      rewrite Nat.add_0_r. exact Hr.
    + destruct (Hnth j e Hj) as (r' & Hr' & Hb). exists r'. split; [exact Hr'|].
      replace (i + S j + 1)%nat with (S i + j + 1)%nat by lia. exact Hb.
Qed.

Lemma build_loop_returns (items : list pyval) :
  Forall (fun entry => accepted entry = true) items ->
  forall (i : nat) (profile : LoanProfile), exists p, build_loop items i profile = Ok p.
Proof.
  induction 1 as [|entry items Hacc _ IH]; intros i profile; simpl.
  - eexists. reflexivity.
  - destruct (accepted_at_any_index entry (i + 1) Hacc) as [r Hr].
    rewrite Hr. simpl. apply IH.
Qed.

Lemma format_03d_digit (n : nat) :
  (1 <= n <= 9)%nat -> format_03d n = "00" ++ str_of_nat n.
Proof.
  intros H.
  assert (In n (seq 1 9)) as Hin by (apply in_seq; lia).
  simpl in Hin. repeat (destruct Hin as [<-|Hin]; [reflexivity|]). destruct Hin.
Qed.

Lemma accepted_well_typed (entry : pyval) : accepted entry = well_typed entry.
Proof.
  unfold accepted. destruct (well_typed entry) eqn:W.
  - destruct entry as [| | | | | |d]; try discriminate W.
    destruct (build_requirement_well_typed d 0 W)
      as (c0 & s0 & ot & dl & th & _ & _ & _ & _ & _ & Hb).
    rewrite Hb. reflexivity.
  - destruct (build_requirement_ill_typed entry 0 W) as [e He].
    rewrite He. reflexivity.
Qed.

(** C2, amended: for a decoded payload whose [requirements] list has N
    entries, each with the types the requirement builder relies on, and whose
    [loan_info] is an object (or absent), [_build_loan_profile] returns a
    profile with exactly N requirements, the j-th of them built from the j-th
    entry, with id REQ- followed by its 1-based position written in decimal
    and padded with zeros to three digits (REQ-001, ..., REQ-009, REQ-010,
    ...); and any profile that is built has this shape. *)
Theorem build_loan_profile_numbers_requirements :
  forall (now : string) (parsed : list (string * pyval)) (loan_id : string)
         (entries : list pyval),
    get (PDict parsed) "requirements" (PList []) = Ok (PList entries) ->
    ((exists info, get (PDict parsed) "loan_info" (PDict []) = Ok (PDict info)) ->
     Forall (fun entry => well_typed entry = true) entries ->
     exists p, _build_loan_profile now (PDict parsed) loan_id = Ok p)
    /\ (forall p : LoanProfile,
          _build_loan_profile now (PDict parsed) loan_id = Ok p ->
          List.length (requirements p) = List.length entries
          /\ map id (requirements p)
             = map (fun j => "REQ-" ++ format_03d j) (seq 1 (List.length entries))
          /\ forall j entry, nth_error entries j = Some entry ->
               exists r, nth_error (requirements p) j = Some r
                         /\ _build_requirement entry (j + 1) = Ok r
                         /\ id r = "REQ-" ++ format_03d (j + 1)
                         /\ ((j < 9)%nat -> id r = "REQ-00" ++ str_of_nat (j + 1))).
Proof.
  intros now parsed loan_id entries Hreqs. split.
  - intros [info Hinfo] Hacc. unfold _build_loan_profile.
    rewrite Hinfo, Hreqs. simpl. apply build_loop_returns.
    eapply Forall_impl; [|exact Hacc].
    intros entry Hw. rewrite accepted_well_typed. exact Hw.
  - intros p Hp. unfold _build_loan_profile in Hp.
    rewrite Hreqs in Hp.
    repeat match type of Hp with
           | context [bind ?x _] =>
               match x with
               | context [bind _ _] => fail 1
               | build_loop _ _ _ => fail 1
               | _ => destruct x; simpl bind in Hp; [|discriminate Hp]
               end
           end.
    apply build_loop_requirements in Hp.
    destruct Hp as (rs & Hrs & Hlen & Hnth). simpl in Hrs. rewrite Hrs.
    split; [exact Hlen|].
    assert (forall j entry, nth_error entries j = Some entry ->
              exists r, nth_error rs j = Some r
                        /\ _build_requirement entry (j + 1) = Ok r
                        /\ id r = "REQ-" ++ format_03d (j + 1)) as Hall.
    { intros j entry Hj. destruct (Hnth j entry Hj) as (r & Hr & Hb).
      exists r. split; [exact Hr|]. split; [exact Hb|].
      apply build_requirement_id in Hb. exact Hb. }
    split.
    + apply nth_error_ext. intros j.
      rewrite !nth_error_map, nth_error_seq.
      destruct (nth_error entries j) as [entry|] eqn:Hj.
      * destruct (Hall j entry Hj) as (r & Hr & _ & Hid). rewrite Hr.
        assert (j < List.length entries)%nat as Hlt
            by (apply nth_error_Some; congruence).
        apply Nat.ltb_lt in Hlt. rewrite Hlt. cbn [option_map]. rewrite Hid.
        replace (1 + j)%nat with (j + 1)%nat by lia. reflexivity.
      * apply nth_error_None in Hj.
        rewrite (proj2 (nth_error_None rs j)) by lia.
        apply Nat.ltb_ge in Hj. rewrite Hj. reflexivity.
    + intros j entry Hj. destruct (Hall j entry Hj) as (r & Hr & Hb & Hid).
      exists r. repeat split; try assumption.
      intros Hlt. rewrite Hid. rewrite format_03d_digit by lia. reflexivity.
Qed.

Lemma build_loan_profile_numbers_requirements_witness :
  exists p,
    _build_loan_profile "2024-01-01T00:00:00" (PDict sample_payload) "LOAN-001" = Ok p
    /\ map id (requirements p) = ["REQ-001"; "REQ-002"]
    /\ map category (requirements p) = [COVENANT_COMPLIANCE; OTHER]
    /\ map severity (requirements p) = [CRITICAL; MEDIUM].
Proof.
  destruct (build_loan_profile_numbers_requirements
              "2024-01-01T00:00:00" sample_payload "LOAN-001"
              [PDict (sample_entry "covenant compliance" "critical");
               PDict (sample_entry "ratio test" "severe")] eq_refl)
    as (Hreturns & Hshape).
  destruct Hreturns as [p Hp].
  - eexists. reflexivity.
  - repeat constructor.
  - exists p. split; [exact Hp|].
    split; [apply (Hshape p Hp)|].
    vm_compute in Hp. injection Hp as <-. split; reflexivity.
Defined.

(** C2, as stated, fails: for a payload whose requirements list has two
    entries, the second with a null category, no profile is built:
    [_build_loan_profile] raises AttributeError. *)
Lemma payload_with_null_category_builds_no_profile :
  get (PDict [("requirements",
               PList [PDict (sample_entry "insurance" "high");
                      PDict [("category", PNone)]])])
    "requirements" (PList [])
  = Ok (PList [PDict (sample_entry "insurance" "high"); PDict [("category", PNone)]])
  /\ _build_loan_profile "2024-01-01T00:00:00"
       (PDict [("requirements",
                PList [PDict (sample_entry "insurance" "high");
                       PDict [("category", PNone)]])])
       "LOAN-001"
     = Raise AttributeError.
Proof. split; reflexivity. Qed.

End Builder.

(** ** Locating the payload in the response *)

Section Parser.
Import Samples Re.

Variable json_decode : string -> option pyval.

Lemma str_app_assoc (a b c : string) : (a ++ b) ++ c = a ++ b ++ c.
Proof. induction a as [|x a IH]; simpl; [reflexivity | rewrite IH; reflexivity]. Qed.

Lemma star_greedy_sound (k : cclass) (cont : string -> option (list string)) :
  forall (s w : string) (caps : list string),
    star_greedy k cont s = Some (w, caps) ->
    exists rest, s = w ++ rest /\ cont rest = Some caps.
Proof.
  assert (forall s w caps,
            option_map (pair EmptyString) (cont s) = Some (w, caps) ->
            exists rest, s = w ++ rest /\ cont rest = Some caps) as Hstop.
  { intros s w caps H. destruct (cont s) as [caps'|] eqn:E; [|discriminate H].
    simpl in H. injection H as <- <-. exists s. split; [reflexivity | exact E]. }
  induction s as [|c s IH]; intros w caps H; simpl in H.
  - apply Hstop. exact H.
  - destruct (in_class k c); [|apply Hstop; exact H].
    destruct (star_greedy k cont s) as [[w' caps']|] eqn:E; [|apply Hstop; exact H].
    injection H as <- <-. destruct (IH w' caps' eq_refl) as (rest & -> & Hc).
    exists rest. split; [reflexivity | exact Hc].
Qed.

Lemma star_lazy_sound (k : cclass) (cont : string -> option (list string)) :
  forall (s w : string) (caps : list string),
    star_lazy k cont s = Some (w, caps) ->
    exists rest, s = w ++ rest /\ cont rest = Some caps.
Proof.
  induction s as [|c s IH]; intros w caps H; simpl in H.
  - destruct (cont EmptyString) as [caps'|] eqn:E; [|discriminate H].
    injection H as <- <-. exists EmptyString. split; [reflexivity | exact E].
  - destruct (cont (String c s)) as [caps'|] eqn:E.
    + injection H as <- <-. exists (String c s). split; [reflexivity | exact E].
    + destruct (in_class k c); [|discriminate H].
      destruct (star_lazy k cont s) as [[w' caps']|] eqn:E'; [|discriminate H].
      injection H as <- <-. destruct (IH w' caps' eq_refl) as (rest & -> & Hc).
      exists rest. split; [reflexivity | exact Hc].
Qed.


Lemma search_from_sound (p : list atom) :
  forall (s skipped : string) (caps : list string),
    search_from p s = Some (skipped, caps) ->
    exists rest, s = skipped ++ rest /\ match_here p rest = Some caps.
Proof.
  induction s as [|c s IH]; intros skipped caps H; simpl in H.
  - destruct (match_here p EmptyString) as [caps'|] eqn:E; [|discriminate H].
    injection H as <- <-. exists EmptyString. split; [reflexivity | exact E].
  - destruct (match_here p (String c s)) as [caps'|] eqn:E.
    + injection H as <- <-. exists (String c s). split; [reflexivity | exact E].
    + destruct (search_from p s) as [[skipped' caps']|] eqn:E'; [|discriminate H].
      injection H as <- <-. destruct (IH skipped' caps' eq_refl) as (rest & -> & Hc).
      exists rest. split; [reflexivity | exact Hc].
Qed.

(** a star can consume any run of characters of its class after which the
    rest of the pattern matches *)
Lemma star_complete (greedy : bool) (k : cclass) (cont : string -> option (list string)) :
  forall (w rest : string),
    (forall c, in_class k c = true) \/ w = EmptyString ->
    cont rest <> None ->
    (if greedy then star_greedy else star_lazy) k cont (w ++ rest) <> None.
Proof.
  assert (forall s, cont s <> None -> star_greedy k cont s <> None) as Hg.
  { intros s Hs. destruct (cont s) as [caps|] eqn:E; [|congruence].
    destruct s as [|c s]; simpl; rewrite E; simpl; [discriminate|].
    destruct (in_class k c); [|discriminate].
    destruct (star_greedy k cont s) as [[? ?]|]; discriminate. }
  assert (forall s, cont s <> None -> star_lazy k cont s <> None) as Hl.
  { intros s Hs. destruct (cont s) as [caps|] eqn:E; [|congruence].
    destruct s as [|c s]; simpl; rewrite E; discriminate. }
  induction w as [|c w IH]; intros rest Hclass Hrest; simpl.
  - destruct greedy; [apply Hg | apply Hl]; exact Hrest.
  - destruct Hclass as [Hclass|Hw]; [|discriminate Hw].
    specialize (IH rest (or_introl Hclass) Hrest).
    destruct greedy; simpl.
    + rewrite Hclass.
      destruct (star_greedy k cont (w ++ rest)) as [[? ?]|]; [discriminate | congruence].
    + destruct (cont (String c (w ++ rest))); [discriminate|].
      rewrite Hclass.
      destruct (star_lazy k cont (w ++ rest)) as [[? ?]|]; [discriminate | congruence].
Qed.



Lemma search_none (r : regex) (s : string) :
  search_from (atoms r) s = None -> search r s = None.
Proof. unfold search. intros ->. reflexivity. Qed.

Lemma match_here_chr_some (c : ascii) (p : list atom) (s : string) :
  match_here p s <> None -> match_here (Chr c :: p) (String c s) <> None.
Proof.
  intros H. simpl. rewrite Ascii.eqb_refl.
  destruct (match_here p s); [discriminate | congruence].
Qed.

Lemma match_here_star_some (greedy : bool) (k : cclass) (p : list atom) (w rest : string) :
  (forall c, in_class k c = true) \/ w = EmptyString ->
  match_here p rest <> None ->
  match_here (Star greedy k :: p) (w ++ rest) <> None.
Proof.
  intros Hclass Hrest.
  pose proof (star_complete greedy k (match_here p) w rest Hclass Hrest) as H.
  cbn [match_here].
  destruct ((if greedy then star_greedy else star_lazy) k (match_here p) (w ++ rest))
    as [[? ?]|]; [discriminate | congruence].
Qed.





End Parser.


(** ** Truncation of the document text *)

Section Truncation.
Import Samples.

Lemma substring_all (s : string) : substring 0 (String.length s) s = s.
Proof. induction s as [|c s IH]; simpl; [reflexivity | rewrite IH; reflexivity]. Qed.

(** cutting [s] after its first [a] characters *)
Lemma substring_cut (a : nat) :
  forall s : string,
    (a <= String.length s)%nat ->
    exists t,
      s = substring 0 a s ++ t
      /\ String.length (substring 0 a s) = a
      /\ (a + String.length t = String.length s)%nat
      /\ forall a' b, substring (a + a') b s = substring a' b t.
Proof.
  induction a as [|a IH]; intros s Hle.
  - exists s. destruct s; simpl; repeat split; reflexivity.
  - destruct s as [|c s]; simpl in Hle; [lia|].
    destruct (IH s ltac:(lia)) as (t & Hs & Hlen & Hsum & Hshift).
    exists t. simpl. rewrite <- Hs, Hlen.
    repeat split; [lia | exact Hshift].
Qed.

(** the two slices of [extract_requirements], for any half budget [h] *)
Lemma slices_are_both_ends (h : Z) (text : string) :
  0 < h -> 2 * h < len text ->
  exists first middle last,
    text = first ++ middle ++ last
    /\ len first = h /\ len last = h
    /\ str_slice text None (Some h) = first
    /\ str_slice text (Some (- h)) None = last.
Proof.
  unfold str_slice, slice_bound, len. intros Hpos Hlong.
  remember (String.length text) as n eqn:Hn.
  destruct (substring_cut (Z.to_nat h) text ltac:(lia))
    as (t & Htext & Hfirst & Hsum & Hshift).
  destruct (substring_cut (n - 2 * Z.to_nat h) t ltac:(lia))
    as (u & Ht & Hmiddle & Hsum' & Hshift').
  exists (substring 0 (Z.to_nat h) text), (substring 0 (n - 2 * Z.to_nat h) t), u.
  split; [rewrite <- Ht; exact Htext|].
  split; [lia|]. split; [lia|].
  split.
  - destruct (h <? 0) eqn:E; [lia|]. f_equal; lia.
  - destruct (- h <? 0) eqn:E; [|lia].
    replace (Z.to_nat (Z.max 0 (- h + Z.of_nat n)))
      with (Z.to_nat h + (n - 2 * Z.to_nat h))%nat by lia.
    rewrite Hshift.
    replace (n - 2 * Z.to_nat h)%nat with (n - 2 * Z.to_nat h + 0)%nat at 1 by lia.
    rewrite Hshift'.
    replace (Z.to_nat (Z.of_nat n - Z.max 0 (- h + Z.of_nat n)))
      with (String.length u) by lia.
    apply substring_all.
Qed.

(** C3: a document text longer than 150,000 characters goes into the prompt
    as its first 75,000 characters, the truncation marker and its last 75,000
    characters; a text of at most 150,000 characters goes in unchanged; and
    the request [extract_requirements] posts is the prompt template around
    that text. *)
Theorem truncate_document_keeps_both_ends :
  forall text : string,
    (150000 < len text ->
     exists first middle last,
       text = first ++ middle ++ last
       /\ len first = 75000 /\ len last = 75000
       /\ truncate_document text = first ++ truncation_marker ++ last)
    /\ (len text <= 150000 -> truncate_document text = text)
    /\ forall json_decode now prompt_head prompt_tail service self loan_id posted,
         snd (extract_requirements now json_decode prompt_head prompt_tail service
                self text loan_id posted)
         = (posted ++ [(prompt_head ++ truncate_document text ++ prompt_tail)%string])%list.
Proof.
  intros text. unfold truncate_document.
  change (max_chars / 2) with 75000. unfold max_chars.
  split; [|split].
  - intros Hlong.
    destruct (slices_are_both_ends 75000 text ltac:(lia) ltac:(lia))
      as (first & middle & last & Htext & Hf & Hl & Hs1 & Hs2).
    exists first, middle, last.
    destruct (len text >? 150000) eqn:E; [|lia].
    rewrite Hs1, Hs2. auto.
  - intros Hshort. destruct (len text >? 150000) eqn:E; [lia | reflexivity].
  - intros. unfold extract_requirements, mbind, _call_claude, ret.
    unfold truncate_document. change (max_chars / 2) with 75000. unfold max_chars.
    destruct (service _); [destruct (_parse_response _ _)|]; reflexivity.
Qed.

Lemma truncate_document_keeps_both_ends_witness :
  (exists first middle last,
     long_document = first ++ middle ++ last
     /\ len first = 75000 /\ len last = 75000
     /\ truncate_document long_document = first ++ truncation_marker ++ last)
  /\ truncate_document "Loan Agreement" = "Loan Agreement".
Proof.
  split.
  - apply (proj1 (truncate_document_keeps_both_ends long_document)).
    vm_compute. reflexivity.
  - apply (proj1 (proj2 (truncate_document_keeps_both_ends "Loan Agreement"))).
    vm_compute. discriminate.
Defined.

End Truncation.

(** * Further properties *)

(** ** Views and summary of a profile *)

Section Views.
Import Vocabulary.

Lemma category_eqb_eq (a b : RequirementCategory) : category_eqb a b = true <-> a = b.
Proof. split; [destruct a, b; (reflexivity || discriminate) | intros ->; destruct b; reflexivity]. Qed.

Lemma status_eqb_eq (a b : ComplianceStatus) : status_eqb a b = true <-> a = b.
Proof. split; [destruct a, b; (reflexivity || discriminate) | intros ->; destruct b; reflexivity]. Qed.

Lemma count_if_cons {A : Type} (f : A -> bool) (r : A) (rs : list A) :
  count_if f (r :: rs) = (if f r then 1 else 0) + count_if f rs.
Proof. unfold count_if. simpl. destruct (f r); simpl List.length; lia. Qed.

(** Every requirement of a profile is in the group of exactly one category:
    a requirement is in the group of [c] when and only when it is in the
    profile with category [c], and the sizes of the groups of all the
    categories add up to the number of requirements. *)
Theorem categories_partition_requirements :
  forall p : LoanProfile,
    (forall c r, In r (get_requirements_by_category p c)
                 <-> In r (requirements p) /\ category r = c)
    /\ sum_Z (map (fun c => Z.of_nat (List.length (get_requirements_by_category p c)))
                  members)
       = Z.of_nat (List.length (requirements p)).
Proof.
  intros p. unfold get_requirements_by_category. split.
  - intros c r. rewrite filter_In. simpl. rewrite category_eqb_eq. reflexivity.
  - change (sum_Z (map (fun c => count_if (fun r => enum_eqb (category r) c)
                                   (requirements p)) members)
            = Z.of_nat (List.length (requirements p))).
    generalize (requirements p) as rs. intros rs.
    induction rs as [|r rs IH]; [reflexivity|].
    cbn [members RequirementCategory_enum map sum_Z fold_right] in *.
    rewrite !count_if_cons.
    destruct (category r); cbn [enum_eqb RequirementCategory_enum category_eqb] in *;
      cbn [List.length]; lia.
Qed.

(** The summary agrees with the views: [non_compliant_count] and
    [at_risk_count] are the sizes of [get_non_compliant] and [get_at_risk],
    and the counts [by_status] holds for the members of [ComplianceStatus]
    add up to [total_requirements]. *)
Theorem summary_agrees_with_views :
  forall p : LoanProfile,
    as_int (dict_get (compliance_summary p) "non_compliant_count")
    = Some (Z.of_nat (List.length (get_non_compliant p)))
    /\ as_int (dict_get (compliance_summary p) "at_risk_count")
       = Some (Z.of_nat (List.length (get_at_risk p)))
    /\ exists by_status (count_of : ComplianceStatus -> Z),
         dict_get (compliance_summary p) "by_status" = Some (PDict by_status)
         /\ (forall s, dict_get by_status (value s) = Some (PInt (count_of s)))
         /\ as_int (dict_get (compliance_summary p) "total_requirements")
            = Some (sum_Z (map count_of members)).
Proof.
  intros p. split; [reflexivity|]. split; [reflexivity|].
  exists (counts_by status (requirements p)),
         (fun s => count_if (fun r => enum_eqb (status r) s) (requirements p)).
  split; [reflexivity|]. split; [intros s; destruct s; reflexivity|].
  change (as_int (dict_get (compliance_summary p) "total_requirements"))
    with (Some (Z.of_nat (List.length (requirements p)))).
  f_equal.
  generalize (requirements p) as rs. intros rs.
  induction rs as [|r rs IH]; [reflexivity|].
  cbn [members ComplianceStatus_enum map sum_Z fold_right] in *.
  rewrite !count_if_cons.
  destruct (status r); cbn [enum_eqb ComplianceStatus_enum status_eqb] in *;
    cbn [List.length]; lia.
Qed.

End Views.

(** ** More on the requirement builder *)

Section BuilderFacts.
Import Vocabulary Samples.

Ltac step_in H :=
  repeat match type of H with
         | context [bind ?x _] =>
             match x with
             | context [bind _ _] => fail 1
             | _ => let E := fresh "E" in
                    destruct x eqn:E; simpl bind in H; [|discriminate H]
             end
         end.

(** what a returned requirement was made of *)
Lemma build_requirement_inv (entry : pyval) (index : nat) (r : LoanRequirement) :
  _build_requirement entry index = Ok r ->
  exists d c0 s0,
    entry = PDict d
    /\ lookup_or d "category" (PStr "other") = PStr c0
    /\ lookup_or d "severity" (PStr "medium") = PStr s0
    /\ build_deadline entry = Ok (deadline r)
    /\ build_threshold entry = Ok (threshold r)
    /\ slice_to (lookup_or d "original_text" (PStr "")) 500 = Ok (original_text r)
    /\ r = mkLoanRequirement ("REQ-" ++ format_03d index)
             (lookup_or d "title" (PStr ("Requirement " ++ str_of_nat index)))
             (coerce_enum OTHER (str_replace " " "_" (str_lower c0)))
             (lookup_or d "description" (PStr ""))
             (lookup_or d "plain_language_summary" (PStr ""))
             (original_text r)
             (lookup_or d "document_reference" (PStr ""))
             (deadline r) (threshold r)
             (coerce_enum MEDIUM (str_lower s0))
             (lookup_or d "cure_period_days" PNone)
             UNKNOWN PNone (PStr "").
Proof.
  intros H. unfold _build_requirement in H.
  destruct entry as [| | | | |l|d]; try discriminate H.
  unfold get in H. simpl bind in H.
  fold (lookup_or d "category" (PStr "other")) in H.
  fold (lookup_or d "severity" (PStr "medium")) in H.
  fold (lookup_or d "original_text" (PStr "")) in H.
  destruct (lookup_or d "category" (PStr "other")) as [| | | |c0| |] eqn:Ec;
    try discriminate H.
  simpl bind in H.
  destruct (build_deadline (PDict d)) as [dl|] eqn:Ed; [|discriminate H].
  simpl bind in H.
  destruct (build_threshold (PDict d)) as [th|] eqn:Et; [|discriminate H].
  simpl bind in H.
  destruct (lookup_or d "severity" (PStr "medium")) as [| | | |s0| |] eqn:Es;
    try discriminate H.
  simpl bind in H.
  destruct (slice_to (lookup_or d "original_text" (PStr "")) 500) as [ot|] eqn:Eo;
    [|discriminate H].
  simpl bind in H. injection H as <-.
  exists d, c0, s0. simpl. repeat split; assumption || reflexivity.
Qed.

Lemma slice_to_500_str (s : string) :
  exists s', slice_to (PStr s) 500 = Ok (PStr s')
             /\ len s' <= 500 /\ is_prefix s' s /\ (len s <= 500 -> s' = s).
Proof.
  unfold slice_to, str_slice, slice_bound, len, is_prefix.
  change (500 <? 0) with false. cbv iota.
  eexists. split; [reflexivity|].
  rewrite Z.sub_0_r. change (Z.to_nat 0) with 0%nat.
  destruct (substring_cut (Z.to_nat (Z.min 500 (Z.of_nat (String.length s)))) s
              ltac:(lia)) as (t & Hs & Hlen & _ & _).
  split; [lia|]. split; [exists t; exact Hs|].
  intros Hshort.
  replace (Z.to_nat (Z.min 500 (Z.of_nat (String.length s))))
    with (String.length s) by lia.
  apply substring_all.
Qed.

(** The source excerpt of a built requirement never has more than 500 items:
    [original_text] is a string of at most 500 characters (or, for an entry
    that gave a list, a list of at most 500 items); when the entry gave a
    string it is a prefix of that string, and the whole of it when that has at
    most 500 characters. *)
Theorem original_text_is_capped :
  forall (entry : list (string * pyval)) (index : nat) (r : LoanRequirement),
    _build_requirement (PDict entry) index = Ok r ->
    (exists n, sliced_length (original_text r) = Some n /\ n <= 500)
    /\ forall s, dict_get entry "original_text" = Some (PStr s) ->
         exists s', original_text r = PStr s'
                    /\ is_prefix s' s /\ (len s <= 500 -> s' = s).
Proof.
  intros entry index r H.
  apply build_requirement_inv in H.
  destruct H as (d & c0 & s0 & Hd & _ & _ & _ & _ & Hslice & _).
  injection Hd as <-. split.
  - destruct (lookup_or entry "original_text" (PStr "")) as [| | | |s|l|];
      try discriminate Hslice.
    + destruct (slice_to_500_str s) as (s' & Hs' & Hlen & _).
      rewrite Hs' in Hslice. injection Hslice as <-.
      exists (len s'). split; [reflexivity | exact Hlen].
    + simpl in Hslice. injection Hslice as <-. eexists. split; [reflexivity|].
      rewrite length_firstn. unfold slice_bound. change (500 <? 0) with false.
      cbv iota. lia.
  - intros s Hs. unfold lookup_or in Hslice. rewrite Hs in Hslice.
    destruct (slice_to_500_str s) as (s' & Hs' & _ & Hpre & Hall).
    rewrite Hs' in Hslice. injection Hslice as <-.
    exists s'. repeat split; assumption.
Qed.

Lemma original_text_is_capped_witness :
  exists r,
    _build_requirement (PDict (sample_entry "insurance" "high")) 1 = Ok r
    /\ exists n, sliced_length (original_text r) = Some n /\ n <= 500.
Proof.
  eexists. split; [reflexivity|].
  apply (proj1 (original_text_is_capped (sample_entry "insurance" "high") 1 _ eq_refl)).
Defined.

Lemma build_deadline_inv (d : list (string * pyval)) (o : option Deadline) :
  build_deadline (PDict d) = Ok o ->
  (o = None <-> truthy (lookup_or d "deadline" PNone) = false)
  /\ forall dl, o = Some dl ->
       specific_date dl = PNone
       /\ exists fields,
            dict_get d "deadline" = Some (PDict fields)
            /\ dl_description dl = lookup_or fields "description" (PStr "")
            /\ days_after_period_end dl = lookup_or fields "days_after_period_end" PNone
            /\ day_of_month dl = lookup_or fields "day_of_month" PNone.
Proof.
  unfold build_deadline, get at 1. fold (lookup_or d "deadline" PNone). simpl bind.
  intros H.
  destruct (truthy (lookup_or d "deadline" PNone)) eqn:Et.
  - unfold getitem in H. unfold lookup_or in Et.
    destruct (dict_get d "deadline") as [v|] eqn:Ev; [|discriminate Et].
    simpl bind in H.
    destruct v as [| | | | | |fields]; try discriminate H.
    unfold get in H. simpl bind in H.
    destruct (lower _) as [fl|]; [|discriminate H].
    simpl bind in H. injection H as <-. split.
    + split; discriminate.
    + intros dl Hdl. injection Hdl as <-. split; [reflexivity|].
      exists fields. repeat split; reflexivity.
  - injection H as <-. split.
    + split; reflexivity.
    + intros dl Hdl. discriminate Hdl.
Qed.

Lemma build_threshold_inv (d : list (string * pyval)) (o : option Threshold) :
  build_threshold (PDict d) = Ok o ->
  (o = None <-> truthy (lookup_or d "threshold" PNone) = false).
Proof.
  unfold build_threshold, get at 1. fold (lookup_or d "threshold" PNone). simpl bind.
  intros H.
  destruct (truthy (lookup_or d "threshold" PNone)) eqn:Et.
  - unfold getitem in H. unfold lookup_or in Et.
    destruct (dict_get d "threshold") as [v|] eqn:Ev; [|discriminate Et].
    simpl bind in H.
    destruct v as [| | | | | |fields]; try discriminate H.
    unfold get in H. simpl bind in H. injection H as <-.
    split; discriminate.
  - injection H as <-. split; reflexivity.
Qed.

(** A built requirement is new: its status is UNKNOWN, it was never checked
    and has no notes, and its deadline, if any, has no specific date. *)
Theorem built_requirement_is_untracked :
  forall (entry : pyval) (index : nat) (r : LoanRequirement),
    _build_requirement entry index = Ok r ->
    status r = UNKNOWN /\ last_checked r = PNone /\ notes r = PStr ""
    /\ forall dl, deadline r = Some dl -> specific_date dl = PNone.
Proof.
  intros entry index r H.
  apply build_requirement_inv in H.
  destruct H as (d & c0 & s0 & -> & _ & _ & Hdl & _ & _ & Hr).
  rewrite Hr. simpl. repeat split.
  intros dl Hsome. apply build_deadline_inv in Hdl.
  apply (proj2 Hdl dl). rewrite Hr in Hsome. exact Hsome.
Qed.

Lemma built_requirement_is_untracked_witness :
  exists r,
    _build_requirement (PDict (sample_entry "insurance" "high")) 1 = Ok r
    /\ status r = UNKNOWN /\ last_checked r = PNone /\ notes r = PStr "".
Proof.
  eexists. split; [reflexivity|].
  destruct (built_requirement_is_untracked
              (PDict (sample_entry "insurance" "high")) 1 _ eq_refl)
    as (H1 & H2 & H3 & _).
  repeat split; assumption.
Defined.

(** A requirement has a deadline (a threshold) exactly when the entry gives a
    true value under [deadline] ([threshold]): a missing key, null and an empty
    object all give none. *)
Theorem deadline_and_threshold_presence :
  forall (entry : list (string * pyval)) (index : nat) (r : LoanRequirement),
    _build_requirement (PDict entry) index = Ok r ->
    (deadline r = None <-> truthy (lookup_or entry "deadline" PNone) = false)
    /\ (threshold r = None <-> truthy (lookup_or entry "threshold" PNone) = false).
Proof.
  intros entry index r H.
  apply build_requirement_inv in H.
  destruct H as (d & c0 & s0 & Hd & _ & _ & Hdl & Hth & _ & _).
  injection Hd as <-.
  split; [apply build_deadline_inv in Hdl; apply Hdl | apply build_threshold_inv, Hth].
Qed.

Lemma deadline_and_threshold_presence_witness :
  exists r,
    _build_requirement (PDict [("title", PStr "Taxes"); ("deadline", PDict [])]) 1 = Ok r
    /\ deadline r = None /\ threshold r = None.
Proof.
  eexists. split; [reflexivity|].
  destruct (deadline_and_threshold_presence
              [("title", PStr "Taxes"); ("deadline", PDict [])] 1 _ eq_refl)
    as [Hd Ht].
  split; [apply Hd | apply Ht]; reflexivity.
Defined.

(** An entry that is not an object, or whose [category] is present and is not
    a string (null, a number, a list, ...), makes the builder raise
    [AttributeError]: only a missing [category] key gets the default. *)
Theorem non_string_category_raises :
  forall (entry : pyval) (index : nat),
    (is_dict entry = false
     \/ exists d v, entry = PDict d /\ dict_get d "category" = Some v
                    /\ is_str v = false) ->
    _build_requirement entry index = Raise AttributeError.
Proof.
  intros entry index [Hnd | (d & v & -> & Hv & Hns)].
  - destruct entry; try reflexivity. discriminate Hnd.
  - unfold _build_requirement. unfold get at 1. rewrite Hv. simpl bind.
    destruct v; try reflexivity. discriminate Hns.
Qed.

Lemma non_string_category_raises_witness :
  _build_requirement (PDict [("title", PStr "Taxes"); ("category", PNone)]) 1
  = Raise AttributeError
  /\ _build_requirement (PStr "Taxes") 1 = Raise AttributeError.
Proof.
  split.
  - apply non_string_category_raises. right.
    exists [("title", PStr "Taxes"); ("category", PNone)], PNone.
    repeat split.
  - apply non_string_category_raises. left. reflexivity.
Defined.

(** whether the builder returns does not depend on the index *)
Lemma rejected_at_any_index (entry : pyval) (index : nat) :
  accepted entry = false -> exists e, _build_requirement entry index = Raise e.
Proof.
  intros Hrej.
  destruct (_build_requirement entry index) as [r|e] eqn:E; [|exists e; reflexivity].
  exfalso. apply build_requirement_inv in E.
  destruct E as (d & c0 & s0 & -> & Hc & Hs & Hdl & Hth & Hot & _).
  unfold accepted, _build_requirement in Hrej.
  unfold get in Hrej. simpl bind in Hrej.
  fold (lookup_or d "category" (PStr "other")) in Hrej.
  fold (lookup_or d "severity" (PStr "medium")) in Hrej.
  fold (lookup_or d "original_text" (PStr "")) in Hrej.
  rewrite Hc, Hs, Hdl, Hth, Hot in Hrej. discriminate Hrej.
Qed.

Lemma build_loop_aborts (items : list pyval) :
  Exists (fun entry => accepted entry = false) items ->
  forall (i : nat) (profile : LoanProfile), exists e, build_loop items i profile = Raise e.
Proof.
  induction items as [|entry items IH]; intros Hex i profile.
  - inversion Hex.
  - simpl. destruct (_build_requirement entry (i + 1)) as [r|e] eqn:E.
    + simpl. apply IH. inversion Hex as [? ? Hrej|]; subst; [|assumption].
      destruct (rejected_at_any_index entry (i + 1) Hrej) as [e He]. congruence.
    + exists e. reflexivity.
Qed.

(** One entry the requirement builder rejects makes [_build_loan_profile]
    raise: no profile is returned, not even one with the other entries. *)
Theorem one_rejected_entry_aborts_the_profile :
  forall (now : string) (parsed : pyval) (loan_id : string) (entries : list pyval),
    get parsed "requirements" (PList []) = Ok (PList entries) ->
    Exists (fun entry => accepted entry = false) entries ->
    exists e, _build_loan_profile now parsed loan_id = Raise e.
Proof.
  intros now parsed loan_id entries Hreqs Hex. unfold _build_loan_profile.
  rewrite Hreqs.
  repeat match goal with
         | |- context [bind ?x _] =>
             match x with
             | context [bind _ _] => fail 1
             | build_loop _ _ _ => fail 1
             | _ => destruct x; simpl bind; [|eexists; reflexivity]
             end
         end.
  apply build_loop_aborts. exact Hex.
Qed.

Lemma one_rejected_entry_aborts_the_profile_witness :
  exists e,
    _build_loan_profile "2024-01-01T00:00:00"
      (PDict [("requirements",
               PList [PDict (sample_entry "insurance" "high");
                      PDict [("category", PNone)]])])
      "LOAN-001"
    = Raise e.
Proof.
  apply (one_rejected_entry_aborts_the_profile _ _ _
           [PDict (sample_entry "insurance" "high"); PDict [("category", PNone)]]).
  - reflexivity.
  - apply Exists_cons_tl, Exists_cons_hd. reflexivity.
Defined.

(** the loop only appends requirements *)
Lemma build_loop_keeps_fields (items : list pyval) :
  forall (i : nat) (profile p : LoanProfile),
    build_loop items i profile = Ok p ->
    set_requirements p [] = set_requirements profile [].
Proof.
  induction items as [|entry items IH]; intros i profile p H; simpl in H.
  - injection H as <-. reflexivity.
  - destruct (_build_requirement entry (i + 1)) as [r|]; [|discriminate H].
    simpl in H. apply IH in H. exact H.
Qed.

Lemma por_truthy (a b : pyval) : truthy b = true -> truthy (por a b) = true.
Proof. intros H. unfold por. destruct (truthy a) eqn:E; assumption. Qed.

(** The loan-level fields of a built profile: the identifier is the caller's,
    the name is "Loan " and the identifier, the property, borrower and lender
    names are never null or empty (a missing, null or empty name is replaced
    by its "Unknown ..." text), a missing, null or zero amount is the integer
    0, and the profile has no balance, events or source documents. *)
Theorem built_profile_loan_fields :
  forall (now : string) (parsed : pyval) (loan_id : string) (p : LoanProfile),
    _build_loan_profile now parsed loan_id = Ok p ->
    exists info,
      get parsed "loan_info" (PDict []) = Ok (PDict info)
      /\ Models.loan_id p = loan_id
      /\ loan_name p = "Loan " ++ loan_id
      /\ property_name p
         = por (lookup_or info "property_name" PNone) (PStr "Unknown Property")
      /\ borrower_name p
         = por (lookup_or info "borrower_name" PNone) (PStr "Unknown Borrower")
      /\ lender_name p
         = por (lookup_or info "lender_name" PNone) (PStr "Unknown Lender")
      /\ original_loan_amount p = por (lookup_or info "loan_amount" PNone) (PInt 0)
      /\ truthy (property_name p) = true
      /\ truthy (borrower_name p) = true
      /\ truthy (lender_name p) = true
      /\ origination_date p = lookup_or info "origination_date" PNone
      /\ maturity_date p = lookup_or info "maturity_date" PNone
      /\ current_balance p = PNone /\ events p = [] /\ source_documents p = []
      /\ extraction_date p = now.
Proof.
  intros now parsed loan_id p H. unfold _build_loan_profile in H.
  destruct (get parsed "loan_info" (PDict [])) as [loan_info|] eqn:Einfo;
    [|discriminate H].
  simpl bind in H.
  destruct loan_info as [| | | | | |info]; try discriminate H.
  unfold get at 1 2 3 4 5 6 in H. simpl bind in H.
  destruct (get parsed "requirements" (PList [])) as [reqs|]; [|discriminate H].
  simpl bind in H.
  destruct (iter reqs) as [items|]; [|discriminate H].
  simpl bind in H.
  apply build_loop_keeps_fields in H.
  exists info. split; [reflexivity|].
  destruct p. unfold set_requirements, LoanProfile_new in H. simpl in H.
  injection H as -> -> -> -> -> -> -> -> -> -> -> ->.
  simpl. unfold lookup_or.
  repeat split; try reflexivity; apply por_truthy; reflexivity.
Qed.

Lemma built_profile_loan_fields_witness :
  exists p,
    _build_loan_profile "2024-01-01T00:00:00" (PDict sample_payload) "LOAN-001" = Ok p
    /\ loan_name p = "Loan LOAN-001"
    /\ lender_name p = PStr "Unknown Lender"
    /\ property_name p = PStr "123 Main Street".
Proof.
  eexists. split; [vm_compute; reflexivity|].
  destruct (built_profile_loan_fields "2024-01-01T00:00:00" (PDict sample_payload)
              "LOAN-001" _ eq_refl)
    as (info & Hinfo & _ & Hname & Hprop & _ & Hlender & _).
  injection Hinfo as <-.
  split; [exact Hname|]. split; [exact Hlender | exact Hprop].
Defined.

End BuilderFacts.

(** the two cases of the truncation, for reuse *)
Lemma truncate_document_keeps_both_ends_aux (text : string) :
  (150000 < len text ->
   exists first middle last,
     text = first ++ middle ++ last
     /\ len first = 75000 /\ len last = 75000
     /\ truncate_document text = first ++ truncation_marker ++ last)
  /\ (len text <= 150000 -> truncate_document text = text).
Proof.
  unfold truncate_document.
  change (max_chars / 2) with 75000. unfold max_chars. split.
  - intros Hlong.
    destruct (slices_are_both_ends 75000 text ltac:(lia) ltac:(lia))
      as (first & middle & last & Htext & Hf & Hl & Hs1 & Hs2).
    exists first, middle, last.
    destruct (len text >? 150000) eqn:E; [|lia].
    rewrite Hs1, Hs2. auto.
  - intros Hshort. destruct (len text >? 150000) eqn:E; [lia | reflexivity].
Qed.

(** ** More on the client and on truncation *)

Section ClientFacts.
Import Vocabulary Samples.

(** With the HTTP library present, a non-empty [api_key] argument is the key
    of the client whatever the environment holds; without one the key is the
    non-empty [ANTHROPIC_API_KEY] of the environment. Construction posts no
    request. Without the HTTP library construction raises [RuntimeError] even
    with a key. *)
Theorem init_key_precedence :
  forall (environ : string -> option string) (arg : option string) (k : string)
         (posted : network),
    k <> "" ->
    (arg = Some k
     \/ (nonempty arg = false /\ environ "ANTHROPIC_API_KEY" = Some k)) ->
    (exists self,
       __init__ true environ arg posted = (Ok self, posted) /\ api_key self = k)
    /\ __init__ false environ arg posted
       = (Raise (RuntimeError httpx_missing_message), posted).
Proof.
  intros environ arg k posted Hk Hsrc. split; [|reflexivity].
  apply String.eqb_neq in Hk.
  exists (mkRequirementExtractor k "https://api.anthropic.com/v1/messages"
            "claude-sonnet-4-20250514").
  split; [|reflexivity].
  unfold __init__, ret. cbn [negb].
  destruct Hsrc as [-> | [Harg Henv]].
  - cbn [nonempty]. rewrite Hk. cbn [negb]. rewrite Hk. reflexivity.
  - rewrite Harg, Henv, Hk. reflexivity.
Qed.

Lemma init_key_precedence_witness :
  exists self,
    __init__ true (fun _ => Some "sk-env") (Some "sk-arg") [] = (Ok self, [])
    /\ api_key self = "sk-arg".
Proof.
  apply (proj1 (init_key_precedence (fun _ => Some "sk-env") (Some "sk-arg")
                  "sk-arg" [] ltac:(discriminate) (or_introl eq_refl))).
Defined.

Lemma str_length_app (a b : string) :
  String.length (a ++ b) = (String.length a + String.length b)%nat.
Proof. induction a as [|c a IH]; simpl; [reflexivity | rewrite IH; reflexivity]. Qed.

Lemma str_app_inv_length (a b a' b' : string) :
  a ++ b = a' ++ b' -> String.length a = String.length a' -> a = a' /\ b = b'.
Proof.
  revert a'. induction a as [|c a IH]; intros [|c' a'] H Hlen;
    simpl in *; try discriminate Hlen.
  - split; [reflexivity | exact H].
  - injection H as -> H. injection Hlen as Hlen.
    destruct (IH a' H Hlen) as [-> ->]. split; reflexivity.
Qed.

(** The text put into the prompt has the length of the document when that is
    at most 150,000 characters and exactly 150,030 characters otherwise (a
    document of 150,001 to 150,029 characters comes out longer than it went
    in); truncating a truncated text changes nothing. *)
Theorem truncated_length_and_idempotence :
  forall text : string,
    len (truncate_document text)
    = (if 150000 <? len text then 150030 else len text)
    /\ truncate_document (truncate_document text) = truncate_document text.
Proof.
  intros text.
  destruct (150000 <? len text) eqn:E.
  - apply Z.ltb_lt in E.
    destruct (proj1 (truncate_document_keeps_both_ends_aux text) E)
      as (first & middle & last & _ & Hf & Hl & Ht).
    assert (len (truncate_document text) = 150030) as Hlen.
    { rewrite Ht. unfold len in *. rewrite !str_length_app.
      change (String.length truncation_marker) with 30%nat. lia. }
    split; [exact Hlen|].
    destruct (proj1 (truncate_document_keeps_both_ends_aux (truncate_document text))
                ltac:(lia))
      as (first' & middle' & last' & Hsplit & Hf' & Hl' & Ht').
    rewrite Ht'. rewrite Ht in Hsplit |- *.
    destruct (str_app_inv_length first (truncation_marker ++ last)
                first' (middle' ++ last') Hsplit ltac:(unfold len in *; lia))
      as [<- Hrest].
    pose proof (f_equal String.length Hrest) as Hsame.
    rewrite !str_length_app in Hsame.
    destruct (str_app_inv_length truncation_marker last middle' last' Hrest
                ltac:(unfold len in *; lia))
      as [_ <-].
    reflexivity.
  - apply Z.ltb_ge in E.
    rewrite (proj2 (truncate_document_keeps_both_ends_aux text) E).
    split; [reflexivity|].
    apply (proj2 (truncate_document_keeps_both_ends_aux text) E).
Qed.

End ClientFacts.

(** ** More on the loan score *)

Section ScoreFacts.

Lemma score_exact_below_25_witness :
  Database.calculate_compliance_score
    (Database.loan_with ["compliant"; "at_risk"; "pending"])
  = Ok 50.
Proof.
  apply (score_exact_below_25 (Database.loan_with ["compliant"; "at_risk"; "pending"])).
  simpl. lia.
Defined.

End ScoreFacts.

(** ** More on locating the payload *)

Section LocateFacts.
Import Vocabulary Samples Re.

(** no match starts inside the text [search_from] skipped *)
Lemma search_from_leftmost (p : list atom) :
  forall (s skipped : string) (caps : list string),
    search_from p s = Some (skipped, caps) ->
    forall a c b rest,
      s = skipped ++ rest -> skipped = a ++ String c b ->
      match_here p (String c b ++ rest) = None.
Proof.
  induction s as [|c0 s IH]; intros skipped caps H a c b rest Hs Hsk; simpl in H.
  - destruct (match_here p EmptyString); [|discriminate H].
    injection H as <- _. destruct a; discriminate Hsk.
  - destruct (match_here p (String c0 s)) as [caps'|] eqn:E.
    + injection H as <- _. destruct a; discriminate Hsk.
    + destruct (search_from p s) as [[skipped' caps']|] eqn:E'; [|discriminate H].
      injection H as <- <-. simpl in Hs. injection Hs as Hs.
      destruct a as [|c1 a]; simpl in Hsk; injection Hsk as -> Hsk.
      * simpl. rewrite <- Hsk. rewrite <- Hs. exact E.
      * apply (IH skipped' caps' eq_refl a c b rest Hs Hsk).
Qed.

Lemma all_in_app (k : cclass) (a b : string) :
  all_in k (a ++ b) = (all_in k a && all_in k b)%bool.
Proof.
  induction a as [|c a IH]; simpl; [reflexivity|].
  rewrite IH. rewrite andb_assoc. reflexivity.
Qed.

Lemma all_in_Any (w : string) : all_in Any w = true.
Proof. induction w as [|c w IH]; simpl; [reflexivity | exact IH]. Qed.

(** a star can consume any run of characters of its class *)
Lemma star_complete_in (greedy : bool) (k : cclass) (cont : string -> option (list string)) :
  forall (w rest : string),
    all_in k w = true -> cont rest <> None ->
    (if greedy then star_greedy else star_lazy) k cont (w ++ rest) <> None.
Proof.
  induction w as [|c w IH]; intros rest Hw Hrest.
  - apply (star_complete greedy k cont EmptyString rest (or_intror eq_refl) Hrest).
  - simpl in Hw. apply andb_prop in Hw. destruct Hw as [Hc Hw].
    specialize (IH rest Hw Hrest). simpl.
    destruct greedy; simpl.
    + rewrite Hc.
      destruct (star_greedy k cont (w ++ rest)) as [[? ?]|]; [discriminate | congruence].
    + destruct (cont (String c (w ++ rest))); [discriminate|].
      rewrite Hc.
      destruct (star_lazy k cont (w ++ rest)) as [[? ?]|]; [discriminate | congruence].
Qed.

(** what a greedy star consumed is in its class, and it could not have
    consumed more *)
Lemma star_greedy_maximal (k : cclass) (cont : string -> option (list string)) :
  forall (s w : string) (caps : list string),
    star_greedy k cont s = Some (w, caps) ->
    all_in k w = true
    /\ forall c u rest,
         s = w ++ String c u ++ rest -> all_in k (String c u) = true ->
         cont rest = None.
Proof.
  assert (forall s w caps,
            option_map (pair EmptyString) (cont s) = Some (w, caps) -> w = EmptyString)
    as Hstop.
  { intros s w caps H. destruct (cont s); [|discriminate H].
    simpl in H. injection H as <- _. reflexivity. }
  induction s as [|c0 s IH]; intros w caps H; simpl in H.
  - apply Hstop in H. subst w. split; [reflexivity|].
    intros c u rest Hs _. discriminate Hs.
  - destruct (in_class k c0) eqn:Hc0.
    + destruct (star_greedy k cont s) as [[w' caps']|] eqn:E.
      * injection H as <- <-. destruct (IH w' caps' eq_refl) as [Hw' Hmax].
        split; [simpl; rewrite Hc0; exact Hw'|].
        intros c u rest Hs Hu. simpl in Hs. injection Hs as Hs.
        apply (Hmax c u rest Hs Hu).
      * apply Hstop in H. subst w. split; [reflexivity|].
        intros c u rest Hs Hu. simpl in Hs. injection Hs as <- Hs.
        simpl in Hu. apply andb_prop in Hu. destruct Hu as [_ Hu].
        destruct (cont rest) eqn:Ec; [|reflexivity].
        exfalso.
        apply (star_complete_in true k cont u rest Hu); [congruence|].
        rewrite <- Hs. exact E.
    + apply Hstop in H. subst w. split; [reflexivity|].
      intros c u rest Hs Hu. simpl in Hs. injection Hs as <- _.
      simpl in Hu. rewrite Hc0 in Hu. discriminate Hu.
Qed.

Lemma match_here_chr_inv (c : ascii) (p : list atom) (s : string) (caps : list string) :
  match_here (Chr c :: p) s = Some caps ->
  exists s' caps',
    s = String c s' /\ match_here p s' = Some caps'
    /\ caps = String c EmptyString :: caps'.
Proof.
  simpl. destruct s as [|c' s']; [discriminate|].
  destruct (Ascii.eqb c c') eqn:E; [|discriminate].
  apply Ascii.eqb_eq in E. subst c'.
  destruct (match_here p s') as [caps'|] eqn:E'; [|discriminate].
  simpl. intros H. injection H as <-. exists s', caps'.
  split; [reflexivity|]. split; [exact E' | reflexivity].
Qed.

Lemma match_here_star_inv (greedy : bool) (k : cclass) (p : list atom) (s : string)
  (caps : list string) :
  match_here (Star greedy k :: p) s = Some caps ->
  exists w caps',
    (if greedy then star_greedy else star_lazy) k (match_here p) s = Some (w, caps')
    /\ caps = w :: caps'.
Proof.
  cbn [match_here].
  destruct ((if greedy then star_greedy else star_lazy) k (match_here p) s)
    as [[w caps']|]; [|discriminate].
  intros H. injection H as <-. exists w, caps'. split; reflexivity.
Qed.

(** When the response has no JSON fence, the candidate payload runs from the
    first opening brace of the text to its last closing brace: no opening
    brace comes before it and no closing brace after it. *)
Theorem brace_payload_is_first_to_last :
  forall text candidate : string,
    search json_fence_re text = None ->
    locate_payload text = Ok candidate ->
    exists skipped inner rest,
      text = skipped ++ candidate ++ rest
      /\ candidate = "{" ++ inner ++ "}"
      /\ no_char "{" skipped /\ no_char "}" rest.
Proof.
  intros text candidate Hfence H. unfold locate_payload in H. rewrite Hfence in H.
  unfold search in H.
  destruct (search_from (atoms json_brace_re) text) as [[skipped caps]|] eqn:E;
    [|discriminate H].
  injection H as <-. unfold group_0.
  change (atoms json_brace_re) with [Chr "{"; Star true Any; Chr "}"] in E.
  pose proof (search_from_leftmost _ _ _ _ E) as Hleft.
  apply search_from_sound in E. destruct E as (rest0 & -> & Hm).
  apply match_here_chr_inv in Hm. destruct Hm as (s1 & caps1 & -> & Hm & ->).
  apply match_here_star_inv in Hm. destruct Hm as (w & caps2 & Hstar & ->).
  pose proof (star_greedy_maximal _ _ _ _ _ Hstar) as [_ Hmax].
  apply star_greedy_sound in Hstar. destruct Hstar as (s2 & -> & Hm).
  apply match_here_chr_inv in Hm. destruct Hm as (rest & caps3 & -> & Hm & ->).
  simpl in Hm. injection Hm as <-.
  exists skipped, w, rest.
  split; [simpl; rewrite str_app_assoc; reflexivity|].
  split; [reflexivity|]. split.
  - intros a b Hsk.
    specialize (Hleft a "{"%char b _ eq_refl Hsk).
    revert Hleft.
    change (String "{" b ++ String "{" (w ++ String "}" rest))
      with (String "{" (b ++ String "{" (w ++ String "}" rest))).
    replace (b ++ String "{" (w ++ String "}" rest))
      with ((b ++ String "{" w) ++ String "}" rest)
      by (rewrite str_app_assoc; reflexivity).
    apply match_here_chr_some.
    apply match_here_star_some; [left; reflexivity|].
    apply match_here_chr_some. discriminate.
  - intros a b Hr.
    assert (match_here [Chr "}"] (String "}" b) = None) as Hnone.
    { apply (Hmax "}"%char a (String "}" b)).
      - rewrite Hr. reflexivity.
      - apply all_in_Any. }
    discriminate Hnone.
Qed.

Lemma brace_payload_is_first_to_last_witness :
  exists skipped inner rest,
    "note } then {a} and {b} end" = skipped ++ "{a} and {b}" ++ rest
    /\ "{a} and {b}" = "{" ++ inner ++ "}"
    /\ no_char "{" skipped /\ no_char "}" rest.
Proof.
  apply (brace_payload_is_first_to_last "note } then {a} and {b} end" "{a} and {b}");
    reflexivity.
Defined.

(** a lazy star consumed no more than it had to *)
Lemma star_lazy_minimal (k : cclass) (cont : string -> option (list string)) :
  forall (s w : string) (caps : list string),
    star_lazy k cont s = Some (w, caps) ->
    forall a c b rest,
      s = w ++ rest -> w = a ++ String c b -> cont (String c b ++ rest) = None.
Proof.
  induction s as [|c0 s IH]; intros w caps H a c b rest Hs Hw; simpl in H.
  - destruct (cont EmptyString); [|discriminate H].
    injection H as <- _. destruct a; discriminate Hw.
  - destruct (cont (String c0 s)) as [caps'|] eqn:E.
    + injection H as <- _. destruct a; discriminate Hw.
    + destruct (in_class k c0); [|discriminate H].
      destruct (star_lazy k cont s) as [[w' caps']|] eqn:E'; [|discriminate H].
      injection H as <- <-. simpl in Hs. injection Hs as Hs.
      destruct a as [|c1 a]; simpl in Hw; injection Hw as -> Hw.
      * simpl. rewrite <- Hw, <- Hs. exact E.
      * apply (IH w' caps' eq_refl a c b rest Hs Hw).
Qed.

Lemma match_here_star_some_in (greedy : bool) (k : cclass) (p : list atom)
  (w rest : string) :
  all_in k w = true -> match_here p rest <> None ->
  match_here (Star greedy k :: p) (w ++ rest) <> None.
Proof.
  intros Hw Hrest.
  pose proof (star_complete_in greedy k (match_here p) w rest Hw Hrest) as H.
  cbn [match_here].
  destruct ((if greedy then star_greedy else star_lazy) k (match_here p) (w ++ rest))
    as [[? ?]|]; [discriminate | congruence].
Qed.

Lemma str_app_nil_r (s : string) : s ++ EmptyString = s.
Proof. induction s as [|c s IH]; simpl; [reflexivity | rewrite IH; reflexivity]. Qed.

(** When the response has a JSON fence, the candidate payload is what lies
    between the opening tag and the first closing fence after it, without the
    white space around it: it neither begins nor ends with white space and
    holds no closing fence, whatever braces the rest of the text contains. *)
Theorem fence_payload_is_stripped :
  forall (text : string) (m : Match),
    search json_fence_re text = Some m ->
    locate_payload text = Ok (group_1 m)
    /\ stripped (group_1 m)
    /\ no_occurrence "```" (group_1 m)
    /\ exists before ws1 ws2 after,
         text = before ++ "```json" ++ ws1 ++ group_1 m ++ ws2 ++ "```" ++ after
         /\ all_in Space ws1 = true /\ all_in Space ws2 = true.
Proof.
  intros text m H.
  split; [unfold locate_payload; rewrite H; reflexivity|].
  unfold search in H.
  destruct (search_from (atoms json_fence_re) text) as [[skipped caps]|] eqn:E;
    [|discriminate H].
  injection H as <-. cbn [group_1].
  change (atoms json_fence_re)
    with [Chr "`"; Chr "`"; Chr "`"; Chr "j"; Chr "s"; Chr "o"; Chr "n";
          Star true Space; Star false Any; Star true Space;
          Chr "`"; Chr "`"; Chr "`"] in E.
  change (List.length (group1 json_fence_re)) with 1%nat.
  change (List.length (before json_fence_re)) with 8%nat.
  apply search_from_sound in E. destruct E as (rest0 & -> & Hm).
  do 7 (apply match_here_chr_inv in Hm;
        destruct Hm as (? & ? & -> & Hm & ->)).
  apply match_here_star_inv in Hm. destruct Hm as (w1 & caps1 & Hstar1 & ->).
  pose proof (star_greedy_maximal _ _ _ _ _ Hstar1) as [Hw1 Hmax1].
  apply star_greedy_sound in Hstar1. destruct Hstar1 as (s2 & -> & Hm).
  apply match_here_star_inv in Hm. destruct Hm as (g & caps2 & Hstar2 & ->).
  pose proof (star_lazy_minimal _ _ _ _ _ Hstar2) as Hmin.
  apply star_lazy_sound in Hstar2. destruct Hstar2 as (s3 & -> & Hm).
  pose proof Hm as Hcont2.
  apply match_here_star_inv in Hm. destruct Hm as (w2 & caps3 & Hstar3 & ->).
  pose proof (star_greedy_maximal _ _ _ _ _ Hstar3) as [Hw2 _].
  apply star_greedy_sound in Hstar3. destruct Hstar3 as (s4 & -> & Hm).
  apply match_here_chr_inv in Hm. destruct Hm as (t1 & k1 & -> & Hm & ->).
  apply match_here_chr_inv in Hm. destruct Hm as (t2 & k2 & -> & Hm & ->).
  apply match_here_chr_inv in Hm. destruct Hm as (after & k3 & -> & Hm & ->).
  simpl in Hm. injection Hm as <-.
  cbn [skipn firstn concat_str fold_right]. rewrite str_app_nil_r.
  assert (match_here [Chr "`"; Chr "`"; Chr "`"]
            (String "`" (String "`" (String "`" after))) <> None) as Hclose
      by (do 3 apply match_here_chr_some; discriminate).
  split; [split|split].
  - (* no white space first *)
    intros c g' -> . destruct (is_space c) eqn:Hc; [|reflexivity]. exfalso.
    assert (match_here [Star false Any; Star true Space; Chr "`"; Chr "`"; Chr "`"]
              (g' ++ w2 ++ String "`" (String "`" (String "`" after))) = None) as Hnone.
    { apply (Hmax1 c EmptyString).
      - reflexivity.
      - simpl. rewrite Hc. reflexivity. }
    revert Hnone. apply match_here_star_some_in; [apply all_in_Any|].
    rewrite Hcont2. discriminate.
  - (* no white space last *)
    intros g' c -> . destruct (is_space c) eqn:Hc; [|reflexivity]. exfalso.
    assert (match_here [Star true Space; Chr "`"; Chr "`"; Chr "`"]
              (String c EmptyString ++ w2 ++ String "`" (String "`" (String "`" after)))
            = None) as Hnone
        by (apply (Hmin g' c EmptyString _ eq_refl eq_refl)).
    revert Hnone.
    change (String c EmptyString ++ w2 ++ String "`" (String "`" (String "`" after)))
      with (String c w2 ++ String "`" (String "`" (String "`" after))).
    apply match_here_star_some_in; [simpl; rewrite Hc; exact Hw2 | exact Hclose].
  - (* no closing fence inside *)
    intros a b ->.
    assert (match_here [Star true Space; Chr "`"; Chr "`"; Chr "`"]
              (String "`" ("``" ++ b)
               ++ w2 ++ String "`" (String "`" (String "`" after)))
            = None) as Hnone
        by (apply (Hmin a "`"%char ("``" ++ b) _ eq_refl eq_refl)).
    revert Hnone.
    change (String "`" ("``" ++ b) ++ w2 ++ String "`" (String "`" (String "`" after)))
      with (EmptyString
            ++ String "`" (String "`" (String "`"
                 (b ++ w2 ++ String "`" (String "`" (String "`" after)))))).
    apply match_here_star_some_in; [reflexivity|].
    do 3 apply match_here_chr_some. discriminate.
  - exists skipped, w1, w2, after. split; [reflexivity|]. split; assumption.
Qed.

Lemma fence_payload_is_stripped_witness :
  exists m,
    search json_fence_re ("See {x}: ```json" ++ nl ++ " {a} " ++ nl ++ "``` and ```")
    = Some m
    /\ group_1 m = "{a}" /\ stripped (group_1 m) /\ no_occurrence "```" (group_1 m).
Proof.
  eexists. split; [vm_compute; reflexivity|].
  destruct (fence_payload_is_stripped
              ("See {x}: ```json" ++ nl ++ " {a} " ++ nl ++ "``` and ```") _ eq_refl)
    as (_ & Hs & Hn & _).
  split; [reflexivity|]. split; [exact Hs | exact Hn].
Defined.

End LocateFacts.

(** ** The in-memory API *)

Section ApiFacts.
Import Vocabulary Samples Api.

Lemma store_get_set_same (profiles : store) (k : string) (p : LoanProfile) :
  store_get (store_set profiles k p) k = Some p.
Proof.
  induction profiles as [|[k' p'] rest IH]; simpl.
  - rewrite String.eqb_refl. reflexivity.
  - destruct (k' =? k)%string eqn:E; simpl; rewrite E; [reflexivity | exact IH].
Qed.

Lemma store_get_set_other (profiles : store) (k k' : string) (p : LoanProfile) :
  k <> k' -> store_get (store_set profiles k p) k' = store_get profiles k'.
Proof.
  intros Hne. induction profiles as [|[k0 p0] rest IH]; simpl.
  - apply String.eqb_neq in Hne. rewrite Hne. reflexivity.
  - destruct (k0 =? k)%string eqn:E; simpl.
    + apply String.eqb_eq in E. subst k0.
      apply String.eqb_neq in Hne. rewrite Hne. reflexivity.
    + rewrite IH. reflexivity.
Qed.

Lemma update_loop_updated (now rid st : string) (notes : option string) :
  forall (rs rs' : list LoanRequirement) (req' : LoanRequirement),
    update_loop now rid st notes rs = Updated req' rs' ->
    exists pre req post new_status,
      rs = (pre ++ req :: post)%list
      /\ Forall (fun r => id r <> rid) pre
      /\ id req = rid
      /\ of_value st = Some new_status
      /\ req' = apply_update now new_status notes req
      /\ rs' = (pre ++ req' :: post)%list.
Proof.
  induction rs as [|r rs IH]; intros rs' req' H; simpl in H; [discriminate H|].
  destruct (id r =? rid)%string eqn:E.
  - apply String.eqb_eq in E.
    destruct (of_value st) as [new_status|] eqn:Est; [|discriminate H].
    injection H as <- <-.
    exists [], r, rs, new_status. repeat split; try assumption. constructor.
  - apply String.eqb_neq in E.
    destruct (update_loop now rid st notes rs) as [req0 rest0| |] eqn:El;
      try discriminate H.
    injection H as <- <-.
    destruct (IH rest0 req0 eq_refl)
      as (pre & req & post & new_status & -> & Hpre & Hid & Hst & -> & ->).
    exists (r :: pre), req, post, new_status.
    repeat split; try assumption. constructor; assumption.
Qed.

Lemma find_after_prefix (rid : string) (pre post : list LoanRequirement)
  (req : LoanRequirement) :
  Forall (fun r => id r <> rid) pre -> id req = rid ->
  find (fun r => (id r =? rid)%string) (pre ++ req :: post) = Some req.
Proof.
  intros Hpre Hid. induction Hpre as [|r pre Hr _ IH]; simpl.
  - apply String.eqb_eq in Hid. rewrite Hid. reflexivity.
  - apply String.eqb_neq in Hr. rewrite Hr. exact IH.
Qed.

(** A successful status update changes the first requirement with the given
    id and nothing else: it gets the new status, the time of the update as
    [last_checked], and the notes of the update when it brings some; every
    other requirement, the order, every other field of the profile and every
    other loan stay as they were; and reading the requirement back returns
    the body the update returned. *)
Theorem status_update_changes_one_requirement :
  forall (now : string) (profiles profiles' : store) (loan_id rid st : string)
         (notes : option string) (body : pyval),
    update_requirement_status now profiles loan_id rid st notes
    = (Return body, profiles') ->
    exists profile pre req post new_status,
      store_get profiles loan_id = Some profile
      /\ requirements profile = (pre ++ req :: post)%list
      /\ Forall (fun r => id r <> rid) pre /\ id req = rid
      /\ of_value st = Some new_status
      /\ let req' := apply_update now new_status notes req in
         Models.status req' = new_status
         /\ last_checked req' = PStr now
         /\ (nonempty notes = false -> Models.notes req' = Models.notes req)
         /\ (nonempty notes = true -> Some (Models.notes req') = option_map PStr notes)
         /\ (id req', title req', category req', description req',
             plain_language_summary req', original_text req',
             document_reference req', deadline req', threshold req',
             severity req', cure_period_days req')
            = (id req, title req, category req, description req,
               plain_language_summary req, original_text req,
               document_reference req, deadline req, threshold req,
               severity req, cure_period_days req)
         /\ body = PDict [("message", PStr "Status updated");
                          ("requirement", LoanRequirement_to_dict req')]
         /\ store_get profiles' loan_id
            = Some (set_requirements profile (pre ++ req' :: post))
         /\ (forall other, other <> loan_id ->
               store_get profiles' other = store_get profiles other)
         /\ get_requirement_detail profiles' loan_id rid
            = Return (LoanRequirement_to_dict req').
Proof.
  intros now profiles profiles' loan_id rid st notes body H.
  unfold update_requirement_status in H.
  destruct (store_get profiles loan_id) as [profile|] eqn:Eget; [|discriminate H].
  destruct (update_loop now rid st notes (requirements profile))
    as [req' rs'| |] eqn:El; try discriminate H.
  injection H as <- <-.
  apply update_loop_updated in El.
  destruct El as (pre & req & post & new_status & Hrs & Hpre & Hid & Hst & -> & ->).
  exists profile, pre, req, post, new_status.
  split; [reflexivity|].
  repeat (split; [assumption|]). cbv zeta.
  split; [reflexivity|]. split; [reflexivity|]. split.
  { intros Hn. unfold apply_update. simpl.
    destruct notes as [n|]; [|reflexivity].
    simpl in Hn. destruct (n =? "")%string; [reflexivity | discriminate Hn]. }
  split.
  { intros Hn. unfold apply_update. simpl.
    destruct notes as [n|]; [|discriminate Hn].
    simpl in Hn. destruct (n =? "")%string; [discriminate Hn | reflexivity]. }
  split; [reflexivity|]. split; [reflexivity|]. split.
  { apply store_get_set_same. }
  split.
  { intros other Hne. apply store_get_set_other. congruence. }
  unfold get_requirement_detail. rewrite store_get_set_same. simpl.
  rewrite find_after_prefix; [reflexivity | exact Hpre | exact Hid].
Qed.

Lemma status_update_changes_one_requirement_witness :
  let now := "2024-06-01T09:30:00" in
  let profiles := snd (create_demo_loan "2024-01-01T00:00:00" []) in
  let notes := Some "DSCR trending down" in
  exists req new_status,
    of_value "at_risk" = Some new_status
    /\ get_requirement_detail
         (snd (update_requirement_status now profiles "DEMO-001" "REQ-003"
                 "at_risk" notes))
         "DEMO-001" "REQ-003"
       = Return (LoanRequirement_to_dict (apply_update now new_status notes req)).
Proof.
  intros now profiles notes.
  destruct (status_update_changes_one_requirement now profiles
              (snd (update_requirement_status now profiles "DEMO-001" "REQ-003"
                      "at_risk" notes))
              "DEMO-001" "REQ-003" "at_risk" notes
              (match fst (update_requirement_status now profiles "DEMO-001"
                            "REQ-003" "at_risk" notes) with
               | Return body => body
               | _ => PNone
               end))
    as (profile & pre & req & post & new_status & _ & _ & _ & _ & Hst & H).
  - vm_compute. reflexivity.
  - exists req, new_status. split; [exact Hst|].
    cbv zeta in H. apply H.
Defined.

Lemma update_loop_invalid (now rid st : string) (notes : option string) :
  forall rs : list LoanRequirement,
    update_loop now rid st notes rs = InvalidStatus ->
    Exists (fun r => id r = rid) rs /\ of_value (E := ComplianceStatus) st = None.
Proof.
  induction rs as [|r rs IH]; intros H; simpl in H; [discriminate H|].
  destruct (id r =? rid)%string eqn:E.
  - apply String.eqb_eq in E.
    destruct (of_value st) as [new_status|] eqn:Est; [discriminate H|].
    split; [apply Exists_cons_hd; exact E | reflexivity].
  - destruct (update_loop now rid st notes rs) as [req0 rest0| |] eqn:El;
      try discriminate H.
    destruct (IH eq_refl) as [Hex Hst].
    split; [apply Exists_cons_tl; exact Hex | exact Hst].
Qed.

Lemma update_loop_no_such (now rid st : string) (notes : option string) :
  forall rs : list LoanRequirement,
    update_loop now rid st notes rs = NoSuchRequirement ->
    Forall (fun r => id r <> rid) rs.
Proof.
  induction rs as [|r rs IH]; intros H; simpl in H; [constructor|].
  destruct (id r =? rid)%string eqn:E.
  - destruct (of_value st); discriminate H.
  - apply String.eqb_neq in E.
    destruct (update_loop now rid st notes rs) as [req0 rest0| |] eqn:El;
      try discriminate H.
    constructor; [exact E | apply IH; reflexivity].
Qed.

(** A status update that does not return a body is an [HTTPException] that
    leaves every stored profile as it was: 404 for an unknown loan, 404 for a
    requirement id the loan does not have (whatever the status sent, which is
    not looked at), and 400 when the requirement exists and the status is not
    exactly the value of a [ComplianceStatus] member. No other exception
    escapes the handler. *)
Theorem rejected_update_changes_nothing :
  forall (now : string) (profiles profiles' : store) (loan_id rid st : string)
         (notes : option string) (out : outcome pyval),
    update_requirement_status now profiles loan_id rid st notes = (out, profiles') ->
    (forall body, out <> Return body) ->
    profiles' = profiles
    /\ (out = HTTPException 404 (loan_not_found loan_id)
        /\ store_get profiles loan_id = None
        \/ exists profile,
             store_get profiles loan_id = Some profile
             /\ (out = HTTPException 404 (requirement_not_found rid)
                 /\ Forall (fun r => id r <> rid) (requirements profile)
                 \/ out = HTTPException 400 invalid_status_detail
                    /\ Exists (fun r => id r = rid) (requirements profile)
                    /\ of_value (E := ComplianceStatus) st = None)).
Proof.
  intros now profiles profiles' loan_id rid st notes out H Hout.
  unfold update_requirement_status in H.
  destruct (store_get profiles loan_id) as [profile|] eqn:Eget.
  - destruct (update_loop now rid st notes (requirements profile))
      as [req' rs'| |] eqn:El; injection H as <- <-.
    + exfalso. eapply Hout. reflexivity.
    + split; [reflexivity|]. right. exists profile. split; [reflexivity|].
      right. split; [reflexivity|]. eapply update_loop_invalid. exact El.
    + split; [reflexivity|]. right. exists profile. split; [reflexivity|].
      left. split; [reflexivity|]. eapply update_loop_no_such. exact El.
  - injection H as <- <-. split; [reflexivity|]. left. split; reflexivity.
Qed.

Lemma rejected_update_changes_nothing_witness :
  let profiles := snd (create_demo_loan "2024-01-01T00:00:00" []) in
  update_requirement_status "2024-06-01T09:30:00" profiles "DEMO-001" "REQ-003"
    "Compliant" None
  = (HTTPException 400
       "Invalid status. Must be one of: ['compliant', 'non_compliant', 'at_risk', 'pending', 'unknown', 'not_yet_due']",
     profiles)
  /\ snd (update_requirement_status "2024-06-01T09:30:00" profiles "DEMO-001"
            "REQ-003" "Compliant" None) = profiles.
Proof.
  intros profiles. split; [vm_compute; reflexivity|].
  apply (rejected_update_changes_nothing "2024-06-01T09:30:00" profiles _
           "DEMO-001" "REQ-003" "Compliant" None
           (HTTPException 400 invalid_status_detail)).
  - vm_compute. reflexivity.
  - intros body Hb. discriminate Hb.
Defined.

(** *** Deadlines *)

Lemma frequency_eqb_eq (a b : Frequency) : frequency_eqb a b = true <-> a = b.
Proof. split; [destruct a, b; (reflexivity || discriminate) | intros ->; destruct b; reflexivity]. Qed.

Lemma rank_eqb (a b : Frequency) : (rank a =? rank b) = frequency_eqb a b.
Proof. destruct a, b; reflexivity. Qed.

Lemma deadline_rows_dated (freq : option string) (rs : list LoanRequirement) :
  deadline_rows freq rs
  = map (fun rd => deadline_row (fst rd) (snd rd))
      (filter (fun rd => wanted freq (frequency (snd rd))) (dated rs)).
Proof.
  induction rs as [|r rs IH]; simpl; [reflexivity|].
  destruct (deadline r) as [d|]; [|exact IH].
  simpl. rewrite IH.
  remember (filter (fun rd => wanted freq (frequency (snd rd))) (dated rs)) as tl.
  unfold wanted. destruct freq as [f|]; simpl; [|reflexivity].
  destruct (f =? "")%string; simpl; [reflexivity|].
  match goal with |- context [(?v =? f)%string] => destruct (v =? f)%string end;
    reflexivity.
Qed.

Lemma sort_key_row (r : LoanRequirement) (d : Deadline) :
  sort_key (deadline_row r d) = Ok (rank (frequency d)).
Proof.
  unfold sort_key, deadline_row, Deadline_to_dict.
  destruct (frequency d); reflexivity.
Qed.

Lemma keyed_map {A B : Type} (key : B -> result Z) (f : A -> B) (k : A -> Z) :
  (forall x, key (f x) = Ok (k x)) ->
  forall l, keyed key (map f l) = Ok (map (fun x => (k x, f x)) l).
Proof.
  intros Hk. induction l as [|x l IH]; simpl; [reflexivity|].
  rewrite Hk. simpl. rewrite IH. reflexivity.
Qed.

Lemma insert_map {A B : Type} (f : A -> B) (p : Z * A) (l : list (Z * A)) :
  insert (fst p, f (snd p)) (map (fun q => (fst q, f (snd q))) l)
  = map (fun q => (fst q, f (snd q))) (insert p l).
Proof.
  induction l as [|y l IH]; simpl; [reflexivity|].
  destruct (fst p <=? fst y); simpl; [reflexivity|].
  rewrite IH. reflexivity.
Qed.

Lemma sort_by_key_map {A B : Type} (f : A -> B) (k : A -> Z) (l : list A) :
  sort_by_key (map (fun x => (k x, f x)) l)
  = map (fun q => (fst q, f (snd q))) (sort_by_key (map (fun x => (k x, x)) l)).
Proof.
  unfold sort_by_key. induction l as [|x l IH]; simpl; [reflexivity|].
  rewrite IH. apply (insert_map f (k x, x)).
Qed.

Lemma insert_Forall {A : Type} (P : Z * A -> Prop) (x : Z * A) (l : list (Z * A)) :
  P x -> Forall P l -> Forall P (insert x l).
Proof.
  intros Hx Hl. induction Hl as [|y l Hy Hl IH]; simpl.
  - constructor; [exact Hx | constructor].
  - destruct (fst x <=? fst y).
    + constructor; [exact Hx|]. constructor; assumption.
    + constructor; assumption.
Qed.

Lemma sort_by_key_Forall {A : Type} (P : Z * A -> Prop) (l : list (Z * A)) :
  Forall P l -> Forall P (sort_by_key l).
Proof.
  unfold sort_by_key. induction 1 as [|x l Hx Hl IH]; simpl; [constructor|].
  apply insert_Forall; assumption.
Qed.

Lemma insert_sorted {A : Type} (x : Z * A) (l : list (Z * A)) :
  StronglySorted (fun a b => fst a <= fst b) l ->
  StronglySorted (fun a b => fst a <= fst b) (insert x l).
Proof.
  induction 1 as [|y l Hs IH Hy]; simpl.
  - constructor; constructor.
  - destruct (fst x <=? fst y) eqn:E.
    + apply Z.leb_le in E. constructor.
      * constructor; assumption.
      * constructor; [exact E|].
        eapply Forall_impl; [|exact Hy]. intros b Hb. simpl in Hb. lia.
    + apply Z.leb_gt in E. constructor; [exact IH|].
      apply insert_Forall; [lia | exact Hy].
Qed.

Lemma sort_by_key_sorted {A : Type} (l : list (Z * A)) :
  StronglySorted (fun a b => fst a <= fst b) (sort_by_key l).
Proof.
  unfold sort_by_key. induction l as [|x l IH]; simpl; [constructor|].
  apply insert_sorted. exact IH.
Qed.

(** stability: the elements of one key keep their order *)
Lemma filter_insert {A : Type} (c : Z) (x : Z * A) (l : list (Z * A)) :
  filter (fun p => fst p =? c) (insert x l)
  = if fst x =? c then x :: filter (fun p => fst p =? c) l
    else filter (fun p => fst p =? c) l.
Proof.
  induction l as [|y l IH]; simpl; [reflexivity|].
  destruct (fst x <=? fst y) eqn:E; simpl; [reflexivity|].
  rewrite IH. apply Z.leb_gt in E.
  destruct (fst x =? c) eqn:Ex; [|reflexivity].
  apply Z.eqb_eq in Ex.
  destruct (fst y =? c) eqn:Ey; [|reflexivity].
  apply Z.eqb_eq in Ey. lia.
Qed.

Lemma filter_sort_by_key {A : Type} (c : Z) (l : list (Z * A)) :
  filter (fun p => fst p =? c) (sort_by_key l) = filter (fun p => fst p =? c) l.
Proof.
  unfold sort_by_key. induction l as [|x l IH]; simpl; [reflexivity|].
  rewrite filter_insert, IH. reflexivity.
Qed.

Lemma sorted_payload {A : Type} (k : A -> Z) (l : list (Z * A)) :
  Forall (fun p => fst p = k (snd p)) l ->
  StronglySorted (fun a b => fst a <= fst b) l ->
  StronglySorted (fun a b => k a <= k b) (map snd l).
Proof.
  intros Hk Hs. induction Hs as [|y l Hs IH Hy]; simpl; [constructor|].
  inversion Hk as [|? ? Hky Hkl]; subst.
  constructor; [apply IH; exact Hkl|].
  apply Forall_map. rewrite Forall_forall in *.
  intros b Hb. rewrite <- Hky, <- (Hkl b Hb). apply Hy. exact Hb.
Qed.

Lemma filter_payload {A : Type} (k : A -> Z) (c : Z) (l : list (Z * A)) :
  Forall (fun p => fst p = k (snd p)) l ->
  filter (fun a => k a =? c) (map snd l) = map snd (filter (fun p => fst p =? c) l).
Proof.
  induction 1 as [|y l Hy Hl IH]; simpl; [reflexivity|].
  rewrite <- Hy. destruct (fst y =? c); simpl; rewrite IH; reflexivity.
Qed.

Lemma keyed_payload {A : Type} (k : A -> Z) (l : list A) :
  Forall (fun p => fst p = k (snd p)) (map (fun x => (k x, x)) l)
  /\ map snd (map (fun x => (k x, x)) l) = l.
Proof.
  induction l as [|x l [IH1 IH2]]; simpl; split; try reflexivity.
  - constructor.
  - constructor; [reflexivity | exact IH1].
  - rewrite IH2. reflexivity.
Qed.

Lemma filter_keyed {A : Type} (k : A -> Z) (c : Z) (l : list A) :
  map snd (filter (fun p => fst p =? c) (map (fun x => (k x, x)) l))
  = filter (fun a => k a =? c) l.
Proof.
  induction l as [|x l IH]; simpl; [reflexivity|].
  destruct (k x =? c); simpl; rewrite IH; reflexivity.
Qed.

Lemma with_frequency_wanted (freq : option string) (f : Frequency)
  (l : list (LoanRequirement * Deadline)) :
  with_frequency f (filter (fun rd => wanted freq (frequency (snd rd))) l)
  = if wanted freq f then with_frequency f l else [].
Proof.
  unfold with_frequency. induction l as [|rd l IH]; cbn [filter].
  - destruct (wanted freq f); reflexivity.
  - destruct (enum_eqb (frequency (snd rd)) f) eqn:E.
    + assert (Heq : frequency (snd rd) = f) by (apply frequency_eqb_eq; exact E).
      destruct (wanted freq f) eqn:W.
      * replace (wanted freq (frequency (snd rd))) with true
          by (rewrite Heq; symmetry; exact W).
        cbn [filter]. rewrite E, IH. reflexivity.
      * replace (wanted freq (frequency (snd rd))) with false
          by (rewrite Heq; symmetry; exact W).
        exact IH.
    + destruct (wanted freq (frequency (snd rd))); cbn [filter]; [rewrite E|];
        exact IH.
Qed.

(** For a loan of the store, [get_deadlines] always returns: one row for each
    requirement that has a deadline and passes the frequency filter (an
    absent or empty filter passes all, a filter that is no frequency value
    passes none), the rows ordered by the frequency of the deadline as
    declared in [Frequency] (monthly first, upon request last), the rows of
    one frequency in the order of the profile, and [total_with_deadlines]
    their number. *)
Theorem deadlines_are_grouped_by_frequency :
  forall (profiles : store) (loan_id : string) (freq : option string)
         (profile : LoanProfile),
    store_get profiles loan_id = Some profile ->
    exists rs : list (LoanRequirement * Deadline),
      get_deadlines profiles loan_id freq
      = Return (PDict [("loan_id", PStr loan_id);
                       ("total_with_deadlines", PInt (Z.of_nat (List.length rs)));
                       ("deadlines",
                        PList (map (fun rd => deadline_row (fst rd) (snd rd)) rs))])
      /\ StronglySorted
           (fun a b => rank (frequency (snd a)) <= rank (frequency (snd b))) rs
      /\ forall f : Frequency,
           with_frequency f rs
           = if wanted freq f then with_frequency f (dated (requirements profile))
             else [].
Proof.
  intros profiles loan_id freq profile Hget.
  set (k := fun rd : LoanRequirement * Deadline => rank (frequency (snd rd))).
  set (l := filter (fun rd => wanted freq (frequency (snd rd)))
              (dated (requirements profile))).
  destruct (keyed_payload k l) as [Hk Hl].
  exists (map snd (sort_by_key (map (fun x => (k x, x)) l))).
  split; [|split].
  - unfold get_deadlines. rewrite Hget. cbv zeta.
    rewrite deadline_rows_dated. fold l. unfold list_sort.
    rewrite (keyed_map sort_key (fun rd => deadline_row (fst rd) (snd rd)) k);
      [|intros [r d]; apply sort_key_row].
    simpl. rewrite sort_by_key_map. rewrite !map_map. simpl.
    rewrite !length_map. reflexivity.
  - apply (sorted_payload k).
    + apply sort_by_key_Forall. exact Hk.
    + apply sort_by_key_sorted.
  - intros f. unfold with_frequency at 1.
    rewrite (filter_ext _ (fun a => k a =? rank f)).
    2:{ intros a. unfold k. rewrite rank_eqb. reflexivity. }
    rewrite (filter_payload k); [|apply sort_by_key_Forall; exact Hk].
    rewrite filter_sort_by_key, filter_keyed.
    rewrite (filter_ext _ (fun rd => enum_eqb (frequency (snd rd)) f)).
    2:{ intros a. unfold k. rewrite rank_eqb. reflexivity. }
    apply with_frequency_wanted.
Qed.

Lemma deadlines_are_grouped_by_frequency_witness :
  let profiles := snd (create_demo_loan "2024-01-01T00:00:00" []) in
  exists rs : list (LoanRequirement * Deadline),
    get_deadlines profiles "DEMO-001" (Some "annual")
    = Return (PDict [("loan_id", PStr "DEMO-001");
                     ("total_with_deadlines", PInt (Z.of_nat (List.length rs)));
                     ("deadlines",
                      PList (map (fun rd => deadline_row (fst rd) (snd rd)) rs))])
    /\ map (fun rd => id (fst rd)) (with_frequency ANNUAL rs)
       = ["REQ-002"; "REQ-004"; "REQ-008"]
    /\ with_frequency MONTHLY rs = [].
Proof.
  intros profiles.
  destruct (deadlines_are_grouped_by_frequency profiles "DEMO-001" (Some "annual")
              (Extractor.Mock_extract_requirements "2024-01-01T00:00:00" ""
                 "DEMO-001"))
    as (rs & Hbody & _ & Hf).
  - vm_compute. reflexivity.
  - exists rs. split; [exact Hbody|]. split.
    + rewrite (Hf ANNUAL). vm_compute. reflexivity.
    + rewrite (Hf MONTHLY). reflexivity.
Defined.

(** *** Queries *)

Lemma filter_true {A : Type} (l : list A) : filter (fun _ => true) l = l.
Proof. induction l as [|x l IH]; simpl; [|rewrite IH]; reflexivity. Qed.

Lemma filter_filter {A : Type} (f g : A -> bool) (l : list A) :
  filter f (filter g l) = filter (fun x => g x && f x) l.
Proof.
  induction l as [|x l IH]; simpl; [reflexivity|].
  destruct (g x); simpl; [destruct (f x)|]; rewrite IH; reflexivity.
Qed.

Lemma stage_passes (o : option string) (v : LoanRequirement -> string)
  (l : list LoanRequirement) :
  match o with
  | Some s => if (s =? "")%string then l
              else filter (fun r => (v r =? s)%string) l
  | None => l
  end
  = filter (fun r => passes o (v r)) l.
Proof.
  destruct o as [s|]; simpl; [|symmetry; apply filter_true].
  destruct (s =? "")%string; simpl; [symmetry; apply filter_true | reflexivity].
Qed.

Lemma stage_category (o : option string) (l : list LoanRequirement) :
  match o with
  | Some c =>
      if (c =? "")%string then l
      else
        match of_value (E := RequirementCategory) c with
        | Some cat_enum => filter (fun r => enum_eqb (category r) cat_enum) l
        | None => l
        end
  | None => l
  end
  = filter (fun r => passes_category o (category r)) l.
Proof.
  unfold passes_category.
  destruct o as [s|]; [|symmetry; apply filter_true].
  destruct (s =? "")%string; cbn [orb]; [symmetry; apply filter_true|].
  destruct (of_value s); [reflexivity | symmetry; apply filter_true].
Qed.

(** the requirements that pass the category, severity and status filters *)
Lemma get_requirements_eq (profiles : store) (loan_id : string)
  (cat sev st q : option string) (profile : LoanProfile) :
  store_get profiles loan_id = Some profile ->
  get_requirements profiles loan_id cat sev st q
  = match
      match q with
      | Some s =>
          if (s =? "")%string
          then Ok (filter (fun r => passes_category cat (category r)
                                    && passes sev (value (severity r))
                                    && passes st (value (Models.status r)))
                     (requirements profile))
          else search_filter (str_lower s)
                 (filter (fun r => passes_category cat (category r)
                                   && passes sev (value (severity r))
                                   && passes st (value (Models.status r)))
                    (requirements profile))
      | None =>
          Ok (filter (fun r => passes_category cat (category r)
                               && passes sev (value (severity r))
                               && passes st (value (Models.status r)))
                (requirements profile))
      end
    with
    | Raise e => Escapes e
    | Ok rs => Return (matched loan_id rs)
    end.
Proof.
  intros Hget. unfold get_requirements. rewrite Hget. cbv zeta.
  rewrite (stage_category cat).
  rewrite (stage_passes sev (fun r => value (severity r))).
  rewrite (stage_passes st (fun r => value (Models.status r))).
  rewrite !filter_filter.
  rewrite (filter_ext _ (fun r => passes_category cat (category r)
                                  && passes sev (value (severity r))
                                  && passes st (value (Models.status r))))
    by (intros r; apply andb_assoc).
  reflexivity.
Qed.

Lemma matches_search_found (sl : string) (r : LoanRequirement) (b : bool) :
  matches_search sl r = Ok b -> (b = true <-> found_in sl r).
Proof.
  unfold matches_search, lower, found_in. intros H.
  destruct (title r) as [| | | |t| |] eqn:Et; try discriminate H. simpl in H.
  destruct (str_contains sl (str_lower t)) eqn:Ct.
  { injection H as <-. split; [intros _|reflexivity].
    exists t. split; [left; reflexivity | exact Ct]. }
  destruct (description r) as [| | | |d| |] eqn:Ed; try discriminate H. simpl in H.
  destruct (str_contains sl (str_lower d)) eqn:Cd.
  { injection H as <-. split; [intros _|reflexivity].
    exists d. split; [right; left; reflexivity | exact Cd]. }
  destruct (plain_language_summary r) as [| | | |p| |] eqn:Ep; try discriminate H.
  simpl in H. injection H as <-. split.
  - intros Cp. exists p. split; [right; right; reflexivity | exact Cp].
  - intros (x & [Hx|[Hx|Hx]] & Cx); injection Hx as <-; congruence.
Qed.

Lemma matches_search_raises (sl : string) (r : LoanRequirement) (e : exn) :
  matches_search sl r = Raise e -> e = AttributeError.
Proof.
  unfold matches_search, lower. intros H.
  destruct (title r) as [| | | |t| |]; simpl in H; try (injection H as <-; reflexivity).
  destruct (str_contains sl (str_lower t)); [discriminate H|].
  destruct (description r) as [| | | |d| |]; simpl in H;
    try (injection H as <-; reflexivity).
  destruct (str_contains sl (str_lower d)); [discriminate H|].
  destruct (plain_language_summary r) as [| | | |p| |]; simpl in H;
    try (injection H as <-; reflexivity).
  discriminate H.
Qed.

Lemma search_filter_ok (sl : string) :
  forall (l rs : list LoanRequirement),
    search_filter sl l = Ok rs ->
    rs = filter (fun r => match matches_search sl r with
                          | Ok true => true
                          | _ => false
                          end) l
    /\ Forall (fun r => exists b, matches_search sl r = Ok b) l.
Proof.
  induction l as [|r l IH]; intros rs H; simpl in H.
  - injection H as <-. split; [reflexivity | constructor].
  - destruct (matches_search sl r) as [b|e] eqn:Em; [|discriminate H].
    simpl in H.
    destruct (search_filter sl l) as [rest|e] eqn:Es; [|discriminate H].
    simpl in H. injection H as <-.
    destruct (IH rest eq_refl) as [-> Hall].
    split.
    + simpl. rewrite Em. destruct b; reflexivity.
    + constructor; [exists b; exact Em | exact Hall].
Qed.

Lemma search_filter_raises (sl : string) :
  forall (l : list LoanRequirement) (e : exn),
    search_filter sl l = Raise e -> e = AttributeError.
Proof.
  induction l as [|r l IH]; intros e H; simpl in H; [discriminate H|].
  destruct (matches_search sl r) as [b|e'] eqn:Em.
  - simpl in H. destruct (search_filter sl l) as [rest|e'] eqn:Es; [discriminate H|].
    simpl in H. injection H as <-. apply IH. reflexivity.
  - simpl in H. injection H as <-. eapply matches_search_raises. exact Em.
Qed.

(** what a returned body holds *)
Lemma get_requirements_returned :
  forall (profiles : store) (loan_id : string) (cat sev st q : option string)
         (profile : LoanProfile) (body : pyval),
    store_get profiles loan_id = Some profile ->
    get_requirements profiles loan_id cat sev st q = Return body ->
    exists rs : list LoanRequirement,
      body = matched loan_id rs
      /\ (exists keep, rs = filter keep (requirements profile))
      /\ forall r,
           In r rs <->
           In r (requirements profile)
           /\ passes_category cat (category r) = true
           /\ passes sev (value (severity r)) = true
           /\ passes st (value (Models.status r)) = true
           /\ (forall s, in_force q s -> found_in (str_lower s) r).
Proof.
  intros profiles loan_id cat sev st q profile body Hget H.
  rewrite (get_requirements_eq _ _ _ _ _ _ _ Hget) in H.
  set (p := fun r => passes_category cat (category r)
                     && passes sev (value (severity r))
                     && passes st (value (Models.status r))) in *.
  assert (Hp : forall r, In r (filter p (requirements profile)) <->
                         In r (requirements profile)
                         /\ passes_category cat (category r) = true
                         /\ passes sev (value (severity r)) = true
                         /\ passes st (value (Models.status r)) = true).
  { intros r. rewrite filter_In. unfold p. rewrite !andb_true_iff. tauto. }
  assert (Hplain :
            (forall s, ~ in_force q s) ->
            Return (matched loan_id (filter p (requirements profile))) = Return body ->
            exists rs : list LoanRequirement,
              body = matched loan_id rs
              /\ (exists keep, rs = filter keep (requirements profile))
              /\ forall r,
                   In r rs <->
                   In r (requirements profile)
                   /\ passes_category cat (category r) = true
                   /\ passes sev (value (severity r)) = true
                   /\ passes st (value (Models.status r)) = true
                   /\ (forall s, in_force q s -> found_in (str_lower s) r)).
  { intros Hno Hb. injection Hb as <-.
    exists (filter p (requirements profile)).
    split; [reflexivity|]. split; [exists p; reflexivity|].
    intros r. rewrite Hp. split.
    - intros (H1 & H2 & H3 & H4). repeat (split; [assumption|]).
      intros s Hs. destruct (Hno s Hs).
    - intros (H1 & H2 & H3 & H4 & _). repeat (split; [assumption|]). assumption. }
  destruct q as [s|].
  2:{ apply Hplain; [|exact H]. intros s [Hs _]. discriminate Hs. }
  destruct (s =? "")%string eqn:Es.
  { apply Hplain; [|exact H]. intros s' [Hs' Hne]. injection Hs' as <-.
    apply String.eqb_eq in Es. contradiction. }
  apply String.eqb_neq in Es.
  destruct (search_filter (str_lower s) (filter p (requirements profile)))
    as [rs|e] eqn:Esf; [|discriminate H].
  injection H as <-.
  destruct (search_filter_ok _ _ _ Esf) as [Hrs Hall].
  exists rs. split; [reflexivity|]. split.
  { rewrite Hrs, filter_filter. eexists. reflexivity. }
  intros r. rewrite Hrs, filter_In, Hp. rewrite Forall_forall in Hall. split.
  - intros [(H1 & H2 & H3 & H4) Hm]. repeat (split; [assumption|]).
    intros s' [Hs' _]. injection Hs' as <-.
    destruct (matches_search (str_lower s) r) as [[|]|] eqn:Em; try discriminate Hm.
    apply (matches_search_found _ _ _ Em). reflexivity.
  - intros (H1 & H2 & H3 & H4 & Hf).
    assert (Hin : In r (filter p (requirements profile))) by (apply Hp; tauto).
    split; [tauto|].
    destruct (Hall r Hin) as [b Em]. rewrite Em.
    assert (Hb : b = true).
    { apply (matches_search_found _ _ _ Em). apply Hf. split; [reflexivity | exact Es]. }
    rewrite Hb. reflexivity.
Qed.

Lemma matches_search_total (sl : string) (r : LoanRequirement) :
  is_str (title r) && is_str (description r) && is_str (plain_language_summary r)
  = true ->
  exists b, matches_search sl r = Ok b.
Proof.
  rewrite !andb_true_iff. intros [[Ht Hd] Hp]. unfold matches_search, lower.
  destruct (title r) as [| | | |t| |]; try discriminate Ht.
  destruct (description r) as [| | | |d| |]; try discriminate Hd.
  destruct (plain_language_summary r) as [| | | |p| |]; try discriminate Hp.
  simpl. destruct (str_contains sl (str_lower t)); [eexists; reflexivity|].
  destruct (str_contains sl (str_lower d)); eexists; reflexivity.
Qed.

Lemma search_filter_total (sl : string) (l : list LoanRequirement) :
  Forall (fun r => is_str (title r) && is_str (description r)
                   && is_str (plain_language_summary r) = true) l ->
  exists rs, search_filter sl l = Ok rs.
Proof.
  induction 1 as [|r l Hr _ [rs IH]]; simpl; [eexists; reflexivity|].
  destruct (matches_search_total sl r Hr) as [b Hb].
  rewrite Hb, IH. simpl. eexists. reflexivity.
Qed.

(** For a stored loan whose requirements have strings as title, description
    and summary, or for a query without search text, [get_requirements]
    returns, and its rows are those of the requirements of the profile, in
    the profile's order, that pass every filter of the query: the category
    filter (which an unknown category does not restrict), the exact severity
    and status values, and the search text, lower-cased, found in the
    lower-cased title, description or summary; [total_matched] is their
    number. *)
Theorem get_requirements_applies_every_filter :
  forall (profiles : store) (loan_id : string) (cat sev st q : option string)
         (profile : LoanProfile),
    store_get profiles loan_id = Some profile ->
    (forall s, ~ in_force q s)
    \/ Forall (fun r => is_str (title r) && is_str (description r)
                        && is_str (plain_language_summary r) = true)
         (requirements profile) ->
    exists rs : list LoanRequirement,
      get_requirements profiles loan_id cat sev st q = Return (matched loan_id rs)
      /\ (exists keep, rs = filter keep (requirements profile))
      /\ forall r,
           In r rs <->
           In r (requirements profile)
           /\ passes_category cat (category r) = true
           /\ passes sev (value (severity r)) = true
           /\ passes st (value (Models.status r)) = true
           /\ (forall s, in_force q s -> found_in (str_lower s) r).
Proof.
  intros profiles loan_id cat sev st q profile Hget Hpre.
  assert (exists body, get_requirements profiles loan_id cat sev st q = Return body)
    as [body Hbody].
  { rewrite (get_requirements_eq _ _ _ _ _ _ _ Hget).
    destruct q as [s|]; [|eexists; reflexivity].
    destruct (s =? "")%string eqn:Es; [eexists; reflexivity|].
    destruct Hpre as [Hno|Hstr].
    - exfalso. apply (Hno s). split; [reflexivity|].
      apply String.eqb_neq. exact Es.
    - match goal with
      | |- context [search_filter ?sl ?l] =>
          destruct (search_filter_total sl l) as [rs Hrs]
      end.
      + rewrite Forall_forall in *. intros r Hr. apply Hstr.
        apply filter_In in Hr. tauto.
      + rewrite Hrs. eexists. reflexivity. }
  destruct (get_requirements_returned _ _ _ _ _ _ _ _ Hget Hbody)
    as (rs & -> & Hkeep & Hin).
  exists rs. split; [exact Hbody|]. split; assumption.
Qed.

Lemma get_requirements_applies_every_filter_witness :
  let profiles := snd (create_demo_loan "2024-01-01T00:00:00" []) in
  exists rs : list LoanRequirement,
    get_requirements profiles "DEMO-001" (Some "no such category")
      (Some "critical") None (Some "DSCR")
    = Return (matched "DEMO-001" rs)
    /\ forall r, In r rs -> value (severity r) = "critical".
Proof.
  intros profiles.
  destruct (get_requirements_applies_every_filter profiles "DEMO-001"
              (Some "no such category") (Some "critical") None (Some "DSCR")
              (Extractor.Mock_extract_requirements "2024-01-01T00:00:00" ""
                 "DEMO-001"))
    as (rs & Hbody & _ & Hin).
  - vm_compute. reflexivity.
  - right. repeat constructor.
  - exists rs. split; [exact Hbody|].
    intros r Hr. apply Hin in Hr. destruct Hr as (_ & _ & Hsev & _).
    unfold passes in Hsev. cbn [String.eqb Ascii.eqb Bool.eqb orb] in Hsev.
    apply String.eqb_eq in Hsev. exact Hsev.
Defined.

Lemma search_filter_null_title (sl : string) (l : list LoanRequirement) :
  Exists (fun r => is_str (title r) = false) l ->
  search_filter sl l = Raise AttributeError.
Proof.
  induction 1 as [r l Hr|r l _ IH]; simpl.
  - unfold matches_search, lower.
    destruct (title r); try discriminate Hr; reflexivity.
  - destruct (matches_search sl r) as [b|e] eqn:Em; simpl.
    + rewrite IH. reflexivity.
    + apply matches_search_raises in Em. rewrite Em. reflexivity.
Qed.

(** A search over a loan that holds a requirement whose title is not a
    string (a null title, say) and which passes the other filters of the
    query does not return: AttributeError escapes the handler. *)
Theorem search_with_a_null_title_escapes :
  forall (profiles : store) (loan_id : string) (cat sev st : option string)
         (s : string) (profile : LoanProfile),
    store_get profiles loan_id = Some profile ->
    s <> "" ->
    Exists (fun r => is_str (title r) = false
                     /\ passes_category cat (category r) = true
                     /\ passes sev (value (severity r)) = true
                     /\ passes st (value (Models.status r)) = true)
      (requirements profile) ->
    get_requirements profiles loan_id cat sev st (Some s) = Escapes AttributeError.
Proof.
  intros profiles loan_id cat sev st s profile Hget Hs Hex.
  rewrite (get_requirements_eq _ _ _ _ _ _ _ Hget).
  apply String.eqb_neq in Hs. rewrite Hs.
  rewrite search_filter_null_title; [reflexivity|].
  apply Exists_exists in Hex. destruct Hex as (r & Hr & Ht & Hc & Hv & Hst).
  apply Exists_exists. exists r. split; [|exact Ht].
  apply filter_In. split; [exact Hr|]. rewrite Hc, Hv, Hst. reflexivity.
Qed.

Lemma search_with_a_null_title_escapes_witness :
  exists r,
    _build_requirement (PDict [("title", PNone); ("severity", PStr "high")]) 1 = Ok r
    /\ get_requirements
         [("LOAN-001", profile_of [r])] "LOAN-001" None (Some "high") None
         (Some "insurance")
       = Escapes AttributeError.
Proof.
  eexists. split; [reflexivity|].
  eapply search_with_a_null_title_escapes.
  - reflexivity.
  - discriminate.
  - apply Exists_cons_hd. repeat split.
Defined.

End ApiFacts.
